(** * Dash-3: the stats store, the platform adapters and the request layer

    A shallow embedding of [server/storage.ts] (class [MemStorage]),
    [server/services/apiServices.ts] (the four platform adapters and their
    factory), the signature check of the payment service and the user,
    api-key, stats, posts and subscription handlers of [server/routes.ts].
    The creation of payment orders is not part of it.

    Conventions.
    - A JavaScript [number] is an integer [Z], or [NaN] where the code can
      see one (the result of [Number(...)] on a query parameter).  Fractional
      and infinite values are outside the model.
    - [async] code is sequential: every call is awaited.  A computation is a
      function from the state (store and outside world) to a result which
      either returns, throws, or is cut off for want of fuel; fuel bounds the
      depth of the mutual recursion between the store and the adapters.
    - The outside world (clock, outbound HTTP to YouTube, [Math.random]) is an
      oracle carried in the state, together with a ghost trace of the calls
      that were made.  Every [new Date()], every [fetch] and every
      [Math.random()] of the code is one step of its oracle.
    - [Array.prototype.sort] is fixed by the language when its comparator is
      consistent; the date comparator of [getPosts] is consistent when every
      date parses, and statements about the order of posts are made under
      that condition only. *)

From Stdlib Require Import ZArith List Permutation Sorted QArith_base Ascii DecimalString Lia.
From Stdlib Require DecimalZ DecimalPos.
From stdpp Require Import base option strings list sorting gmap.

Local Open Scope Z_scope.

(** ** JavaScript numbers and strings *)

Inductive jsnum : Type :=
  | NaN
  | Num (z : Z).

(** [x || d] for a number [x]: [NaN] and [0] are falsy. *)
Definition or_default (x : jsnum) (d : Z) : Z :=
  match x with
  | NaN => d
  | Num z => if Z.eqb z 0 then d else z
  end.

(** [!!s] for a string [s] that may be [null] or [undefined]. *)
Definition truthy (s : option string) : bool :=
  match s with
  | Some s => negb (String.eqb s "")
  | None => false
  end.

(** [s || null] *)
Definition or_null (s : option string) : option string :=
  if truthy s then s else None.

(** Template-literal rendering of an integer: all its digits.  (From 10^21
    on JavaScript prints a number in exponent form; user ids and windows of
    that size are outside the model.) *)
Definition string_of_Z (z : Z) : string :=
  NilZero.string_of_int (Z.to_int z).

(** [s.replace(pat, by)]: the first occurrence only. *)
Fixpoint replace_first (pat by_ s : string) : string :=
  match s with
  | EmptyString => if String.prefix pat s then by_ else s
  | String c s' =>
      if String.prefix pat s
      then by_ +:+ String.substring (String.length pat) (String.length s) s
      else String c (replace_first pat by_ s')
  end.

(** [Array.prototype.slice(start, end)] on integer arguments. *)
Definition rel_index (len k : Z) : Z :=
  if k <? 0 then Z.max (len + k) 0 else Z.min k len.

Definition slice {A : Type} (l : list A) (start end_ : Z) : list A :=
  let len := Z.of_nat (length l) in
  let from := rel_index len start in
  let to := rel_index len end_ in
  firstn (Z.to_nat (to - from)) (skipn (Z.to_nat from) l).

(** [Math.ceil(a / b)] for integers, [b <> 0]. *)
Definition ceil_div (a b : Z) : Z := - ((- a) / b).

(** ** A JavaScript [Map]: keys in insertion order *)

Module JsMap.
Section JsMap.
Context {V : Type}.

Definition t := list (Z * V).

Definition empty : t := [].

Fixpoint get (k : Z) (m : t) : option V :=
  match m with
  | [] => None
  | (k', v) :: m' => if Z.eqb k k' then Some v else get k m'
  end.

(** [set] keeps the position of a key that is already there. *)
Fixpoint set (k : Z) (v : V) (m : t) : t :=
  match m with
  | [] => [(k, v)]
  | (k', v') :: m' =>
      if Z.eqb k k' then (k, v) :: m' else (k', v') :: set k v m'
  end.

Definition values (m : t) : list V := map snd m.

Definition keys (m : t) : list Z := map fst m.

End JsMap.
Arguments t : clear implicits.
End JsMap.

(** ** Data model ([shared/schema.ts]) *)

Module SocialPost.
Record t : Type := {
  id : string;
  platform : string;
  title : string;
  thumbnailUrl : option string;
  views : Z;
  likes : Z;
  comments : Z;
  shares : Z;
  datePosted : string;
  postUrl : string
}.
End SocialPost.

(** [ExtendedSocialStats]: [SocialStats] with the two optional error fields. *)
Module SocialStats.
Record t : Type := {
  platform : string;
  followers : Z;
  followersGrowth : Q;
  views : Z;
  viewsGrowth : Q;
  engagement : Z;
  engagementGrowth : Q;
  posts : list SocialPost.t;
  lastUpdated : string;
  errorMessage : option string;
  isApiError : option bool
}.
End SocialStats.

Module User.
Record t : Type := {
  id : Z;
  username : string;
  email : string;
  password : option string;
  firebaseUid : string;
  avatarUrl : option string;
  isPro : bool;
  lastLogin : option string;
  isFirstLogin : bool
}.
End User.

Module InsertUser.
Record t : Type := {
  username : string;
  email : string;
  password : option string;
  firebaseUid : string;
  avatarUrl : option string
}.
End InsertUser.

(** [Partial<User>]: [None] is a key that is not in the object. *)
Module PartialUser.
Record t : Type := {
  id : option Z;
  username : option string;
  email : option string;
  password : option (option string);
  firebaseUid : option string;
  avatarUrl : option (option string);
  isPro : option bool;
  lastLogin : option (option string);
  isFirstLogin : option bool
}.
End PartialUser.

Module ApiKey.
Record t : Type := {
  id : Z;
  userId : Z;
  youtubeKey : option string;
  instagramKey : option string;
  twitterKey : option string;
  facebookKey : option string
}.
End ApiKey.

(** The validated body of [POST /api/apikeys]: a key that is absent is
    [None], a key sent as [null] is [Some None]. *)
Module InsertApiKey.
Record t : Type := {
  userId : Z;
  youtubeKey : option (option string);
  instagramKey : option (option string);
  twitterKey : option (option string);
  facebookKey : option (option string)
}.
End InsertApiKey.

Module PartialApiKey.
Record t : Type := {
  id : option Z;
  userId : option Z;
  youtubeKey : option (option string);
  instagramKey : option (option string);
  twitterKey : option (option string);
  facebookKey : option (option string)
}.
End PartialApiKey.

(** [{...a, k: v}] for one optional key of a partial object. *)
Definition spread {A : Type} (old : A) (new : option A) : A :=
  match new with
  | Some v => v
  | None => old
  end.

(** A value read from an object by a computed field name. *)
Inductive jsval : Type :=
  | VUndefined
  | VNull
  | VNum (z : Z)
  | VStr (s : string).

Definition of_nullable (s : option string) : jsval :=
  match s with
  | Some s => VStr s
  | None => VNull
  end.

(** [apiKeys[name]] *)
Definition ApiKey_field (k : ApiKey.t) (name : string) : jsval :=
  if String.eqb name "id" then VNum (ApiKey.id k)
  else if String.eqb name "userId" then VNum (ApiKey.userId k)
  else if String.eqb name "youtubeKey" then of_nullable (ApiKey.youtubeKey k)
  else if String.eqb name "instagramKey" then of_nullable (ApiKey.instagramKey k)
  else if String.eqb name "twitterKey" then of_nullable (ApiKey.twitterKey k)
  else if String.eqb name "facebookKey" then of_nullable (ApiKey.facebookKey k)
  else VUndefined.

(** [apiKeys?.[name]] *)
Definition opt_field (k : option ApiKey.t) (name : string) : jsval :=
  match k with
  | Some k => ApiKey_field k name
  | None => VUndefined
  end.

(** A truthy value, as the string the adapter receives; [None] when falsy. *)
Definition as_key (v : jsval) : option string :=
  match v with
  | VStr s => if String.eqb s "" then None else Some s
  | VNum z => if Z.eqb z 0 then None else Some (string_of_Z z)
  | VNull | VUndefined => None
  end.

(** [apiKeys && !!apiKeys[name]]: [undefined] when there is no record. *)
Definition is_connected (k : option ApiKey.t) (name : string) : option bool :=
  match k with
  | Some k => Some (bool_decide (is_Some (as_key (ApiKey_field k name))))
  | None => None
  end.

Definition platforms : list string := ["youtube"; "instagram"; "twitter"; "facebook"].

(** The cache key [`${userId}:${platform}:${days}`]. *)
Definition stats_key (userId : Z) (platform : string) (days : Z) : string :=
  string_of_Z userId +:+ ":" +:+ platform +:+ ":" +:+ string_of_Z days.

(** ** The store and the outside world *)

Record MemStorage : Type := {
  users : JsMap.t User.t;
  platformApiKeys : JsMap.t ApiKey.t;
  socialStats : gmap string SocialStats.t;
  currentUserId : Z;
  currentApiKeyId : Z
}.

(** What the YouTube adapter reads of the YouTube Data API: one element of
    [channelData.items] (its [statistics]), of [videosData.items] and of
    [videoStatsData.items] (its [statistics], [None] when the element has
    none).  An element that is there has the fields the code reads, and the
    counters are already through [parseInt(.., 10) || 0]. *)
Record Channel : Type := {
  subscriberCount : Z;
  channelViewCount : Z;
  channelCommentCount : Z
}.

Record SearchItem : Type := {
  videoId : string;
  snippetTitle : string;
  thumbnail : string;
  publishedAt : string
}.

Record VideoStatistics : Type := {
  viewCount : Z;
  likeCount : Z;
  commentCount : Z
}.

(** The JSON body of a response, as each of the three reads of the adapter
    sees its [items]; [None] where the body has no such array. *)
Record ApiBody : Type := {
  channel_items : option (list Channel);
  search_items : option (list SearchItem);
  video_items : option (list (option VideoStatistics))
}.

(** What one [await fetch(url)] and the reading of the body give:
    [response.ok] and the body; not [response.ok] and
    [errorData.error?.message]; or a rejection, of [fetch] or of [json()],
    with an error of the given message. *)
Inductive FetchOutcome : Type :=
  | FetchOk (body : ApiBody)
  | FetchNotOk (message : option string)
  | FetchErr (message : string).

(** The outcome of a live fetch that went through: the channel, the videos
    found, their statistics, and the three values of [getRandomGrowth()]. *)
Record LiveData : Type := {
  live_channel : Channel;
  live_items : list SearchItem;
  live_videoStats : list (option VideoStatistics);
  growth1 : Z;
  growth2 : Z;
  growth3 : Z
}.

Inductive Event : Type :=
  | CallGetPlatformStats (userId : Z) (platform : string) (days : Z)
  | CallGetAllPlatformStats (userId days : Z)
  | CallGetPosts (userId : Z) (platform : string) (days page limit : Z)
  | CallFactory (platform : string)
  | Outbound (platform : string).

(** [fetch_at n] answers the [n]-th [fetch], [random_at n] is the value of
    [Math.floor(Math.random() * 10)] at the [n]-th draw, [now_at n] is the
    [n]-th reading of the clock; [trace] is ghost state, most recent event
    first. *)
Record World : Type := {
  fetch_at : nat -> FetchOutcome;
  fetched : nat;
  random_at : nat -> Z;
  drawn : nat;
  now_at : nat -> string;
  ticks : nat;
  trace : list Event
}.

Record State : Type := {
  store : MemStorage;
  world : World
}.

Inductive Res (A : Type) : Type :=
  | Ret (a : A) (s : State)
  | Throw (e : string) (s : State)
  | OutOfFuel.
Arguments Ret {A} a s.
Arguments Throw {A} e s.
Arguments OutOfFuel {A}.

Definition M (A : Type) : Type := State -> Res A.

Definition ret {A : Type} (a : A) : M A := fun s => Ret a s.

Definition bind {A B : Type} (m : M A) (k : A -> M B) : M B :=
  fun s =>
    match m s with
    | Ret a s' => k a s'
    | Throw e s' => Throw e s'
    | OutOfFuel => OutOfFuel
    end.

Definition throw {A : Type} (e : string) : M A := fun s => Throw e s.

Definition try_catch {A : Type} (m : M A) (handler : string -> M A) : M A :=
  fun s =>
    match m s with
    | Throw e s' => handler e s'
    | r => r
    end.

Declare Scope js_scope.
Delimit Scope js_scope with js.
Notation "'let*' x := m 'in' k" := (bind m (fun x => k))
  (at level 10, x name, m at level 100, k at level 200) : js_scope.
Notation "'run' m 'in' k" := (bind m (fun _ => k))
  (at level 10, m at level 100, k at level 200) : js_scope.
Local Open Scope js_scope.

Definition with_store (s : State) (st : MemStorage) : State :=
  {| store := st; world := world s |}.

Definition with_world (s : State) (w : World) : State :=
  {| store := store s; world := w |}.

Definition logged (e : Event) (s : State) : State :=
  let w := world s in
  with_world s {| fetch_at := fetch_at w; fetched := fetched w;
                  random_at := random_at w; drawn := drawn w;
                  now_at := now_at w; ticks := ticks w;
                  trace := e :: trace w |}.

Definition log (e : Event) : M unit := fun s => Ret tt (logged e s).

Definition ticked (s : State) : State :=
  let w := world s in
  with_world s {| fetch_at := fetch_at w; fetched := fetched w;
                  random_at := random_at w; drawn := drawn w;
                  now_at := now_at w; ticks := S (ticks w);
                  trace := trace w |}.

(** [new Date()] *)
Definition now : M string :=
  fun s => Ret (now_at (world s) (ticks (world s))) (ticked s).

Definition sent (s : State) : State :=
  let w := world s in
  with_world s {| fetch_at := fetch_at w; fetched := S (fetched w);
                  random_at := random_at w; drawn := drawn w;
                  now_at := now_at w; ticks := ticks w;
                  trace := trace w |}.

Definition outbound : M FetchOutcome :=
  fun s => Ret (fetch_at (world s) (fetched (world s))) (sent s).

Definition drew (s : State) : State :=
  let w := world s in
  with_world s {| fetch_at := fetch_at w; fetched := fetched w;
                  random_at := random_at w; drawn := S (drawn w);
                  now_at := now_at w; ticks := ticks w;
                  trace := trace w |}.

(** [Math.floor(Math.random() * 10) - 2] *)
Definition getRandomGrowth : M Z :=
  fun s => Ret (random_at (world s) (drawn (world s)) - 2) (drew s).

(** ** [MemStorage]: users and credentials *)

Definition getUser (id : Z) : M (option User.t) :=
  fun s => Ret (JsMap.get id (users (store s))) s.

Definition createUser (insertUser : InsertUser.t) : M User.t :=
  let* t := now in
  fun s =>
    let st := store s in
    let id := currentUserId st in
    let user :=
      {| User.id := id;
         User.username := InsertUser.username insertUser;
         User.email := InsertUser.email insertUser;
         User.password := or_null (InsertUser.password insertUser);
         User.firebaseUid := InsertUser.firebaseUid insertUser;
         User.avatarUrl := or_null (InsertUser.avatarUrl insertUser);
         User.isPro := false;
         User.lastLogin := Some t;
         User.isFirstLogin := true |} in
    Ret user
        (with_store s {| users := JsMap.set id user (users st);
                         platformApiKeys := platformApiKeys st;
                         socialStats := socialStats st;
                         currentUserId := id + 1;
                         currentApiKeyId := currentApiKeyId st |}).

(** [{...user, ...data}] *)
Definition merge_user (user : User.t) (data : PartialUser.t) : User.t :=
  {| User.id := spread (User.id user) (PartialUser.id data);
     User.username := spread (User.username user) (PartialUser.username data);
     User.email := spread (User.email user) (PartialUser.email data);
     User.password := spread (User.password user) (PartialUser.password data);
     User.firebaseUid := spread (User.firebaseUid user) (PartialUser.firebaseUid data);
     User.avatarUrl := spread (User.avatarUrl user) (PartialUser.avatarUrl data);
     User.isPro := spread (User.isPro user) (PartialUser.isPro data);
     User.lastLogin := spread (User.lastLogin user) (PartialUser.lastLogin data);
     User.isFirstLogin := spread (User.isFirstLogin user) (PartialUser.isFirstLogin data) |}.

Definition updateUser (id : Z) (data : PartialUser.t) : M (option User.t) :=
  fun s =>
    let st := store s in
    match JsMap.get id (users st) with
    | None => Ret None s
    | Some user =>
        let updatedUser := merge_user user data in
        Ret (Some updatedUser)
            (with_store s {| users := JsMap.set id updatedUser (users st);
                             platformApiKeys := platformApiKeys st;
                             socialStats := socialStats st;
                             currentUserId := currentUserId st;
                             currentApiKeyId := currentApiKeyId st |})
    end.

(** [Array.from(map.values()).find(apiKey => apiKey.userId === userId)] *)
Definition find_by_user (userId : Z) (m : JsMap.t ApiKey.t) : option ApiKey.t :=
  List.find (fun apiKey => Z.eqb (ApiKey.userId apiKey) userId) (JsMap.values m).

Definition getApiKeys (userId : Z) : M (option ApiKey.t) :=
  fun s => Ret (find_by_user userId (platformApiKeys (store s))) s.

Definition saveApiKeys (insertApiKey : InsertApiKey.t) : M ApiKey.t :=
  fun s =>
    let st := store s in
    let id := currentApiKeyId st in
    let apiKey :=
      {| ApiKey.id := id;
         ApiKey.userId := InsertApiKey.userId insertApiKey;
         ApiKey.youtubeKey := or_null (mjoin (InsertApiKey.youtubeKey insertApiKey));
         ApiKey.instagramKey := or_null (mjoin (InsertApiKey.instagramKey insertApiKey));
         ApiKey.twitterKey := or_null (mjoin (InsertApiKey.twitterKey insertApiKey));
         ApiKey.facebookKey := or_null (mjoin (InsertApiKey.facebookKey insertApiKey)) |} in
    Ret apiKey
        (with_store s {| users := users st;
                         platformApiKeys := JsMap.set id apiKey (platformApiKeys st);
                         socialStats := socialStats st;
                         currentUserId := currentUserId st;
                         currentApiKeyId := id + 1 |}).

Definition merge_api_key (apiKey : ApiKey.t) (data : PartialApiKey.t) : ApiKey.t :=
  {| ApiKey.id := spread (ApiKey.id apiKey) (PartialApiKey.id data);
     ApiKey.userId := spread (ApiKey.userId apiKey) (PartialApiKey.userId data);
     ApiKey.youtubeKey := spread (ApiKey.youtubeKey apiKey) (PartialApiKey.youtubeKey data);
     ApiKey.instagramKey := spread (ApiKey.instagramKey apiKey) (PartialApiKey.instagramKey data);
     ApiKey.twitterKey := spread (ApiKey.twitterKey apiKey) (PartialApiKey.twitterKey data);
     ApiKey.facebookKey := spread (ApiKey.facebookKey apiKey) (PartialApiKey.facebookKey data) |}.

Definition updateApiKeys (userId : Z) (data : PartialApiKey.t) : M (option ApiKey.t) :=
  fun s =>
    let st := store s in
    match find_by_user userId (platformApiKeys st) with
    | None => Ret None s
    | Some apiKey =>
        let updatedApiKey := merge_api_key apiKey data in
        Ret (Some updatedApiKey)
            (with_store s {| users := users st;
                             platformApiKeys :=
                               JsMap.set (ApiKey.id apiKey) updatedApiKey (platformApiKeys st);
                             socialStats := socialStats st;
                             currentUserId := currentUserId st;
                             currentApiKeyId := currentApiKeyId st |})
    end.

Definition cache_get (key : string) : M (option SocialStats.t) :=
  fun s => Ret (socialStats (store s) !! key) s.

Definition cached (key : string) (v : SocialStats.t) (s : State) : State :=
  let st := store s in
  with_store s {| users := users st;
                  platformApiKeys := platformApiKeys st;
                  socialStats := <[key := v]> (socialStats st);
                  currentUserId := currentUserId st;
                  currentApiKeyId := currentApiKeyId st |}.

Definition cache_set (key : string) (v : SocialStats.t) : M unit :=
  fun s => Ret tt (cached key v s).

(** ** Platform adapters and their factory ([apiServices.ts]) *)

Inductive Service : Type :=
  | YouTubeApiService
  | TwitterApiService
  | InstagramApiService
  | FacebookApiService.

(** The platform literal each adapter passes back to the store. *)
Definition service_platform (svc : Service) : string :=
  match svc with
  | YouTubeApiService => "youtube"
  | TwitterApiService => "twitter"
  | InstagramApiService => "instagram"
  | FacebookApiService => "facebook"
  end.

Definition service_label (svc : Service) : string :=
  match svc with
  | YouTubeApiService => "YouTube"
  | TwitterApiService => "Twitter"
  | InstagramApiService => "Instagram"
  | FacebookApiService => "Facebook"
  end.

Definition video_post (item : SearchItem) (videoStats : VideoStatistics) : SocialPost.t :=
  {| SocialPost.id := videoId item;
     SocialPost.platform := "youtube";
     SocialPost.title := snippetTitle item;
     SocialPost.thumbnailUrl := Some (thumbnail item);
     SocialPost.views := viewCount videoStats;
     SocialPost.likes := likeCount videoStats;
     SocialPost.comments := commentCount videoStats;
     SocialPost.shares := 0;
     SocialPost.datePosted := publishedAt item;
     SocialPost.postUrl := "https://youtube.com/watch?v=" +:+ videoId item |}.

(** [videoStatsData.items[index]?.statistics || {viewCount: 0, likeCount: 0,
    commentCount: 0}] *)
Definition statistics_at (videoStatsItems : list (option VideoStatistics)) (index : nat)
    : VideoStatistics :=
  default {| viewCount := 0; likeCount := 0; commentCount := 0 |}
          (mjoin (videoStatsItems !! index)).

(** [videosData.items.map((item, index) => ...)] *)
Definition video_posts (items : list SearchItem)
    (videoStatsItems : list (option VideoStatistics)) : list SocialPost.t :=
  imap (fun index item => video_post item (statistics_at videoStatsItems index)) items.

Definition live_stats (d : LiveData) (t : string) : SocialStats.t :=
  {| SocialStats.platform := "youtube";
     SocialStats.followers := subscriberCount (live_channel d);
     SocialStats.followersGrowth := inject_Z (growth1 d);
     SocialStats.views := channelViewCount (live_channel d);
     SocialStats.viewsGrowth := inject_Z (growth2 d);
     SocialStats.engagement := channelCommentCount (live_channel d);
     SocialStats.engagementGrowth := inject_Z (growth3 d);
     SocialStats.posts := video_posts (live_items d) (live_videoStats d);
     SocialStats.lastUpdated := t;
     SocialStats.errorMessage := None;
     SocialStats.isApiError := None |}.

(** [{...existingData, lastUpdated: .., errorMessage: .., isApiError: true}] *)
Definition annotate (existingData : SocialStats.t) (t message : string) : SocialStats.t :=
  {| SocialStats.platform := SocialStats.platform existingData;
     SocialStats.followers := SocialStats.followers existingData;
     SocialStats.followersGrowth := SocialStats.followersGrowth existingData;
     SocialStats.views := SocialStats.views existingData;
     SocialStats.viewsGrowth := SocialStats.viewsGrowth existingData;
     SocialStats.engagement := SocialStats.engagement existingData;
     SocialStats.engagementGrowth := SocialStats.engagementGrowth existingData;
     SocialStats.posts := SocialStats.posts existingData;
     SocialStats.lastUpdated := t;
     SocialStats.errorMessage := Some message;
     SocialStats.isApiError := Some true |}.

(** [`YouTube API error: ${errorData.error?.message || 'Unknown error'}`] *)
Definition api_error (message : option string) : string :=
  "YouTube API error: " +:+ default "Unknown error" (or_null message).

(** The message of the [TypeError] for reading [property] of [undefined],
    in the wording of V8. *)
Definition type_error (property : string) : string :=
  "Cannot read properties of undefined (reading '" +:+ property +:+ "')".

(** One request of the YouTube adapter: [await fetch(url)], the check of
    [response.ok], and [await response.json()]. *)
Definition request : M ApiBody :=
  run log (Outbound "youtube") in
  let* response := outbound in
  match response with
  | FetchOk body => ret body
  | FetchNotOk message => throw (api_error message)
  | FetchErr message => throw message
  end.

(** The [try] block of the YouTube adapter after the check of the key: two
    readings of the clock ([endDate], [startDate]), the requests for the
    channel, for its videos and for their statistics, three values of
    [getRandomGrowth()], and the reading of the clock for [lastUpdated]. *)
Definition YouTube_fetch : M SocialStats.t :=
  run now in
  run now in
  let* channelData := request in
  match channel_items channelData with
  | None | Some [] => throw "Channel not found"
  | Some (channel :: _) =>
      let* videosData := request in
      match search_items videosData with
      | None => throw (type_error "map")
      | Some items =>
          let* videoStatsData := request in
          match video_items videoStatsData, items with
          | None, _ :: _ => throw (type_error "0")
          | videoStatsItems, _ =>
              let* followersGrowth := getRandomGrowth in
              let* viewsGrowth := getRandomGrowth in
              let* engagementGrowth := getRandomGrowth in
              let* lastUpdated := now in
              ret (live_stats {| live_channel := channel;
                                 live_items := items;
                                 live_videoStats := default [] videoStatsItems;
                                 growth1 := followersGrowth;
                                 growth2 := viewsGrowth;
                                 growth3 := engagementGrowth |} lastUpdated)
          end
      end
  end.

(** The [try] block of an adapter: the live fetch. *)
Definition live_fetch (svc : Service) (apiKey : string) : M SocialStats.t :=
  if String.eqb apiKey "" then throw (service_label svc +:+ " API key is required")
  else
    match svc with
    | YouTubeApiService => YouTube_fetch
    | _ => throw (service_label svc +:+ " API implementation in progress")
    end.

(** An adapter's [getPlatformStats]; [storage_getPlatformStats] is the
    store method its [catch] block calls. *)
Definition Service_getPlatformStats_with
    (storage_getPlatformStats : Z -> string -> Z -> M (option SocialStats.t))
    (svc : Service) (userId : Z) (apiKey : string) (days : Z) : M SocialStats.t :=
  try_catch (live_fetch svc apiKey)
    (fun message =>
       let* existingData := storage_getPlatformStats userId (service_platform svc) days in
       match existingData with
       | Some existingData =>
           let* t := now in
           ret (annotate existingData t message)
       | None => throw message
       end).

Definition getService (platform : string) : M Service :=
  run log (CallFactory platform) in
  if String.eqb platform "youtube" then ret YouTubeApiService
  else if String.eqb platform "twitter" then ret TwitterApiService
  else if String.eqb platform "instagram" then ret InstagramApiService
  else if String.eqb platform "facebook" then ret FacebookApiService
  else throw ("Unsupported platform: " +:+ platform).

(** ** [MemStorage]: statistics *)

Definition getPlatformStats_body
    (adapter : Service -> Z -> string -> Z -> M SocialStats.t)
    (userId : Z) (platform : string) (days : Z) : M (option SocialStats.t) :=
  try_catch
    (run log (CallGetPlatformStats userId platform days) in
     let* apiKeys := getApiKeys userId in
     let apiKey := as_key (opt_field apiKeys (platform +:+ "Key")) in
     let* live :=
       match apiKey with
       | Some apiKey =>
           try_catch
             (let* apiService := getService platform in
              let* realTimeStats := adapter apiService userId apiKey days in
              run cache_set (stats_key userId platform days) realTimeStats in
              ret (Some realTimeStats))
             (fun _ => ret None)
       | None => ret None
       end in
     match live with
     | Some realTimeStats => ret (Some realTimeStats)
     | None => cache_get (stats_key userId platform days)
     end)
    (fun _ => ret None).

(** Fuel counts the nested calls store -> adapter -> store that are left. *)
Fixpoint MemStorage_getPlatformStats (fuel : nat) (userId : Z) (platform : string) (days : Z)
    : M (option SocialStats.t) :=
  match fuel with
  | O => fun _ => OutOfFuel
  | S fuel' =>
      getPlatformStats_body
        (Service_getPlatformStats_with (MemStorage_getPlatformStats fuel'))
        userId platform days
  end.

Definition Service_getPlatformStats (fuel : nat)
    : Service -> Z -> string -> Z -> M SocialStats.t :=
  Service_getPlatformStats_with (MemStorage_getPlatformStats fuel).

(** [for (const x of l) { acc = step(acc, x) }] *)
Fixpoint for_each {A B : Type} (l : list A) (acc : B) (step : B -> A -> M B) : M B :=
  match l with
  | [] => ret acc
  | x :: l' => let* acc' := step acc x in for_each l' acc' step
  end.

(** The body of the loop of [getAllPlatformStats]. *)
Definition collect_step (fuel : nat) (userId days : Z) (apiKeys : option ApiKey.t)
    (stats : list (SocialStats.t * option bool)) (platform : string)
    : M (list (SocialStats.t * option bool)) :=
  try_catch
    (let hasConnected := is_connected apiKeys (platform +:+ "Key") in
     let* platformStats := MemStorage_getPlatformStats fuel userId platform days in
     match platformStats with
     | Some platformStats => ret (stats ++ [(platformStats, hasConnected)])
     | None => ret stats
     end)
    (fun _ => ret stats).

Definition MemStorage_getAllPlatformStats (fuel : nat) (userId days : Z)
    : M (list (SocialStats.t * option bool)) :=
  run log (CallGetAllPlatformStats userId days) in
  let* apiKeys := getApiKeys userId in
  for_each platforms [] (collect_step fuel userId days apiKeys).

(** [Array.prototype.sort(compare)]: stable; a positive result moves the
    second argument in front, [NaN] counts as [0].  For a consistent
    comparator every stable sort gives this result, so this is what the
    engine returns.  For an inconsistent one (here: a date that does not
    parse) the standard leaves the order to the engine; [js_sort] is then a
    permutation like the engine's, but need not be the same one.  What is
    stated below about the order of posts is stated for dates that parse;
    without that condition only lengths and membership are stated. *)
Definition positive_result (x : jsnum) : bool :=
  match x with
  | Num z => 0 <? z
  | NaN => false
  end.

Fixpoint sort_insert {A : Type} (compare : A -> A -> jsnum) (x : A) (l : list A) : list A :=
  match l with
  | [] => [x]
  | y :: l' =>
      if positive_result (compare x y) then y :: sort_insert compare x l'
      else x :: y :: l'
  end.

Definition js_sort {A : Type} (compare : A -> A -> jsnum) (l : list A) : list A :=
  foldr (sort_insert compare) [] l.

(** The body of the loop of [getPosts]. *)
Definition gather_step (fuel : nat) (userId days : Z) (apiKeys : option ApiKey.t)
    (allPosts : list (SocialPost.t * option bool)) (p : string)
    : M (list (SocialPost.t * option bool)) :=
  try_catch
    (let* stats := MemStorage_getPlatformStats fuel userId p days in
     match stats with
     | Some stats =>
         let isConnected := is_connected apiKeys (p +:+ "Key") in
         let platformPosts :=
           map (fun post => (post, isConnected)) (SocialStats.posts stats) in
         ret (allPosts ++ platformPosts)
     | None => ret allPosts
     end)
    (fun _ => ret allPosts).

(** The loop of [getPosts] that gathers [allPosts]. *)
Definition gather_posts (fuel : nat) (userId : Z) (platform : string) (days : Z)
    : M (list (SocialPost.t * option bool)) :=
  let* apiKeys := getApiKeys userId in
  let platforms := if String.eqb platform "all" then platforms else [platform] in
  for_each platforms [] (gather_step fuel userId days apiKeys).

Section Posts.

(** [new Date(s).getTime()], [None] for [NaN]. *)
Variable getTime : string -> option Z.

Definition by_date_desc (a b : SocialPost.t * option bool) : jsnum :=
  match getTime (SocialPost.datePosted (fst b)), getTime (SocialPost.datePosted (fst a)) with
  | Some tb, Some ta => Num (tb - ta)
  | _, _ => NaN
  end.

Definition MemStorage_getPosts (fuel : nat) (userId : Z) (platform : string)
    (days page limit : Z) : M (list (SocialPost.t * option bool) * Z) :=
  run log (CallGetPosts userId platform days page limit) in
  let* allPosts := gather_posts fuel userId platform days in
  let sorted := js_sort by_date_desc allPosts in
  let startIndex := (page - 1) * limit in
  let endIndex := startIndex + limit in
  ret (slice sorted startIndex endIndex, Z.of_nat (length sorted)).

End Posts.

(** ** [initializeSampleData] *)

Definition sample_post (id platform title : string) (thumbnailUrl : option string)
    (views likes comments shares : Z) (datePosted postUrl : string) : SocialPost.t :=
  {| SocialPost.id := id; SocialPost.platform := platform; SocialPost.title := title;
     SocialPost.thumbnailUrl := thumbnailUrl; SocialPost.views := views;
     SocialPost.likes := likes; SocialPost.comments := comments;
     SocialPost.shares := shares; SocialPost.datePosted := datePosted;
     SocialPost.postUrl := postUrl |}.

(** The double-quote character, for the one title that contains it. *)
Definition dquote : string := String (Ascii.ascii_of_nat 34) EmptyString.

Definition placeholder : option string := Some "https://via.placeholder.com/56x40".

Definition sample_youtube (t : string) : SocialStats.t :=
  {| SocialStats.platform := "youtube";
     SocialStats.followers := 78200;
     SocialStats.followersGrowth := 12 # 10;
     SocialStats.views := 1200000;
     SocialStats.viewsGrowth := 35 # 10;
     SocialStats.engagement := 25600;
     SocialStats.engagementGrowth := 47 # 10;
     SocialStats.posts :=
       [ sample_post "yt1" "youtube" "How to Increase Your Social Media Engagement in 2023"
           placeholder 24800 1200 156 86 "2023-06-12T00:00:00Z"
           "https://youtube.com/watch?v=example1";
         sample_post "yt2" "youtube" "10 Social Media Trends for 2023"
           placeholder 18500 950 120 65 "2023-06-10T00:00:00Z"
           "https://youtube.com/watch?v=example2" ];
     SocialStats.lastUpdated := t;
     SocialStats.errorMessage := None;
     SocialStats.isApiError := None |}.

Definition sample_instagram (t : string) : SocialStats.t :=
  {| SocialStats.platform := "instagram";
     SocialStats.followers := 45800;
     SocialStats.followersGrowth := 24 # 10;
     SocialStats.views := 230000;
     SocialStats.viewsGrowth := 56 # 10;
     SocialStats.engagement := 18900;
     SocialStats.engagementGrowth := 32 # 10;
     SocialStats.posts :=
       [ sample_post "ig1" "instagram"
           "New product launch! Check out our summer collection #fashion #style"
           placeholder 8400 945 42 0 "2023-06-10T00:00:00Z"
           "https://instagram.com/p/example1";
         sample_post "ig2" "instagram"
           "Behind the scenes at our latest photoshoot #behindthescenes"
           placeholder 6200 720 38 0 "2023-06-08T00:00:00Z"
           "https://instagram.com/p/example2" ];
     SocialStats.lastUpdated := t;
     SocialStats.errorMessage := None;
     SocialStats.isApiError := None |}.

Definition sample_twitter (t : string) : SocialStats.t :=
  {| SocialStats.platform := "twitter";
     SocialStats.followers := 22100;
     SocialStats.followersGrowth := 18 # 10;
     SocialStats.views := 238000;
     SocialStats.viewsGrowth := (-21) # 10;
     SocialStats.engagement := 5600;
     SocialStats.engagementGrowth := 8 # 10;
     SocialStats.posts :=
       [ sample_post "tw1" "twitter"
           "We're excited to announce our partnership with @techcompany to bring you even better social analytics! #announcement"
           None 12300 248 32 68 "2023-06-08T00:00:00Z"
           "https://twitter.com/username/status/example1";
         sample_post "tw2" "twitter"
           "What's your favorite social media platform? Let us know in the comments below! #poll"
           None 8900 180 124 23 "2023-06-07T00:00:00Z"
           "https://twitter.com/username/status/example2" ];
     SocialStats.lastUpdated := t;
     SocialStats.errorMessage := None;
     SocialStats.isApiError := None |}.

Definition sample_facebook (t : string) : SocialStats.t :=
  {| SocialStats.platform := "facebook";
     SocialStats.followers := 15400;
     SocialStats.followersGrowth := 9 # 10;
     SocialStats.views := 42800;
     SocialStats.viewsGrowth := 38 # 10;
     SocialStats.engagement := 6100;
     SocialStats.engagementGrowth := 21 # 10;
     SocialStats.posts :=
       [ sample_post "fb1" "facebook"
           ("Join us for our upcoming webinar on " +:+ dquote +:+ "Social Media Trends for 2023"
              +:+ dquote +:+ "! Register now.")
           placeholder 5600 124 36 18 "2023-06-06T00:00:00Z"
           "https://facebook.com/posts/example1";
         sample_post "fb2" "facebook"
           "Check out our latest blog post on maximizing your social media ROI!"
           placeholder 4200 98 28 15 "2023-06-05T00:00:00Z"
           "https://facebook.com/posts/example2" ];
     SocialStats.lastUpdated := t;
     SocialStats.errorMessage := None;
     SocialStats.isApiError := None |}.

(** The object literal [sampleData], in source order; [boot] gives the four
    readings of the clock. *)
Definition sampleData (boot : nat -> string) : list (string * SocialStats.t) :=
  [ ("1:youtube:7", sample_youtube (boot 0%nat));
    ("1:instagram:7", sample_instagram (boot 1%nat));
    ("1:twitter:7", sample_twitter (boot 2%nat));
    ("1:facebook:7", sample_facebook (boot 3%nat)) ].

(** [thirtyDayData] stands for the scaled copy of one entry (factors 4.5 and
    4.2 in double arithmetic, six older posts dated with [Date.setDate]). *)
Definition initializeSampleData (boot : nat -> string)
    (thirtyDayData : SocialStats.t -> SocialStats.t) : gmap string SocialStats.t :=
  let with30 :=
    foldl (fun m kv => <[replace_first ":7" ":30" (fst kv) := thirtyDayData (snd kv)]> m)
          ∅ (sampleData boot) in
  foldl (fun m kv => <[fst kv := snd kv]> m) with30 (sampleData boot).

Definition MemStorage_new (boot : nat -> string)
    (thirtyDayData : SocialStats.t -> SocialStats.t) : MemStorage :=
  {| users := JsMap.empty;
     platformApiKeys := JsMap.empty;
     socialStats := initializeSampleData boot thirtyDayData;
     currentUserId := 1;
     currentApiKeyId := 1 |}.

(** The process after module load: the store is built, four clock readings
    are used, nothing was fetched or drawn. *)
Definition boot_state (fetch : nat -> FetchOutcome) (random : nat -> Z) (clock : nat -> string)
    (thirtyDayData : SocialStats.t -> SocialStats.t) : State :=
  {| store := MemStorage_new clock thirtyDayData;
     world := {| fetch_at := fetch; fetched := 0; random_at := random; drawn := 0;
                 now_at := clock; ticks := 4; trace := [] |} |}.

(** ** Request layer ([routes.ts]) *)

Inductive Body : Type :=
  | Message (message : string)
  | Invalid (message : string)
  | Upgrade (message : string) (upgrade : bool)
  | StatsJson (stats : SocialStats.t)
  | AllStatsJson (allStats : list (SocialStats.t * option bool))
  | PostsJson (posts : list (SocialPost.t * option bool)) (page limit total totalPages : Z)
  | ApiKeyJson (apiKeys : ApiKey.t).

Record Response : Type := {
  status : Z;
  body : Body
}.

(** The query of [GET /api/stats] and [GET /api/posts]; a numeric field holds
    [Number(req.query.x)], which is [NaN] for a missing parameter. *)
Record Query : Type := {
  q_userId : jsnum;
  q_days : jsnum;
  q_platform : option string;
  q_page : jsnum;
  q_limit : jsnum
}.

Definition query_userId (q : Query) : Z := or_default (q_userId q) 1.
Definition query_days (q : Query) : Z := or_default (q_days q) 7.
Definition query_page (q : Query) : Z := or_default (q_page q) 1.
Definition query_limit (q : Query) : Z := or_default (q_limit q) 10.

(** [(req.query.platform as string) || 'all'] *)
Definition query_platform (q : Query) : string :=
  match as_key (match q_platform q with Some p => VStr p | None => VUndefined end) with
  | Some p => p
  | None => "all"
  end.

Definition free_tier_denied : Response :=
  {| status := 403;
     body := Upgrade "Free users can only access 7 days of data" true |}.

Definition get_stats (fuel : nat) (q : Query) : M Response :=
  let userId := query_userId q in
  let days := query_days q in
  let platform := q_platform q in
  let* user := getUser userId in
  match user with
  | None => ret {| status := 404; body := Message "User not found" |}
  | Some user =>
      if negb (User.isPro user) && (7 <? days) then ret free_tier_denied
      else
        match platform with
        | Some platform =>
            if negb (String.eqb platform "") && negb (String.eqb platform "all") then
              let* stats := MemStorage_getPlatformStats fuel userId platform days in
              match stats with
              | None =>
                  ret {| status := 404;
                         body := Message ("No stats found for " +:+ platform) |}
              | Some stats => ret {| status := 200; body := StatsJson stats |}
              end
            else
              let* allStats := MemStorage_getAllPlatformStats fuel userId days in
              ret {| status := 200; body := AllStatsJson allStats |}
        | None =>
            let* allStats := MemStorage_getAllPlatformStats fuel userId days in
            ret {| status := 200; body := AllStatsJson allStats |}
        end
  end.

Definition get_posts (getTime : string -> option Z) (fuel : nat) (q : Query) : M Response :=
  let userId := query_userId q in
  let days := query_days q in
  let platform := query_platform q in
  let page := query_page q in
  let limit := query_limit q in
  let* user := getUser userId in
  match user with
  | None => ret {| status := 404; body := Message "User not found" |}
  | Some user =>
      if negb (User.isPro user) && (7 <? days) then ret free_tier_denied
      else
        let* r := MemStorage_getPosts getTime fuel userId platform days page limit in
        ret {| status := 200;
               body := PostsJson (fst r) page limit (snd r) (ceil_div (snd r) limit) |}
  end.

Definition as_partial (d : InsertApiKey.t) : PartialApiKey.t :=
  {| PartialApiKey.id := None;
     PartialApiKey.userId := Some (InsertApiKey.userId d);
     PartialApiKey.youtubeKey := InsertApiKey.youtubeKey d;
     PartialApiKey.instagramKey := InsertApiKey.instagramKey d;
     PartialApiKey.twitterKey := InsertApiKey.twitterKey d;
     PartialApiKey.facebookKey := InsertApiKey.facebookKey d |}.

Definition clear_first_login : PartialUser.t :=
  {| PartialUser.id := None; PartialUser.username := None; PartialUser.email := None;
     PartialUser.password := None; PartialUser.firebaseUid := None;
     PartialUser.avatarUrl := None; PartialUser.isPro := None;
     PartialUser.lastLogin := None; PartialUser.isFirstLogin := Some false |}.

(** [POST /api/apikeys]; [parsed] is the outcome of [insertApiKeySchema.parse],
    [None] for a [ZodError]. *)
Definition post_apikeys (parsed : option InsertApiKey.t) : M Response :=
  try_catch
    (match parsed with
     | None => throw "ZodError"
     | Some validatedData =>
         let* existingApiKeys := getApiKeys (InsertApiKey.userId validatedData) in
         match existingApiKeys with
         | Some _ =>
             let* updatedApiKeys :=
               updateApiKeys (InsertApiKey.userId validatedData) (as_partial validatedData) in
             match updatedApiKeys with
             | None => ret {| status := 404; body := Message "Failed to update API keys" |}
             | Some updatedApiKeys => ret {| status := 200; body := ApiKeyJson updatedApiKeys |}
             end
         | None =>
             let* newApiKeys := saveApiKeys validatedData in
             run updateUser (InsertApiKey.userId validatedData) clear_first_login in
             ret {| status := 201; body := ApiKeyJson newApiKeys |}
         end
     end)
    (fun e =>
       if String.eqb e "ZodError"
       then ret {| status := 400; body := Invalid "Invalid API key data" |}
       else ret {| status := 500; body := Message "Failed to save API keys" |}).

(** [GET /api/apikeys?userId=] *)
Definition get_apikeys (userId : jsnum) : M Response :=
  match userId with
  | NaN | Num 0 => ret {| status := 400; body := Message "User ID is required" |}
  | Num userId =>
      let* apiKeys := getApiKeys userId in
      match apiKeys with
      | None => ret {| status := 404; body := Message "API keys not found" |}
      | Some apiKeys => ret {| status := 200; body := ApiKeyJson apiKeys |}
      end
  end.

(** ** A reading of [Date.parse] for running examples

    Only the UTC forms [YYYY-MM-DDTHH:mm:ssZ] and [YYYY-MM-DDTHH:mm:ss.sssZ]
    (the seeds, YouTube's [publishedAt], [toISOString]); the theorems below
    hold for every [getTime]. *)

Definition number_of (s : string) : option Z :=
  Z.of_uint <$> NilEmpty.uint_of_string s.

Definition days_from_civil (y m d : Z) : Z :=
  let y' := if m <=? 2 then y - 1 else y in
  let era := y' / 400 in
  let yoe := y' - era * 400 in
  let mp := if 2 <? m then m - 3 else m + 9 in
  let doy := (153 * mp + 2) / 5 + d - 1 in
  let doe := yoe * 365 + yoe / 4 - yoe / 100 + doy in
  era * 146097 + doe - 719468.

Definition iso_getTime (s : string) : option Z :=
  let sub i n := String.substring i n s in
  let len := String.length s in
  let tail_ok :=
    if Nat.eqb len 20 then String.eqb (sub 19 1)%nat "Z"
    else Nat.eqb len 24 && String.eqb (sub 19 1)%nat "." && String.eqb (sub 23 1)%nat "Z" in
  if String.eqb (sub 4 1)%nat "-" && String.eqb (sub 7 1)%nat "-"
     && String.eqb (sub 10 1)%nat "T" && String.eqb (sub 13 1)%nat ":"
     && String.eqb (sub 16 1)%nat ":" && tail_ok
  then
    y ← number_of (sub 0 4)%nat;
    mo ← number_of (sub 5 2)%nat;
    d ← number_of (sub 8 2)%nat;
    h ← number_of (sub 11 2)%nat;
    mi ← number_of (sub 14 2)%nat;
    sec ← number_of (sub 17 2)%nat;
    ms ← (if Nat.eqb len 20 then Some 0 else number_of (sub 20 3)%nat);
    if (1 <=? mo) && (mo <=? 12) && (1 <=? d) && (d <=? 31)
       && (h <=? 23) && (mi <=? 59) && (sec <=? 59)
    then Some ((((days_from_civil y mo d * 24 + h) * 60 + mi) * 60 + sec) * 1000 + ms)
    else None
  else None.

(** ** Concrete runs *)

Definition final_state {A : Type} (r : Res A) (otherwise : State) : State :=
  match r with
  | Ret _ s | Throw _ s => s
  | OutOfFuel => otherwise
  end.

Definition exec {A : Type} (m : M A) (s : State) : State := final_state (m s) s.

Definition demo_clock (n : nat) : string :=
  "2024-01-01T00:00:" +:+ (if (n <? 10)%nat then "0" else "") +:+ string_of_Z (Z.of_nat n)
  +:+ ".000Z".

(** An instance of [thirtyDayData] for running examples.  It is not the
    copy the code makes (that one scales in double arithmetic and appends
    six older posts): it scales exactly and keeps the posts. *)
Definition demo_thirty (x : SocialStats.t) : SocialStats.t :=
  {| SocialStats.platform := SocialStats.platform x;
     SocialStats.followers := SocialStats.followers x;
     SocialStats.followersGrowth := SocialStats.followersGrowth x;
     SocialStats.views := SocialStats.views x * 9 / 2;
     SocialStats.viewsGrowth := SocialStats.viewsGrowth x;
     SocialStats.engagement := SocialStats.engagement x * 21 / 5;
     SocialStats.engagementGrowth := SocialStats.engagementGrowth x;
     SocialStats.posts := SocialStats.posts x;
     SocialStats.lastUpdated := SocialStats.lastUpdated x;
     SocialStats.errorMessage := None;
     SocialStats.isApiError := None |}.

(** A body that answers each of the three requests. *)
Definition demo_body : ApiBody :=
  {| channel_items :=
       Some [ {| subscriberCount := 1500; channelViewCount := 90000;
                 channelCommentCount := 40 |} ];
     search_items :=
       Some [ {| videoId := "abc"; snippetTitle := "Launch";
                 thumbnail := "https://i.ytimg.com/abc.jpg";
                 publishedAt := "2024-01-01T10:00:00Z" |} ];
     video_items := Some [ Some {| viewCount := 120; likeCount := 9; commentCount := 2 |} ] |}.

Definition demo_random (n : nat) : Z :=
  match n with
  | O => 5
  | 1%nat => 0
  | _ => 9
  end.

(** What a live fetch makes of [demo_body] and the first three draws of
    [demo_random]. *)
Definition demo_live : LiveData :=
  {| live_channel := {| subscriberCount := 1500; channelViewCount := 90000;
                        channelCommentCount := 40 |};
     live_items := [ {| videoId := "abc"; snippetTitle := "Launch";
                        thumbnail := "https://i.ytimg.com/abc.jpg";
                        publishedAt := "2024-01-01T10:00:00Z" |} ];
     live_videoStats := [ Some {| viewCount := 120; likeCount := 9; commentCount := 2 |} ];
     growth1 := 3; growth2 := (-2); growth3 := 7 |}.

Definition offline (n : nat) : FetchOutcome := FetchErr "fetch failed".

(** The quota is used up at the first request and available afterwards. *)
Definition fails_once (n : nat) : FetchOutcome :=
  match n with
  | O => FetchNotOk (Some "quotaExceeded")
  | S _ => FetchOk demo_body
  end.

Definition alice : InsertUser.t :=
  {| InsertUser.username := "alice"; InsertUser.email := "alice@example.com";
     InsertUser.password := None; InsertUser.firebaseUid := "uid-alice";
     InsertUser.avatarUrl := None |}.

Definition keys_for (userId : Z) (youtube twitter : option (option string)) : InsertApiKey.t :=
  {| InsertApiKey.userId := userId; InsertApiKey.youtubeKey := youtube;
     InsertApiKey.instagramKey := None; InsertApiKey.twitterKey := twitter;
     InsertApiKey.facebookKey := None |}.

(** The record [createUser] makes for [alice] in a fresh process. *)
Definition alice_user : User.t :=
  {| User.id := 1; User.username := "alice"; User.email := "alice@example.com";
     User.password := None; User.firebaseUid := "uid-alice"; User.avatarUrl := None;
     User.isPro := false; User.lastLogin := Some (demo_clock 4);
     User.isFirstLogin := true |}.

(** Fresh process, then user 1 signs up. *)
Definition s_boot : State := boot_state offline demo_random demo_clock demo_thirty.
Definition s_alice : State := exec (createUser alice) s_boot.

(** User 1 has saved a Twitter token. *)
Definition s_twitter : State :=
  exec (post_apikeys (Some (keys_for 1 None (Some (Some "tok"))))) s_alice.

(** User 1 has saved a YouTube key; the first request will be refused, the
    second will succeed. *)
Definition s_youtube : State :=
  exec (post_apikeys (Some (keys_for 1 (Some (Some "AIza")) None)))
       (exec (createUser alice) (boot_state fails_once demo_random demo_clock demo_thirty)).

(** Keys are posted for user 1 before user 1 exists. *)
Definition s_keys_first : State :=
  exec (createUser alice)
       (exec (post_apikeys (Some (keys_for 1 (Some (Some "AIza")) None))) s_boot).

Definition query (userId days : jsnum) (platform : option string) (page limit : jsnum) : Query :=
  {| q_userId := userId; q_days := days; q_platform := platform;
     q_page := page; q_limit := limit |}.

(** ** Predicates used in the statements *)

(** Every key of the user map is below the id counter. *)
Definition users_fresh (st : MemStorage) : Prop :=
  forall k, In k (JsMap.keys (users st)) -> k < currentUserId st.

(** The credential map is a map (no key twice), every record sits under its
    own id, and every id is below the counter. *)
Definition apikeys_wf (st : MemStorage) : Prop :=
  NoDup (JsMap.keys (platformApiKeys st)) /\
  Forall (fun kv => fst kv = ApiKey.id (snd kv) /\ fst kv < currentApiKeyId st)
         (platformApiKeys st).

(** Whether a string contains the separator of the cache key. *)
Fixpoint has_colon (s : string) : bool :=
  match s with
  | EmptyString => false
  | String c s' => Ascii.eqb c ":"%char || has_colon s'
  end.

(** Every cache key was built for one of the four platforms. *)
Definition cache_ok (st : MemStorage) : Prop :=
  forall key e, socialStats st !! key = Some e ->
    exists userId platform days, key = stats_key userId platform days /\ In platform platforms.

(** The three invariants together: they hold when the process starts and
    every modelled operation keeps them. *)
Definition store_ok (st : MemStorage) : Prop :=
  users_fresh st /\ apikeys_wf st /\ cache_ok st.

(** No usable credential for [platform] is on file for [userId]. *)
Definition no_credential (st : MemStorage) (userId : Z) (platform : string) : Prop :=
  as_key (opt_field (find_by_user userId (platformApiKeys st)) (platform +:+ "Key")) = None.

(** The four 7-day entries of user 1 are the ones written at start-up. *)
Definition start_up_entries (boot : nat -> string) (st : MemStorage) : Prop :=
  socialStats st !! stats_key 1 "youtube" 7 = Some (sample_youtube (boot 0%nat)) /\
  socialStats st !! stats_key 1 "instagram" 7 = Some (sample_instagram (boot 1%nat)) /\
  socialStats st !! stats_key 1 "twitter" 7 = Some (sample_twitter (boot 2%nat)) /\
  socialStats st !! stats_key 1 "facebook" 7 = Some (sample_facebook (boot 3%nat)).

(** [r] is the entry [existing] handed out in place of a live result: the
    figures and posts of [existing], read at [t], marked with the error
    [message]. *)
Definition fallback_of (existing : SocialStats.t) (t message : string) (r : SocialStats.t)
    : Prop :=
  SocialStats.platform r = SocialStats.platform existing /\
  SocialStats.followers r = SocialStats.followers existing /\
  SocialStats.followersGrowth r = SocialStats.followersGrowth existing /\
  SocialStats.views r = SocialStats.views existing /\
  SocialStats.viewsGrowth r = SocialStats.viewsGrowth existing /\
  SocialStats.engagement r = SocialStats.engagement existing /\
  SocialStats.engagementGrowth r = SocialStats.engagementGrowth existing /\
  SocialStats.posts r = SocialStats.posts existing /\
  SocialStats.lastUpdated r = t /\
  SocialStats.errorMessage r = Some message /\
  SocialStats.isApiError r = Some true.

(** The posts of one platform read, tagged as [getPosts] tags them. *)
Definition tagged (apiKeys : option ApiKey.t) (platform : string)
    (stats : option SocialStats.t) : list (SocialPost.t * option bool) :=
  match stats with
  | Some stats =>
      map (fun post => (post, is_connected apiKeys (platform +:+ "Key")))
          (SocialStats.posts stats)
  | None => []
  end.

(** One entry of the aggregate, tagged as [getAllPlatformStats] tags it. *)
Definition connected_entry (apiKeys : option ApiKey.t) (platform : string)
    (stats : option SocialStats.t) : list (SocialStats.t * option bool) :=
  match stats with
  | Some stats => [(stats, is_connected apiKeys (platform +:+ "Key"))]
  | None => []
  end.

(** [reads fuel userId days l s rs s']: reading the platforms of [l] one
    after the other from [s] returns [rs] and ends in [s']. *)
Inductive reads (fuel : nat) (userId days : Z)
    : list string -> State -> list (option SocialStats.t) -> State -> Prop :=
  | reads_nil (s : State) : reads fuel userId days [] s [] s
  | reads_cons (p : string) (l : list string) (s s1 s2 : State)
      (r : option SocialStats.t) (rs : list (option SocialStats.t)) :
      MemStorage_getPlatformStats fuel userId p days s = Ret r s1 ->
      reads fuel userId days l s1 rs s2 ->
      reads fuel userId days (p :: l) s (r :: rs) s2.

(** The posts of the reads [rs] of the platforms [l], flattened. *)
Definition flatten_posts (apiKeys : option ApiKey.t) (l : list string)
    (rs : list (option SocialStats.t)) : list (SocialPost.t * option bool) :=
  concat (zip_with (tagged apiKeys) l rs).

(** What [getPosts] gathers for a user without credentials: the cached
    posts of the four platforms, in platform order. *)
Definition cached_posts (st : MemStorage) (userId days : Z) : list (SocialPost.t * option bool) :=
  flat_map (fun platform =>
              tagged (find_by_user userId (platformApiKeys st)) platform
                     (socialStats st !! stats_key userId platform days))
           platforms.

Definition posted_at (getTime : string -> option Z) (p : SocialPost.t * option bool) : option Z :=
  getTime (SocialPost.datePosted (fst p)).

(** The comparator does not ask for [a] and [b] to be swapped. *)
Definition in_order (getTime : string -> option Z) (a b : SocialPost.t * option bool) : Prop :=
  positive_result (by_date_desc getTime a b) = false.

(** Both dates parse and [a] is not older than [b]. *)
Definition newer_or_same (getTime : string -> option Z) (a b : SocialPost.t * option bool) : Prop :=
  exists ta tb, posted_at getTime a = Some ta /\ posted_at getTime b = Some tb /\ tb <= ta.

Definition page_of {A : Type} (sorted : list A) (page limit : Z) : list A :=
  slice sorted ((page - 1) * limit) ((page - 1) * limit + limit).

(** Pages [1..n], one after the other. *)
Definition pages {A : Type} (sorted : list A) (limit : Z) (n : nat) : list A :=
  flat_map (fun p => page_of sorted (Z.of_nat p) limit) (seq 1 n).

(** The state after the four reads of an aggregate call by a user without
    credentials: only the ghost trace grows. *)
Definition after_reads (userId days : Z) (s : State) : State :=
  foldl (fun s platform => logged (CallGetPlatformStats userId platform days) s) s platforms.

(** The live fetch of [svc] fails now and at every later attempt: the three
    stubs always throw, YouTube throws when no request is answered with a
    body from now on. *)
Definition live_always_fails (svc : Service) (w : World) : Prop :=
  match svc with
  | YouTubeApiService =>
      forall n, (fetched w <= n)%nat -> forall body, fetch_at w n <> FetchOk body
  | _ => True
  end.

(** The next three requests are answered with an [items] array each: the
    first with [channel] at its head, the second with [items], the third
    with [videoStatsItems]. *)
Definition answers (w : World) (channel : Channel) (items : list SearchItem)
    (videoStatsItems : list (option VideoStatistics)) : Prop :=
  exists channelData rest videosData videoStatsData,
    fetch_at w (fetched w) = FetchOk channelData /\
    channel_items channelData = Some (channel :: rest) /\
    fetch_at w (S (fetched w)) = FetchOk videosData /\
    search_items videosData = Some items /\
    fetch_at w (S (S (fetched w))) = FetchOk videoStatsData /\
    video_items videoStatsData = Some videoStatsItems.

(** The state after one request, and after a live fetch of the YouTube
    adapter that went through: two readings of the clock, three requests,
    three draws, one reading of the clock. *)
Definition requested (s : State) : State := sent (logged (Outbound "youtube") s).

Definition after_live_fetch (s : State) : State :=
  ticked (drew (drew (drew (requested (requested (requested (ticked (ticked s)))))))).

(** [m] keeps [P]: whenever it stops, by returning or by throwing, [P]
    holds again. *)
Definition preserves {A : Type} (P : State -> Prop) (m : M A) : Prop :=
  forall s, P s ->
    match m s with
    | Ret _ s' | Throw _ s' => P s'
    | OutOfFuel => True
    end.

(** [P] survives each elementary step a read can take. *)
Record stable (P : State -> Prop) : Prop := {
  stable_logged : forall e s, P s -> P (logged e s);
  stable_ticked : forall s, P s -> P (ticked s);
  stable_sent : forall s, P s -> P (sent s);
  stable_drew : forall s, P s -> P (drew s);
  stable_cached : forall userId platform days v s,
    In platform platforms -> P s -> P (cached (stats_key userId platform days) v s)
}.

(** ** More of the code: user lookup, the adapters' [getPosts] *)

(** [Array.from(this.users.values()).find(user => user.email === email)] *)
Definition getUserByEmail (email : string) : M (option User.t) :=
  fun s =>
    Ret (List.find (fun user => String.eqb (User.email user) email)
           (JsMap.values (users (store s)))) s.

Definition find_by_uid (firebaseUid : string) (m : JsMap.t User.t) : option User.t :=
  List.find (fun user => String.eqb (User.firebaseUid user) firebaseUid) (JsMap.values m).

Definition getUserByFirebaseUid (firebaseUid : string) : M (option User.t) :=
  fun s => Ret (find_by_uid firebaseUid (users (store s))) s.

(** An adapter's [getPosts]: the [posts] of its [getPlatformStats]. *)
Definition Service_getPosts (fuel : nat) (svc : Service) (userId : Z) (apiKey : string)
    (days : Z) : M (list SocialPost.t) :=
  let* stats := Service_getPlatformStats fuel svc userId apiKey days in
  ret (SocialStats.posts stats).

(** ** More of the request layer: users *)

(** [const { password, ...userProfile } = user] *)
Module UserProfile.
Record t : Type := {
  id : Z;
  username : string;
  email : string;
  firebaseUid : string;
  avatarUrl : option string;
  isPro : bool;
  lastLogin : option string;
  isFirstLogin : bool
}.
End UserProfile.

Definition userProfile (user : User.t) : UserProfile.t :=
  {| UserProfile.id := User.id user;
     UserProfile.username := User.username user;
     UserProfile.email := User.email user;
     UserProfile.firebaseUid := User.firebaseUid user;
     UserProfile.avatarUrl := User.avatarUrl user;
     UserProfile.isPro := User.isPro user;
     UserProfile.lastLogin := User.lastLogin user;
     UserProfile.isFirstLogin := User.isFirstLogin user |}.

(** The validated body of [POST /api/user]; for the two nullable columns an
    absent key is [None] and [null] is [Some None]. *)
Module UserBody.
Record t : Type := {
  username : string;
  email : string;
  password : option (option string);
  firebaseUid : string;
  avatarUrl : option (option string)
}.
End UserBody.

(** The body as [createUser] reads it: it only looks at [x || null]. *)
Definition as_insert_user (d : UserBody.t) : InsertUser.t :=
  {| InsertUser.username := UserBody.username d;
     InsertUser.email := UserBody.email d;
     InsertUser.password := mjoin (UserBody.password d);
     InsertUser.firebaseUid := UserBody.firebaseUid d;
     InsertUser.avatarUrl := mjoin (UserBody.avatarUrl d) |}.

(** [{...validatedData, lastLogin: new Date()}] *)
Definition login_data (d : UserBody.t) (t : string) : PartialUser.t :=
  {| PartialUser.id := None;
     PartialUser.username := Some (UserBody.username d);
     PartialUser.email := Some (UserBody.email d);
     PartialUser.password := UserBody.password d;
     PartialUser.firebaseUid := Some (UserBody.firebaseUid d);
     PartialUser.avatarUrl := UserBody.avatarUrl d;
     PartialUser.isPro := None;
     PartialUser.lastLogin := Some (Some t);
     PartialUser.isFirstLogin := None |}.

Module Subscription.
Record t : Type := {
  id : Z;
  userId : Z;
  plan : string;
  paymentId : option string;
  startDate : string;
  endDate : string;
  status : string
}.
End Subscription.

Module InsertSubscription.
Record t : Type := {
  userId : Z;
  plan : string;
  paymentId : option string;
  startDate : string;
  endDate : string;
  status : string
}.
End InsertSubscription.

Module PartialSubscription.
Record t : Type := {
  id : option Z;
  userId : option Z;
  plan : option string;
  paymentId : option (option string);
  startDate : option string;
  endDate : option string;
  status : option string
}.
End PartialSubscription.

Inductive Payload : Type :=
  | Text (message : string)
  | InvalidData (message : string)
  | Profile (userProfile : UserProfile.t)
  | Auth (authenticated : bool) (user : option UserProfile.t)
  | SubscriptionJson (subscription : Subscription.t).

Record Reply : Type := {
  code : Z;
  payload : Payload
}.

(** [GET /api/user?userId=] *)
Definition get_user (userId : jsnum) : M Reply :=
  let userId := or_default userId 1 in
  let* user := getUser userId in
  match user with
  | None => ret {| code := 404; payload := Text "User not found" |}
  | Some user => ret {| code := 200; payload := Profile (userProfile user) |}
  end.

(** [GET /api/auth/check?firebaseUid=] *)
Definition auth_check (firebaseUid : option string) : M Reply :=
  match as_key (match firebaseUid with Some u => VStr u | None => VUndefined end) with
  | None => ret {| code := 401; payload := Auth false None |}
  | Some firebaseUid =>
      let* user := getUserByFirebaseUid firebaseUid in
      match user with
      | None => ret {| code := 401; payload := Auth false None |}
      | Some user => ret {| code := 200; payload := Auth true (Some (userProfile user)) |}
      end
  end.

(** [POST /api/user]; [parsed] is the outcome of [insertUserSchema.parse]. *)
Definition post_user (parsed : option UserBody.t) : M Reply :=
  try_catch
    (match parsed with
     | None => throw "ZodError"
     | Some validatedData =>
         let* existingUser := getUserByFirebaseUid (UserBody.firebaseUid validatedData) in
         match existingUser with
         | Some existingUser =>
             let* t := now in
             let* updatedUser :=
               updateUser (User.id existingUser) (login_data validatedData t) in
             match updatedUser with
             | None => ret {| code := 404; payload := Text "Failed to update user" |}
             | Some updatedUser =>
                 ret {| code := 200; payload := Profile (userProfile updatedUser) |}
             end
         | None =>
             let* newUser := createUser (as_insert_user validatedData) in
             ret {| code := 201; payload := Profile (userProfile newUser) |}
         end
     end)
    (fun e =>
       if String.eqb e "ZodError"
       then ret {| code := 400; payload := InvalidData "Invalid user data" |}
       else ret {| code := 500; payload := Text "Failed to create user" |}).

(** ** More of [MemStorage]: subscriptions

    The subscription map and its counter sit beside the part of the store
    modelled above. *)

Record Billing : Type := {
  userSubscriptions : JsMap.t Subscription.t;
  currentSubscriptionId : Z
}.

Definition Billing_new : Billing :=
  {| userSubscriptions := JsMap.empty; currentSubscriptionId := 1 |}.

Definition getSubscription (userId : Z) (b : Billing) : option Subscription.t :=
  List.find (fun subscription => Z.eqb (Subscription.userId subscription) userId)
    (JsMap.values (userSubscriptions b)).

Definition createSubscription (insertSubscription : InsertSubscription.t) (b : Billing)
    : Subscription.t * Billing :=
  let id := currentSubscriptionId b in
  let subscription :=
    {| Subscription.id := id;
       Subscription.userId := InsertSubscription.userId insertSubscription;
       Subscription.plan := InsertSubscription.plan insertSubscription;
       Subscription.paymentId := or_null (InsertSubscription.paymentId insertSubscription);
       Subscription.startDate := InsertSubscription.startDate insertSubscription;
       Subscription.endDate := InsertSubscription.endDate insertSubscription;
       Subscription.status := InsertSubscription.status insertSubscription |} in
  (subscription,
   {| userSubscriptions := JsMap.set id subscription (userSubscriptions b);
      currentSubscriptionId := id + 1 |}).

Definition merge_subscription (subscription : Subscription.t) (data : PartialSubscription.t)
    : Subscription.t :=
  {| Subscription.id := spread (Subscription.id subscription) (PartialSubscription.id data);
     Subscription.userId :=
       spread (Subscription.userId subscription) (PartialSubscription.userId data);
     Subscription.plan := spread (Subscription.plan subscription) (PartialSubscription.plan data);
     Subscription.paymentId :=
       spread (Subscription.paymentId subscription) (PartialSubscription.paymentId data);
     Subscription.startDate :=
       spread (Subscription.startDate subscription) (PartialSubscription.startDate data);
     Subscription.endDate :=
       spread (Subscription.endDate subscription) (PartialSubscription.endDate data);
     Subscription.status :=
       spread (Subscription.status subscription) (PartialSubscription.status data) |}.

Definition updateSubscription (id : Z) (data : PartialSubscription.t) (b : Billing)
    : option Subscription.t * Billing :=
  match JsMap.get id (userSubscriptions b) with
  | None => (None, b)
  | Some subscription =>
      let updatedSubscription := merge_subscription subscription data in
      (Some updatedSubscription,
       {| userSubscriptions := JsMap.set id updatedSubscription (userSubscriptions b);
          currentSubscriptionId := currentSubscriptionId b |})
  end.

(** ** More of the request layer: subscriptions *)

(** The whole process: the store and world above, and the subscriptions. *)
Record Site : Type := {
  app : State;
  billing : Billing
}.

(** The fields of the body of [POST /api/subscription]; [userId] as an
    integer, the others as strings, [None] when missing. *)
Record SubscriptionBody : Type := {
  b_userId : option Z;
  b_plan : option string;
  b_paymentId : option string;
  b_orderId : option string;
  b_signature : option string
}.

Definition truthy_id (x : option Z) : option Z :=
  match x with
  | Some z => if Z.eqb z 0 then None else Some z
  | None => None
  end.

Definition set_pro : PartialUser.t :=
  {| PartialUser.id := None; PartialUser.username := None; PartialUser.email := None;
     PartialUser.password := None; PartialUser.firebaseUid := None;
     PartialUser.avatarUrl := None; PartialUser.isPro := Some true;
     PartialUser.lastLogin := None; PartialUser.isFirstLogin := None |}.

Section Payment.

(** HMAC-SHA256 of a message under the gateway secret, in hex. *)
Variable hmac_hex : string -> string.

(** [Date.setMonth(getMonth() + 1)] and [Date.setFullYear(getFullYear() + 1)]
    on a timestamp. *)
Variable plus_one_month : string -> string.
Variable plus_one_year : string -> string.

(** [razorpayService.verifyPaymentSignature] *)
Definition verifyPaymentSignature (order_id payment_id signature : string) : bool :=
  String.eqb (hmac_hex (order_id +:+ "|" +:+ payment_id)) signature.

(** [POST /api/subscription] *)
Definition post_subscription (body : SubscriptionBody) (site : Site) : Reply * Site :=
  match truthy_id (b_userId body), or_null (b_plan body), or_null (b_paymentId body),
        or_null (b_orderId body) with
  | Some userId, Some plan, Some paymentId, Some orderId =>
      if match or_null (b_signature body) with
         | Some signature => negb (verifyPaymentSignature orderId paymentId signature)
         | None => false
         end
      then ({| code := 400; payload := Text "Invalid payment signature" |}, site)
      else
        let s := app site in
        let startDate := now_at (world s) (ticks (world s)) in
        let s1 := ticked s in
        let endDate := now_at (world s1) (ticks (world s1)) in
        let s2 := ticked s1 in
        let endDate' :=
          if String.eqb plan "monthly" then Some (plus_one_month endDate)
          else if String.eqb plan "annual" then Some (plus_one_year endDate)
          else None in
        match endDate' with
        | None =>
            ({| code := 400; payload := Text "Invalid plan type" |},
             {| app := s2; billing := billing site |})
        | Some endDate =>
            let created :=
              createSubscription
                {| InsertSubscription.userId := userId;
                   InsertSubscription.plan := plan;
                   InsertSubscription.paymentId := Some paymentId;
                   InsertSubscription.startDate := startDate;
                   InsertSubscription.endDate := endDate;
                   InsertSubscription.status := "active" |}
                (billing site) in
            ({| code := 201; payload := SubscriptionJson (fst created) |},
             {| app := exec (updateUser userId set_pro) s2; billing := snd created |})
        end
  | _, _, _, _ => ({| code := 400; payload := Text "Missing required fields" |}, site)
  end.

End Payment.

(** [GET /api/subscription?userId=] *)
Definition get_subscription (userId : jsnum) (site : Site) : Reply :=
  match userId with
  | NaN | Num 0 => {| code := 400; payload := Text "User ID is required" |}
  | Num userId =>
      match getSubscription userId (billing site) with
      | None => {| code := 404; payload := Text "No active subscription found" |}
      | Some subscription => {| code := 200; payload := SubscriptionJson subscription |}
      end
  end.

(** ** Further predicates *)

(** The user map is a map, every record sits under its own id, ids are below
    the counter, which is positive, and no two users share a [firebaseUid]. *)
Definition users_ok (st : MemStorage) : Prop :=
  users_fresh st /\ 0 < currentUserId st /\
  NoDup (JsMap.keys (users st)) /\
  Forall (fun kv => fst kv = User.id (snd kv)) (users st) /\
  NoDup (map User.firebaseUid (JsMap.values (users st))).

(** At most one credential record per user. *)
Definition one_record_per_user (st : MemStorage) : Prop :=
  NoDup (map ApiKey.userId (JsMap.values (platformApiKeys st))).

(** Subscription ids are below the counter. *)
Definition billing_ok (b : Billing) : Prop :=
  Forall (fun kv => fst kv < currentSubscriptionId b) (userSubscriptions b).

(** A reading of the two calendar steps and of the HMAC for running
    examples: they only tag the timestamp and the message. *)
Definition demo_month (t : string) : string := t +:+ "+1M".
Definition demo_year (t : string) : string := t +:+ "+1Y".
Definition demo_hmac (message : string) : string := "hmac(" +:+ message +:+ ")".

Definition alice_body : UserBody.t :=
  {| UserBody.username := "alice"; UserBody.email := "alice@example.com";
     UserBody.password := None; UserBody.firebaseUid := "uid-alice";
     UserBody.avatarUrl := None |}.

Definition monthly_body (userId : Z) (signature : option string) : SubscriptionBody :=
  {| b_userId := Some userId; b_plan := Some "monthly"; b_paymentId := Some "pay_1";
     b_orderId := Some "order_1"; b_signature := signature |}.

Definition site_alice : Site := {| app := s_alice; billing := Billing_new |}.

(** [s] differs from [s0] at most in the cache, which still holds an entry
    for every key it held, and in the world. *)
Definition same_accounts (s0 s : State) : Prop :=
  users (store s) = users (store s0) /\
  platformApiKeys (store s) = platformApiKeys (store s0) /\
  currentUserId (store s) = currentUserId (store s0) /\
  currentApiKeyId (store s) = currentApiKeyId (store s0) /\
  forall key, is_Some (socialStats (store s0) !! key) -> is_Some (socialStats (store s) !! key).

Definition online (n : nat) : FetchOutcome := FetchOk demo_body.

(** User 1 has saved a YouTube key and YouTube answers. *)
Definition s_youtube_online : State :=
  exec (post_apikeys (Some (keys_for 1 (Some (Some "AIza")) None)))
       (exec (createUser alice) (boot_state online demo_random demo_clock demo_thirty)).

Definition bob : InsertUser.t :=
  {| InsertUser.username := "bob"; InsertUser.email := "bob@example.com";
     InsertUser.password := None; InsertUser.firebaseUid := "uid-bob";
     InsertUser.avatarUrl := None |}.

(** A second user signs up after user 1. *)
Definition s_bob : State := exec (createUser bob) s_alice.

(** The body that clears the YouTube key of a user and leaves the other
    keys alone. *)
Definition clear_youtube (userId : Z) : InsertApiKey.t :=
  {| InsertApiKey.userId := userId; InsertApiKey.youtubeKey := Some None;
     InsertApiKey.instagramKey := None; InsertApiKey.twitterKey := None;
     InsertApiKey.facebookKey := None |}.

(** User 1 saved a YouTube key, asked for the YouTube figures of the last
    7 days while YouTube answered, and then cleared the key. *)
Definition s_cleared : State :=
  exec (post_apikeys (Some (clear_youtube 1)))
       (exec (get_stats 2 (query (Num 1) (Num 7) (Some "youtube") NaN NaN)) s_youtube_online).

(** User 1 has paid for a month. *)
Definition site_subscribed : Site :=
  snd (post_subscription demo_hmac demo_month demo_year (monthly_body 1 None) site_alice).

Definition annual_body (userId : Z) : SubscriptionBody :=
  {| b_userId := Some userId; b_plan := Some "annual"; b_paymentId := Some "pay_2";
     b_orderId := Some "order_2";
     b_signature := Some (demo_hmac "order_2|pay_2") |}.

(** A sign-up with the e-mail address of user 1 and another [firebaseUid]. *)
Definition mallory_body : UserBody.t :=
  {| UserBody.username := "mallory"; UserBody.email := "alice@example.com";
     UserBody.password := None; UserBody.firebaseUid := "uid-mallory";
     UserBody.avatarUrl := None |}.

(** The subscription map is a map, every record sits under its own id, and
    ids are below the counter. *)
Definition billing_wf (b : Billing) : Prop :=
  billing_ok b /\
  NoDup (JsMap.keys (userSubscriptions b)) /\
  Forall (fun kv => fst kv = Subscription.id (snd kv)) (userSubscriptions b).

(** [{status: 'cancelled'}] *)
Definition cancel : PartialSubscription.t :=
  {| PartialSubscription.id := None; PartialSubscription.userId := None;
     PartialSubscription.plan := None; PartialSubscription.paymentId := None;
     PartialSubscription.startDate := None; PartialSubscription.endDate := None;
     PartialSubscription.status := Some "cancelled" |}.

(** * Proofs *)

(** ** JavaScript maps *)

Lemma JsMap_get_set_eq {V : Type} k (v : V) m : JsMap.get k (JsMap.set k v m) = Some v.
Proof.
  induction m as [|[k' v'] m IH]; simpl.
  - by rewrite Z.eqb_refl.
  - destruct (Z.eqb k k') eqn:E; simpl; rewrite ?Z.eqb_refl, ?E; auto.
Qed.

Lemma JsMap_get_set_ne {V : Type} k k' (v : V) m :
  k <> k' -> JsMap.get k' (JsMap.set k v m) = JsMap.get k' m.
Proof.
  intros Hne. induction m as [|[k0 v0] m IH]; simpl.
  - destruct (Z.eqb_spec k' k); [congruence | done].
  - destruct (Z.eqb_spec k k0) as [->|]; simpl.
    + destruct (Z.eqb_spec k' k0); [congruence | done].
    + destruct (Z.eqb_spec k' k0); [done | apply IH].
Qed.

Lemma JsMap_get_Some_keys {V : Type} k (v : V) m : JsMap.get k m = Some v -> In k (JsMap.keys m).
Proof.
  induction m as [|[k' v'] m IH]; simpl; [done|].
  destruct (Z.eqb_spec k k') as [->|]; auto.
Qed.

Lemma JsMap_keys_set {V : Type} k (v : V) m :
  forall j, In j (JsMap.keys (JsMap.set k v m)) -> j = k \/ In j (JsMap.keys m).
Proof.
  induction m as [|[k' v'] m IH]; simpl; intros j.
  - intros [<-|[]]; auto.
  - destruct (Z.eqb_spec k k') as [->|]; simpl.
    + intros [<-|?]; auto.
    + intros [<-|H]; auto. destruct (IH _ H); auto.
Qed.

(** ** Strings: computed field names and cache keys *)

Lemma append_length (a b : string) :
  String.length (a +:+ b) = (String.length a + String.length b)%nat.
Proof. induction a as [|c a IH]; simpl; [done | by rewrite IH]. Qed.

Lemma append_cancel_r (a b t : string) : a +:+ t = b +:+ t -> a = b.
Proof.
  revert b. induction a as [|c a IH]; intros [|d b] H; simpl in *.
  - done.
  - apply (f_equal String.length) in H. rewrite ?append_length in H. simpl in H. rewrite ?append_length in H. lia.
  - apply (f_equal String.length) in H. rewrite ?append_length in H. simpl in H. rewrite ?append_length in H. lia.
  - injection H as -> H. f_equal. by apply IH.
Qed.

Lemma eqb_append_Key (p q : string) :
  String.eqb (p +:+ "Key") (q +:+ "Key") = String.eqb p q.
Proof.
  destruct (String.eqb_spec p q) as [->|Hne].
  - apply String.eqb_refl.
  - apply String.eqb_neq. intros H. apply Hne. by apply append_cancel_r in H.
Qed.

Lemma Key_not_id (p : string) : String.eqb (p +:+ "Key") "id" = false.
Proof.
  apply String.eqb_neq. intros H. apply (f_equal String.length) in H.
  rewrite append_length in H. simpl in H. lia.
Qed.

Lemma Key_not_userId (p : string) : String.eqb (p +:+ "Key") "userId" = false.
Proof.
  apply String.eqb_neq. intros H.
  assert (String.length p = 3%nat) as Hlen.
  { apply (f_equal String.length) in H. rewrite append_length in H. simpl in H. lia. }
  destruct p as [|a [|b [|c [|d p]]]]; simpl in Hlen; try lia. simpl in H. discriminate.
Qed.

(** The dynamic access [apiKeys[`${platform}Key`]] reads one of the four
    credential columns, and nothing else. *)
Lemma ApiKey_field_platform (k : ApiKey.t) (p : string) :
  ApiKey_field k (p +:+ "Key") =
    if String.eqb p "youtube" then of_nullable (ApiKey.youtubeKey k)
    else if String.eqb p "instagram" then of_nullable (ApiKey.instagramKey k)
    else if String.eqb p "twitter" then of_nullable (ApiKey.twitterKey k)
    else if String.eqb p "facebook" then of_nullable (ApiKey.facebookKey k)
    else VUndefined.
Proof.
  unfold ApiKey_field. rewrite Key_not_id, Key_not_userId.
  change "youtubeKey" with ("youtube" +:+ "Key").
  change "instagramKey" with ("instagram" +:+ "Key").
  change "twitterKey" with ("twitter" +:+ "Key").
  change "facebookKey" with ("facebook" +:+ "Key").
  by rewrite !eqb_append_Key.
Qed.

Lemma supported_platform_dec (p : string) :
  In p platforms <->
  String.eqb p "youtube" || String.eqb p "instagram" || String.eqb p "twitter"
  || String.eqb p "facebook" = true.
Proof.
  unfold platforms. simpl. rewrite !orb_true_iff, !String.eqb_eq. intuition congruence.
Qed.

Lemma credential_needs_supported (k : option ApiKey.t) (p key : string) :
  as_key (opt_field k (p +:+ "Key")) = Some key -> In p platforms.
Proof.
  intros H. apply supported_platform_dec.
  destruct k as [k|]; [|done]. simpl in H. rewrite ApiKey_field_platform in H.
  destruct (String.eqb p "youtube"); [done|].
  destruct (String.eqb p "instagram"); [done|].
  destruct (String.eqb p "twitter"); [done|].
  destruct (String.eqb p "facebook"); [done|]. done.
Qed.

Lemma unsupported_no_credential (st : MemStorage) (userId : Z) (p : string) :
  ~ In p platforms -> no_credential st userId p.
Proof.
  intros Hp. unfold no_credential.
  destruct (as_key _) as [key|] eqn:E; [|done].
  exfalso. apply Hp. eapply credential_needs_supported, E.
Qed.

(** ** Reading statistics *)

Ltac unfold_m :=
  unfold getPlatformStats_body, Service_getPlatformStats_with, getService,
    getApiKeys, getUser, cache_get, cache_set, log, now, outbound,
    try_catch, bind, ret, throw in *.

(** The store's [getPlatformStats] catches everything: it never throws. *)
Lemma getPlatformStats_never_throws fuel userId platform days s e s' :
  MemStorage_getPlatformStats fuel userId platform days s <> Throw e s'.
Proof.
  destruct fuel as [|fuel]; simpl; [done|].
  unfold getPlatformStats_body at 1. unfold try_catch at 1.
  destruct (bind _ _ s); done.
Qed.

(** Without a usable credential the read is one cache lookup. *)
Lemma getPlatformStats_no_credential fuel userId platform days s :
  no_credential (store s) userId platform ->
  MemStorage_getPlatformStats (S fuel) userId platform days s =
    Ret (socialStats (store s) !! stats_key userId platform days)
        (logged (CallGetPlatformStats userId platform days) s).
Proof.
  unfold no_credential. intros H. simpl. unfold_m. simpl. by rewrite H.
Qed.

(** C3: for a user with no credential on file for a platform,
    [getPlatformStats] returns the cache entry stored under
    (userId, platform, days) as it is, and leaves the store as it was; a
    second call returns the same value, again without touching the store. *)
Theorem no_credential_read_is_idempotent (fuel : nat) (userId : Z) (platform : string)
    (days : Z) (s : State) :
  no_credential (store s) userId platform ->
  exists s1 s2,
    MemStorage_getPlatformStats (S fuel) userId platform days s
      = Ret (socialStats (store s) !! stats_key userId platform days) s1 /\
    store s1 = store s /\
    MemStorage_getPlatformStats (S fuel) userId platform days s1
      = Ret (socialStats (store s) !! stats_key userId platform days) s2 /\
    store s2 = store s.
Proof.
  intros H.
  exists (logged (CallGetPlatformStats userId platform days) s).
  exists (logged (CallGetPlatformStats userId platform days)
            (logged (CallGetPlatformStats userId platform days) s)).
  split; [by apply getPlatformStats_no_credential|].
  split; [done|]. split; [|done].
  by rewrite getPlatformStats_no_credential.
Qed.

Lemma no_credential_read_is_idempotent_witness :
  exists s1 s2,
    MemStorage_getPlatformStats 1 1 "youtube" 7 s_alice
      = Ret (Some (sample_youtube (demo_clock 0))) s1 /\
    store s1 = store s_alice /\
    MemStorage_getPlatformStats 1 1 "youtube" 7 s1
      = Ret (Some (sample_youtube (demo_clock 0))) s2 /\
    store s2 = store s_alice.
Proof.
  exact (no_credential_read_is_idempotent 0 1 "youtube" 7 s_alice eq_refl).
Defined.

(** ** The request layer *)

Lemma or_default_nonzero (z d : Z) : z <> 0 -> or_default (Num z) d = z.
Proof. intros H. unfold or_default. by destruct (Z.eqb_spec z 0). Qed.

(** Past the gate, [GET /api/stats] answers 200 or 404. *)
Lemma get_stats_past_gate fuel q s user r s' :
  JsMap.get (query_userId q) (users (store s)) = Some user ->
  negb (User.isPro user) && (7 <? query_days q) = false ->
  get_stats fuel q s = Ret r s' -> status r = 200 \/ status r = 404.
Proof.
  intros Hu Hg. unfold get_stats, getUser, bind at 1. rewrite Hu, Hg.
  destruct (q_platform q) as [p|].
  - destruct (negb (String.eqb p "") && negb (String.eqb p "all")).
    + unfold bind, ret.
      destruct (MemStorage_getPlatformStats _ _ _ _ _) as [[st|] ?| |]; intros [= <- _]; auto.
    + unfold bind, ret.
      destruct (MemStorage_getAllPlatformStats _ _ _ _); intros [= <- _]; auto.
  - unfold bind, ret.
    destruct (MemStorage_getAllPlatformStats _ _ _ _); intros [= <- _]; auto.
Qed.

Lemma get_posts_past_gate getTime fuel q s user r s' :
  JsMap.get (query_userId q) (users (store s)) = Some user ->
  negb (User.isPro user) && (7 <? query_days q) = false ->
  get_posts getTime fuel q s = Ret r s' -> status r = 200.
Proof.
  intros Hu Hg. unfold get_posts, getUser, bind at 1. rewrite Hu, Hg.
  unfold bind, ret.
  destruct (MemStorage_getPosts _ _ _ _ _ _ _ _); by intros [= <- _].
Qed.

(** C1: a free user who asks [GET /api/stats] or [GET /api/posts] for more
    than 7 days gets the 403 answer with [upgrade: true], whatever the
    platform and whatever the store holds; with [days=7] neither endpoint
    ever answers 403. *)
Theorem free_tier_window_gate (getTime : string -> option Z) (fuel : nat) (q : Query)
    (s : State) (user : User.t) :
  JsMap.get (query_userId q) (users (store s)) = Some user ->
  User.isPro user = false ->
  (forall days, q_days q = Num days -> 7 < days ->
     get_stats fuel q s = Ret free_tier_denied s /\
     get_posts getTime fuel q s = Ret free_tier_denied s /\
     status free_tier_denied = 403 /\
     exists message, body free_tier_denied = Upgrade message true) /\
  (q_days q = Num 7 ->
     forall r s',
       get_stats fuel q s = Ret r s' \/ get_posts getTime fuel q s = Ret r s' ->
       status r <> 403).
Proof.
  intros Hu Hpro. split.
  - intros days Hd Hlt.
    assert (negb (User.isPro user) && (7 <? query_days q) = true) as Hg.
    { unfold query_days. rewrite Hd, Hpro, or_default_nonzero by lia. simpl. lia. }
    unfold get_stats, get_posts, getUser, bind. rewrite Hu, Hg.
    repeat split; eauto.
  - intros Hd r s' Hr.
    assert (negb (User.isPro user) && (7 <? query_days q) = false) as Hg.
    { unfold query_days. rewrite Hd, Hpro. done. }
    destruct Hr as [Hr|Hr].
    + destruct (get_stats_past_gate _ _ _ _ _ _ Hu Hg Hr) as [-> | ->]; lia.
    + rewrite (get_posts_past_gate _ _ _ _ _ _ _ Hu Hg Hr). lia.
Qed.

Lemma free_tier_window_gate_witness :
  (forall days, Num 30 = Num days -> 7 < days ->
     get_stats 1 (query (Num 1) (Num 30) (Some "youtube") NaN NaN) s_alice
       = Ret free_tier_denied s_alice /\
     get_posts iso_getTime 1 (query (Num 1) (Num 30) (Some "youtube") NaN NaN) s_alice
       = Ret free_tier_denied s_alice /\
     status free_tier_denied = 403 /\
     exists message, body free_tier_denied = Upgrade message true) /\
  (Num 30 = Num 7 ->
     forall r s',
       get_stats 1 (query (Num 1) (Num 30) (Some "youtube") NaN NaN) s_alice = Ret r s' \/
       get_posts iso_getTime 1 (query (Num 1) (Num 30) (Some "youtube") NaN NaN) s_alice
         = Ret r s' ->
       status r <> 403).
Proof.
  exact (free_tier_window_gate iso_getTime 1
           (query (Num 1) (Num 30) (Some "youtube") NaN NaN) s_alice
           alice_user eq_refl eq_refl).
Defined.

(** ** Preservation through the monad *)

Section Preservation.
Context (P : State -> Prop).

Lemma preserves_ret {A} (a : A) : preserves P (ret a).
Proof. by intros s Hs. Qed.

Lemma preserves_throw {A} e : preserves P (@throw A e).
Proof. by intros s Hs. Qed.

Lemma preserves_bind {A B} (m : M A) (k : A -> M B) :
  preserves P m -> (forall a, preserves P (k a)) -> preserves P (bind m k).
Proof.
  intros Hm Hk s Hs. unfold bind. specialize (Hm s Hs).
  destruct (m s) as [a s'| |]; [by apply Hk | done | done].
Qed.

Lemma preserves_try_catch {A} (m : M A) (h : string -> M A) :
  preserves P m -> (forall e, preserves P (h e)) -> preserves P (try_catch m h).
Proof.
  intros Hm Hh s Hs. unfold try_catch. specialize (Hm s Hs).
  destruct (m s) as [a s'|e s'|]; [done | by apply Hh | done].
Qed.

Lemma preserves_for_each {A B} (l : list A) (step : B -> A -> M B) :
  (forall acc x, preserves P (step acc x)) -> forall acc, preserves P (for_each l acc step).
Proof.
  intros Hstep. induction l as [|x l IH]; intros acc; simpl.
  - apply preserves_ret.
  - apply preserves_bind; [apply Hstep | intros acc'; apply IH].
Qed.

Lemma preserves_read {A} (f : State -> A) : preserves P (fun s => Ret (f s) s).
Proof. by intros s Hs. Qed.

Hypothesis HP : stable P.

Lemma preserves_log e : preserves P (log e).
Proof. intros s Hs. by apply HP. Qed.

Lemma preserves_now : preserves P now.
Proof. intros s Hs. by apply HP. Qed.

Lemma preserves_outbound : preserves P outbound.
Proof. intros s Hs. by apply HP. Qed.

Lemma preserves_getService platform : preserves P (getService platform).
Proof.
  unfold getService. apply preserves_bind; [apply preserves_log|]. intros _.
  repeat (case_match; [apply preserves_ret|]). apply preserves_throw.
Qed.

Lemma preserves_getRandomGrowth : preserves P getRandomGrowth.
Proof. intros s Hs. by apply HP. Qed.

Lemma preserves_request : preserves P request.
Proof.
  unfold request. apply preserves_bind; [apply preserves_log|]. intros _.
  apply preserves_bind; [apply preserves_outbound|].
  intros [body|message|message]; [apply preserves_ret | apply preserves_throw..].
Qed.

Lemma preserves_YouTube_fetch : preserves P YouTube_fetch.
Proof.
  unfold YouTube_fetch.
  apply preserves_bind; [apply preserves_now|]. intros _.
  apply preserves_bind; [apply preserves_now|]. intros _.
  apply preserves_bind; [apply preserves_request|]. intros channelData.
  destruct (channel_items channelData) as [[|channel rest]|]; try apply preserves_throw.
  apply preserves_bind; [apply preserves_request|]. intros videosData.
  destruct (search_items videosData) as [items|]; [|apply preserves_throw].
  apply preserves_bind; [apply preserves_request|]. intros videoStatsData.
  assert (preserves P
            (let* followersGrowth := getRandomGrowth in
             let* viewsGrowth := getRandomGrowth in
             let* engagementGrowth := getRandomGrowth in
             let* lastUpdated := now in
             ret (live_stats {| live_channel := channel;
                                live_items := items;
                                live_videoStats := default [] (video_items videoStatsData);
                                growth1 := followersGrowth;
                                growth2 := viewsGrowth;
                                growth3 := engagementGrowth |} lastUpdated))) as Hrest.
  { do 3 (apply preserves_bind; [apply preserves_getRandomGrowth|]; intros ?).
    apply preserves_bind; [apply preserves_now|]. intros t. apply preserves_ret. }
  destruct (video_items videoStatsData) as [videoStatsItems|], items as [|item items];
    try exact Hrest.
  apply preserves_throw.
Qed.

Lemma preserves_live_fetch svc apiKey : preserves P (live_fetch svc apiKey).
Proof.
  unfold live_fetch. case_match; [apply preserves_throw|].
  destruct svc; try apply preserves_throw. apply preserves_YouTube_fetch.
Qed.

Lemma preserves_adapter (recur : Z -> string -> Z -> M (option SocialStats.t))
    svc userId apiKey days :
  (forall u p d, preserves P (recur u p d)) ->
  preserves P (Service_getPlatformStats_with recur svc userId apiKey days).
Proof.
  intros Hrec. unfold Service_getPlatformStats_with.
  apply preserves_try_catch; [apply preserves_live_fetch|]. intros message.
  apply preserves_bind; [apply Hrec|]. intros [existing|].
  - apply preserves_bind; [apply preserves_now|]. intros t. apply preserves_ret.
  - apply preserves_throw.
Qed.

Lemma preserves_body (adapter : Service -> Z -> string -> Z -> M SocialStats.t)
    userId platform days :
  (forall svc u k d, preserves P (adapter svc u k d)) ->
  preserves P (getPlatformStats_body adapter userId platform days).
Proof.
  intros Had. unfold getPlatformStats_body.
  apply preserves_try_catch; [|intros e; apply preserves_ret].
  apply preserves_bind; [apply preserves_log|]. intros _.
  apply preserves_bind; [apply preserves_read|]. intros apiKeys.
  apply preserves_bind.
  - destruct (as_key _) as [apiKey|] eqn:E; [|apply preserves_ret].
    apply credential_needs_supported in E.
    apply preserves_try_catch; [|intros e; apply preserves_ret].
    apply preserves_bind; [apply preserves_getService|]. intros svc.
    apply preserves_bind; [apply Had|]. intros realTimeStats.
    apply preserves_bind; [|intros _; apply preserves_ret].
    intros s Hs. simpl. by apply HP.
  - intros [live|]; [apply preserves_ret | apply preserves_read].
Qed.

Lemma preserves_getPlatformStats fuel userId platform days :
  preserves P (MemStorage_getPlatformStats fuel userId platform days).
Proof.
  revert userId platform days. induction fuel as [|fuel IH]; intros userId platform days.
  - by intros s Hs.
  - simpl. apply preserves_body. intros svc u k d. by apply preserves_adapter.
Qed.

Lemma preserves_getAllPlatformStats fuel userId days :
  preserves P (MemStorage_getAllPlatformStats fuel userId days).
Proof.
  unfold MemStorage_getAllPlatformStats.
  apply preserves_bind; [apply preserves_log|]. intros _.
  apply preserves_bind; [apply preserves_read|]. intros apiKeys.
  apply preserves_for_each. intros acc platform. unfold collect_step.
  apply preserves_try_catch; [|intros e; apply preserves_ret].
  apply preserves_bind; [apply preserves_getPlatformStats|].
  intros [st|]; apply preserves_ret.
Qed.

Lemma preserves_gather_posts fuel userId platform days :
  preserves P (gather_posts fuel userId platform days).
Proof.
  unfold gather_posts.
  apply preserves_bind; [apply preserves_read|]. intros apiKeys.
  apply preserves_for_each. intros acc p. unfold gather_step.
  apply preserves_try_catch; [|intros e; apply preserves_ret].
  apply preserves_bind; [apply preserves_getPlatformStats|].
  intros [st|]; apply preserves_ret.
Qed.

Lemma preserves_getPosts getTime fuel userId platform days page limit :
  preserves P (MemStorage_getPosts getTime fuel userId platform days page limit).
Proof.
  unfold MemStorage_getPosts.
  apply preserves_bind; [apply preserves_log|]. intros _.
  apply preserves_bind; [apply preserves_gather_posts|]. intros allPosts.
  apply preserves_ret.
Qed.

End Preservation.

(** ** What the handlers pass to the store *)

Lemma stable_traced (e : Event) : stable (fun s => In e (trace (world s))).
Proof. split; simpl; auto. Qed.

Lemma traced_after_log {A} (e : Event) (m : M A) s r s' :
  preserves (fun s => In e (trace (world s))) m ->
  bind (log e) (fun _ => m) s = Ret r s' ->
  In e (trace (world s')).
Proof.
  intros Hm H. unfold bind, log in H. specialize (Hm (logged e s)).
  destruct (m (logged e s)) as [a s1|e1 s1|]; inversion H; subst.
  apply Hm. simpl. auto.
Qed.

Lemma getPosts_traced getTime fuel userId platform days page limit s r s' :
  MemStorage_getPosts getTime fuel userId platform days page limit s = Ret r s' ->
  In (CallGetPosts userId platform days page limit) (trace (world s')).
Proof.
  unfold MemStorage_getPosts. intros H.
  eapply traced_after_log in H; [exact H|].
  apply preserves_bind; [apply preserves_gather_posts, stable_traced|].
  intros allPosts. apply preserves_ret.
Qed.

Lemma getAllPlatformStats_traced fuel userId days s r s' :
  MemStorage_getAllPlatformStats fuel userId days s = Ret r s' ->
  In (CallGetAllPlatformStats userId days) (trace (world s')).
Proof.
  unfold MemStorage_getAllPlatformStats. intros H.
  eapply traced_after_log in H; [exact H|].
  apply preserves_bind; [apply preserves_read|]. intros apiKeys.
  apply preserves_for_each. intros acc platform. unfold collect_step.
  apply preserves_try_catch; [|intros e; apply preserves_ret].
  apply preserves_bind; [apply preserves_getPlatformStats, stable_traced|].
  intros [st|]; apply preserves_ret.
Qed.

Lemma getPlatformStats_traced fuel userId platform days s r s' :
  MemStorage_getPlatformStats fuel userId platform days s = Ret r s' ->
  In (CallGetPlatformStats userId platform days) (trace (world s')).
Proof.
  destruct fuel as [|fuel]; simpl; [done|].
  unfold getPlatformStats_body. unfold try_catch at 1. intros H.
  match type of H with
  | match bind (log ?e) (fun _ => ?m) s with _ => _ end = _ =>
      assert (preserves (fun s => In e (trace (world s))) m) as Hm
  end.
  { apply preserves_bind; [apply preserves_read|]. intros apiKeys.
    apply preserves_bind.
    - destruct (as_key _) as [apiKey|]; [|apply preserves_ret].
      apply preserves_try_catch; [|intros e; apply preserves_ret].
      apply preserves_bind; [apply preserves_getService, stable_traced|]. intros svc.
      apply preserves_bind;
        [apply preserves_adapter;
           [apply stable_traced | intros u p d; apply preserves_getPlatformStats, stable_traced]|].
      intros realTimeStats.
      apply preserves_bind; [|intros _; apply preserves_ret]. by intros s0 Hs0.
    - intros [live|]; [apply preserves_ret | apply preserves_read]. }
  unfold bind at 1, log in H. specialize (Hm (logged (CallGetPlatformStats userId platform days) s)).
  simpl in Hm.
  match type of H with
  | match ?x with _ => _ end = _ => destruct x as [a s1|e1 s1|]
  end.
  - inversion H; subst. apply Hm. auto.
  - unfold ret in H. inversion H; subst. apply Hm. auto.
  - done.
Qed.

(** C7 (amended): a numeric query parameter is replaced by its default
    (userId 1, days 7, page 1, limit 10) when it is missing, not a number or
    zero; any other number, a negative one included, reaches the store as it
    is.  Whenever [GET /api/posts] or [GET /api/stats] answers past the user
    lookup and the free-tier gate, the store was called with exactly the
    converted values. *)
Theorem numeric_query_conversion (getTime : string -> option Z) (fuel : nat) (q : Query)
    (s : State) (user : User.t) :
  JsMap.get (query_userId q) (users (store s)) = Some user ->
  negb (User.isPro user) && (7 <? query_days q) = false ->
  (forall x d, (x = NaN \/ x = Num 0 -> or_default x d = d) /\
               (forall z, x = Num z -> z <> 0 -> or_default x d = z)) /\
  query_userId q = or_default (q_userId q) 1 /\
  query_days q = or_default (q_days q) 7 /\
  query_page q = or_default (q_page q) 1 /\
  query_limit q = or_default (q_limit q) 10 /\
  (forall r s', get_posts getTime fuel q s = Ret r s' ->
     In (CallGetPosts (query_userId q) (query_platform q) (query_days q)
           (query_page q) (query_limit q)) (trace (world s'))) /\
  (forall r s', get_stats fuel q s = Ret r s' ->
     In (CallGetAllPlatformStats (query_userId q) (query_days q)) (trace (world s')) \/
     exists platform, q_platform q = Some platform /\
       In (CallGetPlatformStats (query_userId q) platform (query_days q)) (trace (world s'))).
Proof.
  intros Hu Hg. split.
  { intros x d. split.
    - by intros [-> | ->].
    - intros z -> Hz. by apply or_default_nonzero. }
  do 4 (split; [reflexivity|]). split.
  - intros r s'. unfold get_posts, getUser. unfold bind at 1. rewrite Hu, Hg.
    unfold bind at 1.
    destruct (MemStorage_getPosts _ _ _ _ _ _ _ _) as [a s1|e s1|] eqn:E; [|done|done].
    unfold ret. intros [= _ <-]. by eapply getPosts_traced.
  - intros r s'. unfold get_stats, getUser. unfold bind at 1. rewrite Hu, Hg.
    destruct (q_platform q) as [p|].
    + destruct (negb (String.eqb p "") && negb (String.eqb p "all")).
      * unfold bind at 1.
        destruct (MemStorage_getPlatformStats _ _ _ _ _) as [a s1|e s1|] eqn:E; [|done|done].
        intros H. right. exists p. split; [done|].
        apply getPlatformStats_traced in E.
        destruct a; unfold ret in H; by inversion H; subst.
      * unfold bind at 1.
        destruct (MemStorage_getAllPlatformStats _ _ _ _) as [a s1|e s1|] eqn:E; [|done|done].
        unfold ret. intros [= _ <-]. left. by eapply getAllPlatformStats_traced.
    + unfold bind at 1.
      destruct (MemStorage_getAllPlatformStats _ _ _ _) as [a s1|e s1|] eqn:E; [|done|done].
      unfold ret. intros [= _ <-]. left. by eapply getAllPlatformStats_traced.
Qed.

Lemma numeric_query_conversion_witness :
  (forall x d, (x = NaN \/ x = Num 0 -> or_default x d = d) /\
               (forall z, x = Num z -> z <> 0 -> or_default x d = z)) /\
  1 = or_default (Num 1) 1 /\
  (-5) = or_default (Num (-5)) 7 /\
  1 = or_default NaN 1 /\
  (-1) = or_default (Num (-1)) 10 /\
  (forall r s',
     get_posts iso_getTime 1 (query (Num 1) (Num (-5)) None NaN (Num (-1))) s_alice = Ret r s' ->
     In (CallGetPosts 1 "all" (-5) 1 (-1)) (trace (world s'))) /\
  (forall r s',
     get_stats 1 (query (Num 1) (Num (-5)) None NaN (Num (-1))) s_alice = Ret r s' ->
     In (CallGetAllPlatformStats 1 (-5)) (trace (world s')) \/
     exists platform, None = Some platform /\
       In (CallGetPlatformStats 1 platform (-5)) (trace (world s'))).
Proof.
  exact (numeric_query_conversion iso_getTime 1
           (query (Num 1) (Num (-5)) None NaN (Num (-1))) s_alice alice_user
           eq_refl eq_refl).
Defined.

(** C7, as stated, fails: [days=-5] and [limit=-1] are not positive
    integers, yet [GET /api/posts?userId=1&days=-5&limit=-1] answers 200 and
    the store's [getPosts] was called with [days = -5] and [limit = -1]. *)
Lemma numeric_query_not_validated :
  exists r s',
    get_posts iso_getTime 1 (query (Num 1) (Num (-5)) None NaN (Num (-1))) s_alice = Ret r s' /\
    status r = 200 /\
    In (CallGetPosts 1 "all" (-5) 1 (-1)) (trace (world s')) /\
    ~ (0 < -5) /\ ~ (0 < -1).
Proof.
  do 2 eexists. split; [vm_compute; reflexivity|].
  split; [reflexivity|]. split; [simpl; auto 10|]. lia.
Qed.

(** ** A credential on file and a failing live fetch *)

Lemma credential_nonempty (k : option ApiKey.t) (p key : string) :
  as_key (opt_field k (p +:+ "Key")) = Some key -> String.eqb key "" = false.
Proof.
  destruct k as [k|]; [|done]. simpl. rewrite ApiKey_field_platform.
  assert (forall x, as_key (of_nullable x) = Some key -> String.eqb key "" = false) as Hx.
  { intros [x|]; simpl; [|done]. destruct (String.eqb x "") eqn:E; [done|].
    by intros [= <-]. }
  destruct (String.eqb p "youtube"); [apply Hx|].
  destruct (String.eqb p "instagram"); [apply Hx|].
  destruct (String.eqb p "twitter"); [apply Hx|].
  destruct (String.eqb p "facebook"); [apply Hx|]. done.
Qed.

Lemma getService_supported (svc : Service) (s : State) :
  getService (service_platform svc) s
    = Ret svc (logged (CallFactory (service_platform svc)) s).
Proof. by destruct svc. Qed.

(** The first request of the YouTube adapter is not answered with a body:
    the live fetch throws after two readings of the clock and one request. *)
Lemma YouTube_fetch_fails (s : State) :
  (forall body, fetch_at (world s) (fetched (world s)) <> FetchOk body) ->
  exists message,
    YouTube_fetch s = Throw message (sent (logged (Outbound "youtube") (ticked (ticked s)))).
Proof.
  intros Hfail. unfold YouTube_fetch, request, bind, now, log, outbound.
  cbn [world logged ticked with_world fetched fetch_at].
  destruct (fetch_at (world s) (fetched (world s))) as [body|message|message] eqn:E.
  - by destruct (Hfail body).
  - by eexists.
  - by eexists.
Qed.

(** The adapter's [catch] block asks the store, the store sees the
    credential and asks the adapter: while the live fetch keeps failing
    the read never comes back, whatever the fuel. *)
Lemma credential_read_diverges (fuel : nat) :
  forall (svc : Service) (userId days : Z) (s : State) (key : string),
    as_key (opt_field (find_by_user userId (platformApiKeys (store s)))
              (service_platform svc +:+ "Key")) = Some key ->
    live_always_fails svc (world s) ->
    MemStorage_getPlatformStats fuel userId (service_platform svc) days s = OutOfFuel.
Proof.
  induction fuel as [|fuel IH]; intros svc userId days s key Hkey Hfail; [done|].
  pose proof (credential_nonempty _ _ _ Hkey) as Hne.
  simpl. unfold getPlatformStats_body.
  unfold try_catch at 1. unfold bind at 1. unfold log at 1.
  unfold bind at 1. unfold getApiKeys at 1. cbn [store logged with_world].
  rewrite Hkey.
  unfold bind at 1. unfold try_catch at 1. unfold bind at 1.
  rewrite getService_supported.
  unfold bind at 1. unfold Service_getPlatformStats_with at 1. unfold try_catch at 1.
  unfold live_fetch. rewrite Hne.
  destruct svc.
  - match goal with
    | |- context [YouTube_fetch ?s0] =>
        destruct (YouTube_fetch_fails s0) as [message Hm]; [by apply Hfail|]; rewrite Hm
    end.
    unfold bind at 1.
    rewrite (IH YouTubeApiService userId days _ key); [done | exact Hkey |].
    intros n Hn. apply Hfail. simpl in Hn. lia.
  - unfold throw at 1. unfold bind at 1.
    by rewrite (IH TwitterApiService userId days _ key).
  - unfold throw at 1. unfold bind at 1.
    by rewrite (IH InstagramApiService userId days _ key).
  - unfold throw at 1. unfold bind at 1.
    by rewrite (IH FacebookApiService userId days _ key).
Qed.

(** C2, evaluated on the code: user 1 has a Twitter token on file and the
    seeded entry for (1, twitter, 7) is cached; the Twitter adapter's fetch
    fails; [getPlatformStats(1, 'twitter', 7)] does not return the cached
    entry with error fields: it does not return at all. *)
Theorem stub_credential_read_never_returns :
  socialStats (store s_twitter) !! stats_key 1 "twitter" 7
    = Some (sample_twitter (demo_clock 2)) /\
  ApiKey.twitterKey <$> find_by_user 1 (platformApiKeys (store s_twitter))
    = Some (Some "tok") /\
  forall fuel, MemStorage_getPlatformStats fuel 1 "twitter" 7 s_twitter = OutOfFuel.
Proof.
  split; [reflexivity|]. split; [reflexivity|]. intros fuel.
  by apply (credential_read_diverges fuel TwitterApiService 1 7 s_twitter "tok").
Qed.

(** When YouTube fails once and then answers, the read does return, but
    with the fresh live figures carrying the error fields, and the cache
    entry is overwritten with them: the previous entry is gone. *)
Example youtube_fails_once :
  exists s',
    MemStorage_getPlatformStats 2 1 "youtube" 7 s_youtube
      = Ret (Some (annotate (live_stats demo_live (demo_clock 9)) (demo_clock 10)
                     "YouTube API error: quotaExceeded")) s' /\
    socialStats (store s_youtube) !! stats_key 1 "youtube" 7
      = Some (sample_youtube (demo_clock 0)) /\
    socialStats (store s') !! stats_key 1 "youtube" 7
      = Some (annotate (live_stats demo_live (demo_clock 9)) (demo_clock 10)
                "YouTube API error: quotaExceeded").
Proof. eexists. split; [vm_compute; reflexivity|]. split; reflexivity. Qed.

(** ** The adapter's own fallback *)

(** A live fetch that returns is the YouTube adapter's, and what it returns
    carries no error field. *)
Lemma live_fetch_returns (svc : Service) (apiKey : string) (s s' : State) (r : SocialStats.t) :
  live_fetch svc apiKey s = Ret r s' ->
  svc = YouTubeApiService /\ exists d t, r = live_stats d t.
Proof.
  set (Q := fun r : SocialStats.t => exists d t, r = live_stats d t).
  assert (forall {A : Type} (m : M A) (k : A -> M SocialStats.t),
            (forall a s0 s1 r0, k a s0 = Ret r0 s1 -> Q r0) ->
            forall s0 s1 r0, bind m k s0 = Ret r0 s1 -> Q r0) as Hbind.
  { intros A m k Hk s0 s1 r0. unfold bind. destruct (m s0) as [a s2|e s2|]; [|done..].
    apply Hk. }
  unfold live_fetch. destruct (String.eqb apiKey ""); [done|].
  destruct svc; try done. intros H. split; [done|].
  revert s s' r H. unfold YouTube_fetch.
  apply Hbind. intros _. apply Hbind. intros _. apply Hbind. intros channelData.
  destruct (channel_items channelData) as [[|channel rest]|]; [done| |done].
  apply Hbind. intros videosData.
  destruct (search_items videosData) as [items|]; [|done].
  apply Hbind. intros videoStatsData.
  assert (forall videoStatsItems s0 s1 r0,
            (let* followersGrowth := getRandomGrowth in
             let* viewsGrowth := getRandomGrowth in
             let* engagementGrowth := getRandomGrowth in
             let* lastUpdated := now in
             ret (live_stats {| live_channel := channel;
                                live_items := items;
                                live_videoStats := default [] videoStatsItems;
                                growth1 := followersGrowth;
                                growth2 := viewsGrowth;
                                growth3 := engagementGrowth |} lastUpdated)) s0
              = Ret r0 s1 -> Q r0) as Hrest.
  { intros videoStatsItems. do 4 (apply Hbind; intros ?).
    intros s0 s1 r0 [= <- _]. by do 2 eexists. }
  destruct (video_items videoStatsData) as [videoStatsItems|], items as [|item items];
    try apply Hrest.
  done.
Qed.

Lemma annotate_fallback (existing : SocialStats.t) (t message : string) :
  fallback_of existing t message (annotate existing t message).
Proof. by repeat split. Qed.

(** C5 (amended): when the live fetch of an adapter fails with [message],
    the adapter itself asks the store for the entry of its platform.  If the
    store returns [existing], the adapter resolves with the figures and posts
    of [existing], [lastUpdated] set to the current time, [errorMessage] to
    [message] and [isApiError] to true; it rejects, with [message], only when
    the store returns nothing; and it does not settle when the store does
    not.  For a user with no credential on file for the platform the store
    returns the cache entry of (userId, platform, days) and the store is left
    as it was; with a credential on file a stub adapter never settles.  Only
    the live fetch of the YouTube adapter can succeed, and then the adapter
    resolves with its result, which has no error field. *)
Theorem adapter_falls_back_to_store (fuel : nat) (svc : Service) (userId : Z)
    (apiKey : string) (days : Z) (s s1 : State) (message : string) :
  live_fetch svc apiKey s = Throw message s1 ->
  (forall existing s2,
     MemStorage_getPlatformStats fuel userId (service_platform svc) days s1
       = Ret (Some existing) s2 ->
     exists r,
       Service_getPlatformStats fuel svc userId apiKey days s = Ret r (ticked s2) /\
       fallback_of existing (now_at (world s2) (ticks (world s2))) message r) /\
  (forall s2,
     MemStorage_getPlatformStats fuel userId (service_platform svc) days s1 = Ret None s2 ->
     Service_getPlatformStats fuel svc userId apiKey days s = Throw message s2) /\
  (MemStorage_getPlatformStats fuel userId (service_platform svc) days s1 = OutOfFuel ->
   Service_getPlatformStats fuel svc userId apiKey days s = OutOfFuel) /\
  (no_credential (store s1) userId (service_platform svc) ->
   let s2 := logged (CallGetPlatformStats userId (service_platform svc) days) s1 in
   match socialStats (store s1) !! stats_key userId (service_platform svc) days with
   | Some existing =>
       exists r,
         Service_getPlatformStats (S fuel) svc userId apiKey days s = Ret r (ticked s2) /\
         fallback_of existing (now_at (world s1) (ticks (world s1))) message r /\
         store (ticked s2) = store s1
   | None => Service_getPlatformStats (S fuel) svc userId apiKey days s = Throw message s2
   end) /\
  (forall key,
     svc <> YouTubeApiService ->
     as_key (opt_field (find_by_user userId (platformApiKeys (store s1)))
               (service_platform svc +:+ "Key")) = Some key ->
     Service_getPlatformStats fuel svc userId apiKey days s = OutOfFuel) /\
  (forall r s0 s',
     live_fetch svc apiKey s0 = Ret r s' ->
     Service_getPlatformStats fuel svc userId apiKey days s0 = Ret r s' /\
     svc = YouTubeApiService /\
     SocialStats.errorMessage r = None /\ SocialStats.isApiError r = None).
Proof.
  intros Hlive.
  assert (forall fuel',
            Service_getPlatformStats fuel' svc userId apiKey days s =
            match MemStorage_getPlatformStats fuel' userId (service_platform svc) days s1 with
            | Ret (Some existing) s2 =>
                Ret (annotate existing (now_at (world s2) (ticks (world s2))) message)
                    (ticked s2)
            | Ret None s2 => Throw message s2
            | Throw e s2 => Throw e s2
            | OutOfFuel => OutOfFuel
            end) as Hrun.
  { intros fuel'.
    unfold Service_getPlatformStats, Service_getPlatformStats_with, try_catch.
    rewrite Hlive. unfold bind at 1.
    by destruct (MemStorage_getPlatformStats fuel' userId (service_platform svc) days s1)
      as [[existing|] s2|e s2|]. }
  split; [|split; [|split; [|split; [|split]]]].
  - intros existing s2 Hstore. eexists. rewrite Hrun, Hstore.
    split; [reflexivity | apply annotate_fallback].
  - intros s2 Hstore. by rewrite Hrun, Hstore.
  - intros Hstore. by rewrite Hrun, Hstore.
  - intros Hno s2. rewrite Hrun, getPlatformStats_no_credential by done. fold s2.
    destruct (socialStats (store s1) !! stats_key userId (service_platform svc) days)
      as [existing|]; [|done].
    eexists. split; [reflexivity|]. split; [apply annotate_fallback | done].
  - intros key Hsvc Hkey. rewrite Hrun.
    rewrite (credential_read_diverges fuel svc userId days s1 key); [done | done |].
    by destruct svc.
  - intros r s0 s' Hok. split.
    + unfold Service_getPlatformStats, Service_getPlatformStats_with, try_catch.
      by rewrite Hok.
    + destruct (live_fetch_returns _ _ _ _ _ Hok) as (Hsvc & d & t & ->). by repeat split.
Qed.

Lemma adapter_falls_back_to_store_witness :
  socialStats (store s_alice) !! stats_key 1 "twitter" 7 = Some (sample_twitter (demo_clock 2)) /\
  exists r s',
    Service_getPlatformStats 1 TwitterApiService 1 "tok" 7 s_alice = Ret r s' /\
    fallback_of (sample_twitter (demo_clock 2)) (demo_clock 5)
      "Twitter API implementation in progress" r /\
    SocialStats.followers r = 22100 /\
    store s' = store s_alice.
Proof.
  split; [reflexivity|].
  pose proof (adapter_falls_back_to_store 0 TwitterApiService 1 "tok" 7 s_alice s_alice
                "Twitter API implementation in progress" eq_refl) as (_ & _ & _ & H & _).
  specialize (H eq_refl). cbv zeta in H.
  change (socialStats (store s_alice) !! stats_key 1 (service_platform TwitterApiService) 7)
    with (Some (sample_twitter (demo_clock 2))) in H.
  destruct H as (r & Hrun & Hfb & Hstore).
  exists r. eexists. split; [exact Hrun|]. split; [exact Hfb|]. split; [|exact Hstore].
  destruct Hfb as (_ & -> & _). reflexivity.
Defined.

(** C5, as stated, fails.  The Twitter adapter, whose live fetch always
    fails, resolves with the start-up entry of the store (user 1 has no
    credential on file); and the YouTube adapter, called for user 1 who has a
    key on file, resolves although its first request was refused, with what
    the store handed back, marked with the error of the refused request. *)
Lemma adapter_resolves_after_failure :
  (exists r s',
     live_fetch TwitterApiService "tok" s_alice
       = Throw "Twitter API implementation in progress" s_alice /\
     Service_getPlatformStats 1 TwitterApiService 1 "tok" 7 s_alice = Ret r s' /\
     SocialStats.followers r = 22100 /\
     SocialStats.posts r = SocialStats.posts (sample_twitter (demo_clock 2)) /\
     SocialStats.lastUpdated r = demo_clock 5 /\
     SocialStats.errorMessage r = Some "Twitter API implementation in progress" /\
     SocialStats.isApiError r = Some true) /\
  (exists r s',
     fetch_at (world s_youtube) (fetched (world s_youtube))
       = FetchNotOk (Some "quotaExceeded") /\
     Service_getPlatformStats 1 YouTubeApiService 1 "AIza" 7 s_youtube = Ret r s' /\
     SocialStats.followers r = 1500 /\
     SocialStats.lastUpdated r = demo_clock 10 /\
     SocialStats.errorMessage r = Some "YouTube API error: quotaExceeded" /\
     SocialStats.isApiError r = Some true).
Proof.
  split.
  - do 2 eexists. split; [reflexivity|]. split; [vm_compute; reflexivity|].
    repeat split.
  - do 2 eexists. split; [reflexivity|]. split; [vm_compute; reflexivity|].
    repeat split.
Qed.

(** ** Sorting *)

Section Sort.
Context {A : Type} (compare : A -> A -> jsnum).

Let R (a b : A) : Prop := positive_result (compare a b) = false.

Lemma sort_insert_perm (x : A) (l : list A) : Permutation (x :: l) (sort_insert compare x l).
Proof.
  induction l as [|y l IH]; simpl; [done|].
  destruct (positive_result (compare x y)); [|done].
  rewrite perm_swap. by apply perm_skip.
Qed.

Lemma js_sort_perm (l : list A) : Permutation l (js_sort compare l).
Proof.
  induction l as [|x l IH]; simpl; [done|].
  etransitivity; [apply perm_skip, IH | apply sort_insert_perm].
Qed.

Lemma js_sort_length (l : list A) : length (js_sort compare l) = length l.
Proof. symmetry. apply Permutation_length, js_sort_perm. Qed.

(** A comparator that never asks for both orders. *)
Hypothesis compare_asym :
  forall x y, positive_result (compare x y) = true -> positive_result (compare y x) = false.

Lemma sort_insert_HdRel (x y : A) (l : list A) :
  R y x -> HdRel R y l -> HdRel R y (sort_insert compare x l).
Proof.
  intros Hyx Hl. destruct l as [|z l]; simpl; [by constructor|].
  destruct (positive_result (compare x z)); constructor; [|done].
  by inversion Hl.
Qed.

Lemma sort_insert_sorted (x : A) (l : list A) :
  Sorted R l -> Sorted R (sort_insert compare x l).
Proof.
  induction l as [|y l IH]; simpl; intros Hl.
  - by repeat constructor.
  - inversion Hl as [|? ? Hs Hhd]; subst.
    destruct (positive_result (compare x y)) eqn:E.
    + constructor; [by apply IH|]. apply sort_insert_HdRel; [|done]. by apply compare_asym.
    + constructor; [done|]. by constructor.
Qed.

Lemma js_sort_sorted (l : list A) : Sorted R (js_sort compare l).
Proof.
  induction l as [|x l IH]; simpl; [constructor|]. by apply sort_insert_sorted.
Qed.

End Sort.

Section ByDate.
Variable getTime : string -> option Z.

Lemma by_date_desc_asym (x y : SocialPost.t * option bool) :
  positive_result (by_date_desc getTime x y) = true ->
  positive_result (by_date_desc getTime y x) = false.
Proof.
  unfold by_date_desc.
  destruct (getTime (SocialPost.datePosted (fst y))) as [ty|],
           (getTime (SocialPost.datePosted (fst x))) as [tx|]; simpl; try done.
  intros H. apply Z.ltb_lt in H. apply Z.ltb_ge. lia.
Qed.

Lemma in_order_newer (a b : SocialPost.t * option bool) (ta tb : Z) :
  posted_at getTime a = Some ta -> posted_at getTime b = Some tb ->
  in_order getTime a b -> tb <= ta.
Proof.
  unfold posted_at, in_order, by_date_desc. intros -> ->. simpl.
  intros H. apply Z.ltb_ge in H. lia.
Qed.

Lemma newer_or_same_trans (a b c : SocialPost.t * option bool) :
  newer_or_same getTime a b -> newer_or_same getTime b c -> newer_or_same getTime a c.
Proof.
  intros (ta & tb & Ha & Hb & Hab) (tb' & tc & Hb' & Hc & Hbc).
  exists ta, tc. repeat split; [done | done |]. rewrite Hb in Hb'. injection Hb' as <-. lia.
Qed.

(** With parseable dates, adjacent order is order throughout. *)
Lemma sorted_newest_first (l : list (SocialPost.t * option bool)) :
  Forall (fun p => is_Some (posted_at getTime p)) l ->
  Sorted (in_order getTime) l ->
  StronglySorted (newer_or_same getTime) l.
Proof.
  induction l as [|a l IH]; intros Hv Hs; [constructor|].
  inversion Hv as [|? ? [ta Ha] Hvl]; subst.
  inversion Hs as [|? ? Hsl Hhd]; subst.
  specialize (IH Hvl Hsl). constructor; [done|].
  destruct l as [|b l]; [constructor|].
  inversion Hhd as [|? ? Hab]; subst.
  inversion Hvl as [|? ? [tb Hb] _]; subst.
  assert (newer_or_same getTime a b) as Hnab.
  { exists ta, tb. repeat split; [done | done |]. by eapply in_order_newer. }
  constructor; [done|].
  inversion IH as [|? ? _ Hbl]; subst.
  eapply Forall_impl; [exact Hbl|]. intros c Hbc. simpl in Hbc.
  by eapply newer_or_same_trans.
Qed.

Lemma getPosts_order (allPosts : list (SocialPost.t * option bool)) :
  Permutation allPosts (js_sort (by_date_desc getTime) allPosts) /\
  (Forall (fun p => is_Some (posted_at getTime p)) allPosts ->
   StronglySorted (newer_or_same getTime) (js_sort (by_date_desc getTime) allPosts)).
Proof.
  split; [apply js_sort_perm|].
  intros Hv. apply sorted_newest_first.
  - eapply Permutation_Forall; [apply js_sort_perm | done].
  - apply js_sort_sorted, by_date_desc_asym.
Qed.

End ByDate.

(** ** Slicing into pages *)

Lemma slice_page {A : Type} (l : list A) (page limit : Z) :
  1 <= page -> 1 <= limit ->
  page_of l page limit
    = firstn (Z.to_nat limit) (skipn (Z.to_nat ((page - 1) * limit)) l).
Proof.
  intros Hp Hl. unfold page_of, slice, rel_index.
  set (start := (page - 1) * limit).
  assert (0 <= start) as Hs by (unfold start; nia).
  destruct (Z.ltb_spec start 0); [lia|].
  destruct (Z.ltb_spec (start + limit) 0); [lia|].
  set (len := Z.of_nat (length l)).
  destruct (Z.le_gt_cases len start) as [Hge|Hlt].
  - rewrite (Z.min_r start len) by lia.
    rewrite !skipn_all2 by lia. by rewrite !firstn_nil.
  - rewrite (Z.min_l start len) by lia.
    destruct (Z.le_gt_cases (start + limit) len) as [Hin|Hout].
    + rewrite Z.min_l by lia. f_equal. lia.
    + rewrite Z.min_r by lia.
      rewrite !firstn_all2; [done | |]; rewrite length_skipn; lia.
Qed.

Lemma page_length {A : Type} (l : list A) (page limit : Z) :
  1 <= page -> 1 <= limit -> Z.of_nat (length (page_of l page limit)) <= limit.
Proof.
  intros Hp Hl. rewrite slice_page by done. rewrite length_firstn. lia.
Qed.

Lemma firstn_plus {A : Type} (a b : nat) (l : list A) :
  firstn (a + b) l = firstn a l ++ firstn b (skipn a l).
Proof.
  revert l. induction a as [|a IH]; intros l; simpl; [done|].
  destruct l as [|x l]; simpl; [by rewrite firstn_nil|]. by rewrite IH.
Qed.

Lemma pages_prefix {A : Type} (l : list A) (limit : Z) (n : nat) :
  1 <= limit -> pages l limit n = firstn (n * Z.to_nat limit) l.
Proof.
  intros Hl. unfold pages. induction n as [|n IH]; [done|].
  rewrite seq_S, flat_map_app, IH. simpl. rewrite app_nil_r.
  rewrite slice_page by lia.
  replace (Z.to_nat ((Z.of_nat (S n) - 1) * limit)) with (n * Z.to_nat limit)%nat by nia.
  rewrite <- firstn_plus. f_equal. lia.
Qed.

Lemma pages_all {A : Type} (l : list A) (limit : Z) (n : nat) :
  1 <= limit -> Z.of_nat (length l) <= Z.of_nat n * limit -> pages l limit n = l.
Proof.
  intros Hl Hn. rewrite pages_prefix by done. apply firstn_all2. nia.
Qed.

(** ** The aggregate loops *)

Lemma after_reads_store (userId days : Z) (l : list string) (s : State) :
  store (foldl (fun s platform => logged (CallGetPlatformStats userId platform days) s) s l)
    = store s.
Proof. revert s. induction l as [|p l IH]; intros s; simpl; [done|]. by rewrite IH. Qed.

Lemma gather_loop_no_credentials fuel userId days apiKeys (l : list string) :
  forall acc s,
    (forall p, In p l -> no_credential (store s) userId p) ->
    for_each l acc (gather_step (S fuel) userId days apiKeys) s
      = Ret (acc ++ flat_map (fun p => tagged apiKeys p
                                  (socialStats (store s) !! stats_key userId p days)) l)
            (foldl (fun s p => logged (CallGetPlatformStats userId p days) s) s l).
Proof.
  induction l as [|p l IH]; intros acc s Hno.
  - simpl. by rewrite app_nil_r.
  - cbn [for_each]. unfold bind at 1. unfold gather_step at 1.
    unfold try_catch, bind at 1.
    rewrite getPlatformStats_no_credential by (apply Hno; by left).
    set (s1 := logged (CallGetPlatformStats userId p days) s).
    assert (forall q, In q l -> no_credential (store s1) userId q) as Hno'.
    { intros q Hq. apply Hno. by right. }
    destruct (socialStats (store s) !! stats_key userId p days) as [st|] eqn:E;
      unfold ret; cbv beta iota; rewrite (IH _ s1 Hno'); cbn [flat_map foldl];
      rewrite E; cbn [tagged app]; rewrite <- ?app_assoc; reflexivity.
Qed.

Lemma collect_loop_no_credentials fuel userId days apiKeys (l : list string) :
  forall acc s,
    (forall p, In p l -> no_credential (store s) userId p) ->
    for_each l acc (collect_step (S fuel) userId days apiKeys) s
      = Ret (acc ++ flat_map (fun p => connected_entry apiKeys p
                                  (socialStats (store s) !! stats_key userId p days)) l)
            (foldl (fun s p => logged (CallGetPlatformStats userId p days) s) s l).
Proof.
  induction l as [|p l IH]; intros acc s Hno.
  - simpl. by rewrite app_nil_r.
  - cbn [for_each]. unfold bind at 1. unfold collect_step at 1.
    unfold try_catch, bind at 1.
    rewrite getPlatformStats_no_credential by (apply Hno; by left).
    set (s1 := logged (CallGetPlatformStats userId p days) s).
    assert (forall q, In q l -> no_credential (store s1) userId q) as Hno'.
    { intros q Hq. apply Hno. by right. }
    destruct (socialStats (store s) !! stats_key userId p days) as [st|] eqn:E;
      unfold ret; cbv beta iota; rewrite (IH _ s1 Hno'); cbn [flat_map foldl];
      rewrite E; cbn [connected_entry app]; rewrite <- ?app_assoc; reflexivity.
Qed.

(** The loop of [getPosts] returns exactly when every read returns, and
    then it holds the posts of the reads, in order. *)
Lemma gather_loop_reads fuel userId days apiKeys (l : list string) :
  forall acc s allPosts s',
    for_each l acc (gather_step fuel userId days apiKeys) s = Ret allPosts s' <->
    exists rs, reads fuel userId days l s rs s' /\
               allPosts = acc ++ flatten_posts apiKeys l rs.
Proof.
  induction l as [|p l IH]; intros acc s allPosts s'.
  - simpl. unfold ret. split.
    + intros [= <- <-]. exists []. split; [constructor|]. by rewrite app_nil_r.
    + intros (rs & Hr & ->). inversion Hr; subst. unfold flatten_posts. simpl.
      by rewrite app_nil_r.
  - cbn [for_each]. unfold bind at 1. unfold gather_step at 1.
    unfold try_catch, bind at 1.
    destruct (MemStorage_getPlatformStats fuel userId p days s) as [r s1|e s1|] eqn:E.
    + assert (forall x, (match r with
                         | Some stats =>
                             ret (acc ++ map (fun post => (post, is_connected apiKeys (p +:+ "Key")))
                                    (SocialStats.posts stats))
                         | None => ret acc
                         end) x = Ret (acc ++ tagged apiKeys p r) x) as Hstep.
      { intros x. destruct r; simpl; [done|]. by rewrite app_nil_r. }
      rewrite Hstep. rewrite IH. split.
      * intros (rs & Hr & ->). exists (r :: rs). split; [by econstructor|].
        unfold flatten_posts. simpl. by rewrite <- app_assoc.
      * intros (rs & Hr & ->). inversion Hr as [|? ? ? ? ? r' rs' Hread Hrest]; subst.
        rewrite E in Hread. injection Hread as <- <-.
        exists rs'. split; [done|]. unfold flatten_posts. simpl. by rewrite <- app_assoc.
    + by apply getPlatformStats_never_throws in E.
    + split; [done|]. intros (rs & Hr & _). inversion Hr; subst. congruence.
Qed.

(** ** Paginated posts *)

Lemma getPosts_unfold getTime fuel userId platform days page limit s :
  MemStorage_getPosts getTime fuel userId platform days page limit s =
    match gather_posts fuel userId platform days
            (logged (CallGetPosts userId platform days page limit) s) with
    | Ret allPosts s' =>
        Ret (page_of (js_sort (by_date_desc getTime) allPosts) page limit,
             Z.of_nat (length (js_sort (by_date_desc getTime) allPosts))) s'
    | Throw e s' => Throw e s'
    | OutOfFuel => OutOfFuel
    end.
Proof. reflexivity. Qed.

Lemma gather_posts_all fuel userId days s allPosts s' :
  gather_posts fuel userId "all" days s = Ret allPosts s' <->
  exists rs, reads fuel userId days platforms s rs s' /\
             allPosts = flatten_posts (find_by_user userId (platformApiKeys (store s)))
                          platforms rs.
Proof.
  unfold gather_posts, getApiKeys. unfold bind at 1. simpl String.eqb. cbv iota.
  apply gather_loop_reads.
Qed.

Lemma page_length_any {A : Type} (l : list A) (page limit : Z) :
  0 <= limit -> Z.of_nat (length (page_of l page limit)) <= limit.
Proof.
  intros Hl. unfold page_of, slice, rel_index. rewrite length_firstn.
  set (start := (page - 1) * limit). set (len := Z.of_nat (length l)).
  destruct (Z.ltb_spec start 0), (Z.ltb_spec (start + limit) 0); lia.
Qed.

Lemma page_is_a_run {A : Type} (l : list A) (page limit : Z) :
  exists pre post, l = pre ++ page_of l page limit ++ post.
Proof.
  unfold page_of, slice.
  set (from := Z.to_nat (rel_index (Z.of_nat (length l)) ((page - 1) * limit))).
  set (n := Z.to_nat _).
  exists (firstn from l), (skipn n (skipn from l)).
  by rewrite firstn_skipn, firstn_skipn.
Qed.

(** C4 (amended): for every page and every limit >= 1, whenever a call of
    [getPosts] with platform 'all' returns, its four platform reads
    returned; [total] counts their posts, flattened in platform order; the
    page has at most [limit] posts, each of them one of the gathered posts
    and none taken twice.  When the date of every gathered post parses, the
    page is [slice((page-1)*limit, (page-1)*limit + limit)] of the gathered
    posts sorted newest first; for page >= 1 these are the posts at the
    indices from (page-1)*limit up to page*limit, and pages 1..n, one after
    the other, give the sorted sequence back as soon as n*limit covers it.  For a user without credentials the
    call does return, and the gathered posts are the cached posts of the
    four platforms. *)
Theorem getPosts_all_pages (getTime : string -> option Z) (fuel : nat)
    (userId days page limit : Z) (s : State) :
  1 <= limit ->
  (forall posts total s',
     MemStorage_getPosts getTime fuel userId "all" days page limit s = Ret (posts, total) s' ->
     exists rs,
       reads fuel userId days platforms
             (logged (CallGetPosts userId "all" days page limit) s) rs s' /\
       let allPosts :=
         flatten_posts (find_by_user userId (platformApiKeys (store s))) platforms rs in
       total = Z.of_nat (length allPosts) /\
       Z.of_nat (length posts) <= limit /\
       (exists pre post, Permutation allPosts (pre ++ posts ++ post)) /\
       (Forall (fun p => is_Some (posted_at getTime p)) allPosts ->
        let sorted := js_sort (by_date_desc getTime) allPosts in
        Permutation allPosts sorted /\
        StronglySorted (newer_or_same getTime) sorted /\
        posts = slice sorted ((page - 1) * limit) ((page - 1) * limit + limit) /\
        (1 <= page ->
         posts = firstn (Z.to_nat limit) (skipn (Z.to_nat ((page - 1) * limit)) sorted)) /\
        (forall n, Z.of_nat (length sorted) <= Z.of_nat n * limit ->
                   pages sorted limit n = sorted))) /\
  ((forall p, In p platforms -> no_credential (store s) userId p) ->
   exists posts,
     MemStorage_getPosts getTime (S fuel) userId "all" days page limit s =
       Ret (posts, Z.of_nat (length (cached_posts (store s) userId days)))
           (after_reads userId days (logged (CallGetPosts userId "all" days page limit) s)) /\
     (Forall (fun p => is_Some (posted_at getTime p)) (cached_posts (store s) userId days) ->
      posts = page_of (js_sort (by_date_desc getTime) (cached_posts (store s) userId days))
                page limit)).
Proof.
  intros Hlimit. split.
  - intros posts total s'. rewrite getPosts_unfold.
    destruct (gather_posts _ _ _ _ _) as [allPosts s1|e s1|] eqn:E; [|done|done].
    intros [= <- <- <-]. apply gather_posts_all in E as (rs & Hreads & ->).
    exists rs. split; [exact Hreads|]. cbn zeta.
    pose proof (getPosts_order getTime
      (flatten_posts (find_by_user userId (platformApiKeys (store s))) platforms rs))
      as (Hperm & Hstrong).
    split; [by rewrite js_sort_length|].
    split; [apply page_length_any; lia|]. split.
    + destruct (page_is_a_run
                  (js_sort (by_date_desc getTime)
                     (flatten_posts (find_by_user userId (platformApiKeys (store s)))
                        platforms rs)) page limit) as (pre & post & Hrun).
      exists pre, post. exact (eq_rect _ (Permutation _) Hperm _ Hrun).
    + intros Hparse. split; [done|]. split; [by apply Hstrong|]. split; [done|].
      split; [intros Hpage; by apply slice_page|].
      intros n Hn. by apply pages_all.
  - intros Hno. eexists. rewrite getPosts_unfold.
    unfold gather_posts, getApiKeys. unfold bind at 1. simpl String.eqb. cbv iota.
    rewrite gather_loop_no_credentials by done. rewrite js_sort_length.
    split; [reflexivity | done].
Qed.

Lemma getPosts_all_pages_witness :
  1 <= 3 /\
  exists posts,
    MemStorage_getPosts iso_getTime 1 1 "all" 7 2 3 s_alice =
      Ret (posts, Z.of_nat (length (cached_posts (store s_alice) 1 7)))
          (after_reads 1 7 (logged (CallGetPosts 1 "all" 7 2 3) s_alice)) /\
    (Forall (fun p => is_Some (posted_at iso_getTime p)) (cached_posts (store s_alice) 1 7) ->
     posts = page_of (js_sort (by_date_desc iso_getTime) (cached_posts (store s_alice) 1 7))
               2 3) /\
    Forall (fun p => is_Some (posted_at iso_getTime p)) (cached_posts (store s_alice) 1 7) /\
    map (fun p => SocialPost.id (fst p))
        (page_of (js_sort (by_date_desc iso_getTime) (cached_posts (store s_alice) 1 7)) 2 3)
      = ["ig2"; "tw1"; "tw2"].
Proof.
  split; [lia|].
  destruct (getPosts_all_pages iso_getTime 0 1 7 2 3 s_alice ltac:(lia)) as [_ H].
  destruct H as (posts & Hrun & Hpage); [intros p Hp; reflexivity|].
  exists posts. split; [exact Hrun|]. split; [exact Hpage|]. split; [|reflexivity].
  repeat constructor; by eexists.
Defined.

(** C4, as stated, fails for a limit that is not positive.  With [limit=-1]
    the first page of user 1 is [slice(0, -1)], seven of the eight posts,
    more than the limit; with [limit=0] every page is empty, so the pages
    never add up to the eight posts. *)
Lemma getPosts_negative_limit :
  (exists posts total s',
     MemStorage_getPosts iso_getTime 1 1 "all" 7 1 (-1) s_alice = Ret (posts, total) s' /\
     length posts = 7%nat /\ total = 8 /\ ~ (Z.of_nat (length posts) <= -1)) /\
  (forall page, exists s',
     MemStorage_getPosts iso_getTime 1 1 "all" 7 page 0 s_alice = Ret ([], 8) s').
Proof.
  split.
  - do 3 eexists. split; [vm_compute; reflexivity|]. split; [reflexivity|].
    split; [reflexivity|]. simpl. lia.
  - intros page. eexists. rewrite getPosts_unfold.
    unfold gather_posts, getApiKeys. unfold bind at 1. simpl String.eqb. cbv iota.
    rewrite gather_loop_no_credentials by (intros p Hp; reflexivity).
    unfold page_of. rewrite Z.mul_0_r. reflexivity.
Qed.

(** ** The seeded store *)

Lemma seeded_lookup (boot : nat -> string) (thirtyDayData : SocialStats.t -> SocialStats.t) :
  initializeSampleData boot thirtyDayData !! stats_key 1 "youtube" 7
    = Some (sample_youtube (boot 0%nat)) /\
  initializeSampleData boot thirtyDayData !! stats_key 1 "instagram" 7
    = Some (sample_instagram (boot 1%nat)) /\
  initializeSampleData boot thirtyDayData !! stats_key 1 "twitter" 7
    = Some (sample_twitter (boot 2%nat)) /\
  initializeSampleData boot thirtyDayData !! stats_key 1 "facebook" 7
    = Some (sample_facebook (boot 3%nat)).
Proof. repeat split; vm_compute; reflexivity. Qed.

Lemma getAllPlatformStats_no_credentials fuel userId days s :
  (forall p, In p platforms -> no_credential (store s) userId p) ->
  MemStorage_getAllPlatformStats (S fuel) userId days s =
    Ret (flat_map (fun p => connected_entry (find_by_user userId (platformApiKeys (store s))) p
                              (socialStats (store s) !! stats_key userId p days))
                  platforms)
        (after_reads userId days (logged (CallGetAllPlatformStats userId days) s)).
Proof.
  intros Hno. unfold MemStorage_getAllPlatformStats.
  unfold bind at 1, log. unfold bind at 1, getApiKeys.
  by rewrite collect_loop_no_credentials.
Qed.

(** The start-up entries are there when the process starts, and signing up,
    logging in and saving keys leave the whole cache as it is. *)
Lemma start_up_entries_boot fetch random clock thirtyDayData :
  start_up_entries clock (store (boot_state fetch random clock thirtyDayData)).
Proof. exact (seeded_lookup clock thirtyDayData). Qed.

Lemma account_handlers_keep_cache (cache : gmap string SocialStats.t) :
  (forall parsed, preserves (fun s => socialStats (store s) = cache) (post_user parsed)) /\
  (forall parsed, preserves (fun s => socialStats (store s) = cache) (post_apikeys parsed)).
Proof.
  set (P := fun s => socialStats (store s) = cache).
  assert (forall id data, preserves P (updateUser id data)) as HupdateUser.
  { intros id data s Hs. unfold updateUser. by destruct (JsMap.get id (users (store s))). }
  assert (preserves P now) as Hnow by (by intros s Hs).
  split; intros parsed.
  - unfold post_user. apply preserves_try_catch.
    + destruct parsed as [d|]; [|apply preserves_throw].
      apply preserves_bind; [by intros s Hs|]. intros [existingUser|].
      * apply preserves_bind; [exact Hnow|]. intros t.
        apply preserves_bind; [apply HupdateUser|]. intros [u|]; apply preserves_ret.
      * apply preserves_bind; [|intros u; apply preserves_ret].
        unfold createUser. apply preserves_bind; [exact Hnow|]. by intros t s Hs.
    + intros e. destruct (String.eqb e "ZodError"); apply preserves_ret.
  - unfold post_apikeys. apply preserves_try_catch.
    + destruct parsed as [d|]; [|apply preserves_throw].
      apply preserves_bind; [by intros s Hs|]. intros [existing|].
      * apply preserves_bind; [|intros [k|]; apply preserves_ret].
        intros s Hs. unfold updateApiKeys.
        by destruct (find_by_user (InsertApiKey.userId d) (platformApiKeys (store s))).
      * apply preserves_bind; [by intros s Hs|]. intros k.
        apply preserves_bind; [apply HupdateUser|]. intros _. apply preserves_ret.
    + intros e. destruct (String.eqb e "ZodError"); apply preserves_ret.
Qed.

(** C8 (amended): user 1 exists, is on the free tier and has no credential
    on file, and the four 7-day cache entries of user 1 are still the ones
    written at start-up; then [GET /api/stats?userId=1&days=7] answers 200
    with four entries, youtube, instagram, twitter, facebook in this order,
    each the start-up sample; the youtube entry has 78200 followers.  The
    request leaves the store as it was. *)
Theorem seeded_stats_for_user_one (fuel : nat) (s : State) (user : User.t)
    (boot : nat -> string) (q : Query) :
  JsMap.get 1 (users (store s)) = Some user ->
  User.isPro user = false ->
  (forall p, In p platforms -> no_credential (store s) 1 p) ->
  start_up_entries boot (store s) ->
  q_userId q = Num 1 -> q_days q = Num 7 -> q_platform q = None ->
  let apiKeys := find_by_user 1 (platformApiKeys (store s)) in
  let s' := after_reads 1 7 (logged (CallGetAllPlatformStats 1 7) s) in
  get_stats (S fuel) q s =
    Ret {| status := 200;
           body := AllStatsJson
             [ (sample_youtube (boot 0%nat), is_connected apiKeys "youtubeKey");
               (sample_instagram (boot 1%nat), is_connected apiKeys "instagramKey");
               (sample_twitter (boot 2%nat), is_connected apiKeys "twitterKey");
               (sample_facebook (boot 3%nat), is_connected apiKeys "facebookKey") ] |} s' /\
  store s' = store s /\
  map (fun entry => (SocialStats.platform entry, SocialStats.followers entry))
      [ sample_youtube (boot 0%nat); sample_instagram (boot 1%nat);
        sample_twitter (boot 2%nat); sample_facebook (boot 3%nat) ]
    = [ ("youtube", 78200); ("instagram", 45800); ("twitter", 22100); ("facebook", 15400) ].
Proof.
  intros Hu Hfree Hno (Hy & Hi & Ht & Hf) Hid Hdays Hplat apiKeys s'.
  split; [|done].
  unfold get_stats, query_userId, query_days. rewrite Hid, Hdays, Hplat.
  cbn [or_default Z.eqb]. unfold bind at 1, getUser. rewrite Hu, Hfree.
  cbn [negb andb Z.ltb Z.compare Pos.compare Pos.compare_cont].
  unfold bind at 1. rewrite getAllPlatformStats_no_credentials by done.
  unfold ret. f_equal. f_equal. f_equal.
  cbn [flat_map platforms]. rewrite Hy, Hi, Ht, Hf. reflexivity.
Qed.

Lemma seeded_stats_for_user_one_witness :
  start_up_entries demo_clock (store s_alice) /\
  get_stats 1 (query (Num 1) (Num 7) None NaN NaN) s_alice =
    Ret {| status := 200;
           body := AllStatsJson
             [ (sample_youtube (demo_clock 0), None);
               (sample_instagram (demo_clock 1), None);
               (sample_twitter (demo_clock 2), None);
               (sample_facebook (demo_clock 3), None) ] |}
        (after_reads 1 7 (logged (CallGetAllPlatformStats 1 7) s_alice)) /\
  store (after_reads 1 7 (logged (CallGetAllPlatformStats 1 7) s_alice)) = store s_alice /\
  map (fun entry => (SocialStats.platform entry, SocialStats.followers entry))
      [ sample_youtube (demo_clock 0); sample_instagram (demo_clock 1);
        sample_twitter (demo_clock 2); sample_facebook (demo_clock 3) ]
    = [ ("youtube", 78200); ("instagram", 45800); ("twitter", 22100); ("facebook", 15400) ].
Proof.
  split; [by repeat split|].
  apply (seeded_stats_for_user_one 0 s_alice alice_user demo_clock
           (query (Num 1) (Num 7) None NaN NaN)); try reflexivity.
  by repeat split.
Defined.

(** C8, as stated, fails.  User 1 saved a YouTube key, asked for the YouTube
    figures once while YouTube answered, and cleared the key again: user 1
    exists, is on the free tier and has no credential on file for any of the
    four platforms, and [GET /api/stats?userId=1&days=7] answers with four
    entries of which the youtube entry is the cached live result, with 1500
    followers, not the start-up sample. *)
Lemma seeded_stats_overwritten :
  exists user youtube rest s',
    JsMap.get 1 (users (store s_cleared)) = Some user /\
    User.isPro user = false /\
    (forall p, In p platforms -> no_credential (store s_cleared) 1 p) /\
    get_stats 1 (query (Num 1) (Num 7) None NaN NaN) s_cleared
      = Ret {| status := 200; body := AllStatsJson (youtube :: rest) |} s' /\
    length rest = 3%nat /\
    SocialStats.platform (fst youtube) = "youtube" /\
    SocialStats.followers (fst youtube) = 1500 /\
    SocialStats.errorMessage (fst youtube) = None /\
    SocialStats.followers (sample_youtube (demo_clock 0)) = 78200.
Proof.
  do 4 eexists. split; [reflexivity|]. split; [reflexivity|]. split.
  - intros p [<-|[<-|[<-|[<-|[]]]]]; reflexivity.
  - split; [vm_compute; reflexivity|]. by repeat split.
Qed.

(** ** Users *)

Lemma users_fresh_new boot thirtyDayData : users_fresh (MemStorage_new boot thirtyDayData).
Proof. by intros k []. Qed.

Lemma stable_users_fresh : stable (fun s => users_fresh (store s)).
Proof. by split. Qed.

Lemma updateUser_users_fresh id data : preserves (fun s => users_fresh (store s)) (updateUser id data).
Proof.
  intros s Hs. unfold updateUser.
  destruct (JsMap.get id (users (store s))) as [user|] eqn:E; [|done].
  intros k Hk. simpl in *. apply JsMap_keys_set in Hk as [->|Hk]; [|by apply Hs].
  apply Hs. by eapply JsMap_get_Some_keys.
Qed.

Lemma createUser_users_fresh insertUser :
  preserves (fun s => users_fresh (store s)) (createUser insertUser).
Proof.
  intros s Hs. unfold createUser, bind, now. cbn [store ticked with_world with_store].
  intros k Hk. simpl in *. apply JsMap_keys_set in Hk as [->|Hk]; [lia|].
  apply Hs in Hk. lia.
Qed.

(** C9: whatever the payload, [createUser] returns a record with
    [isPro = false], [isFirstLogin = true] and [lastLogin] the time of the
    call; its id is the key of no user in the store, so the new record is
    stored beside the others, which are all still there. *)
Theorem createUser_fresh_id (insertUser : InsertUser.t) (s : State) :
  users_fresh (store s) ->
  exists user s',
    createUser insertUser s = Ret user s' /\
    User.isPro user = false /\
    User.isFirstLogin user = true /\
    User.lastLogin user = Some (now_at (world s) (ticks (world s))) /\
    ~ In (User.id user) (JsMap.keys (users (store s))) /\
    JsMap.get (User.id user) (users (store s')) = Some user /\
    (forall k u, JsMap.get k (users (store s)) = Some u ->
                 JsMap.get k (users (store s')) = Some u) /\
    users_fresh (store s').
Proof.
  intros Hfresh. unfold createUser, bind, now. cbn [store ticked with_world].
  do 2 eexists. split; [reflexivity|]. cbn.
  split; [done|]. split; [done|]. split; [done|].
  assert (~ In (currentUserId (store s)) (JsMap.keys (users (store s)))) as Hnew.
  { intros Hin. apply Hfresh in Hin. lia. }
  split; [done|]. split; [apply JsMap_get_set_eq|]. split.
  - intros k u Hk. rewrite JsMap_get_set_ne; [done|].
    intros <-. apply Hnew. by eapply JsMap_get_Some_keys.
  - exact (createUser_users_fresh insertUser s Hfresh).
Qed.

Lemma createUser_fresh_id_witness :
  exists user s',
    createUser alice s_boot = Ret user s' /\
    User.isPro user = false /\
    User.isFirstLogin user = true /\
    User.lastLogin user = Some (now_at (world s_boot) (ticks (world s_boot))) /\
    ~ In (User.id user) (JsMap.keys (users (store s_boot))) /\
    JsMap.get (User.id user) (users (store s')) = Some user /\
    (forall k u, JsMap.get k (users (store s_boot)) = Some u ->
                 JsMap.get k (users (store s')) = Some u) /\
    users_fresh (store s').
Proof.
  apply (createUser_fresh_id alice s_boot). intros k Hk. destruct Hk.
Defined.

(** ** Credentials *)

Lemma find_after_save (userId id : Z) (k : ApiKey.t) (m : JsMap.t ApiKey.t) :
  find_by_user userId m = None -> ApiKey.userId k = userId ->
  find_by_user userId (JsMap.set id k m) = Some k.
Proof.
  intros Hnone Hk. unfold find_by_user in *.
  induction m as [|[k' v'] m IH]; simpl in *.
  - by rewrite Hk, Z.eqb_refl.
  - destruct (Z.eqb (ApiKey.userId v') userId) eqn:E; [done|].
    destruct (Z.eqb id k'); simpl.
    + by rewrite Hk, Z.eqb_refl.
    + rewrite E. by apply IH.
Qed.

Lemma find_by_user_In (userId : Z) (m : JsMap.t ApiKey.t) (k : ApiKey.t) :
  find_by_user userId m = Some k ->
  ApiKey.userId k = userId /\ exists key, In (key, k) m.
Proof.
  unfold find_by_user. induction m as [|[k' v'] m IH]; simpl; [done|].
  destruct (Z.eqb_spec (ApiKey.userId v') userId) as [Heq|Hne].
  - intros [= <-]. split; [done|]. exists k'. by left.
  - intros H. destruct (IH H) as (Hu & key & Hin). split; [done|]. exists key. by right.
Qed.

Lemma find_after_update (userId : Z) (old new : ApiKey.t) (m : JsMap.t ApiKey.t) :
  NoDup (JsMap.keys m) ->
  Forall (fun kv => fst kv = ApiKey.id (snd kv)) m ->
  find_by_user userId m = Some old -> ApiKey.userId new = userId ->
  find_by_user userId (JsMap.set (ApiKey.id old) new m) = Some new.
Proof.
  intros Hnd Hid Hfind Hnew. unfold find_by_user in *.
  induction m as [|[k' v'] m IH]; simpl in *; [done|].
  apply NoDup_cons in Hnd as [Hnotin Hnd']. rewrite list_elem_of_In in Hnotin.
  apply List.Forall_cons_iff in Hid as [Hhead Hid']. simpl in Hhead.
  destruct (Z.eqb_spec (ApiKey.userId v') userId) as [Heq|Hne].
  - injection Hfind as <-. rewrite <- Hhead, Z.eqb_refl. simpl.
    by rewrite Hnew, Z.eqb_refl.
  - destruct (Z.eqb_spec (ApiKey.id old) k') as [Hk|Hk].
    + exfalso. apply Hnotin.
      destruct (find_by_user_In _ _ _ Hfind) as (_ & key & Hin).
      rewrite List.Forall_forall in Hid'. pose proof (Hid' _ Hin) as Hkey. simpl in Hkey.
      apply in_map_iff. exists (key, old). split; [|done]. simpl. congruence.
    + simpl. destruct (Z.eqb_spec (ApiKey.userId v') userId); [done|]. by apply IH.
Qed.

Lemma JsMap_keys_set_existing {V : Type} k (v : V) (m : JsMap.t V) :
  In k (JsMap.keys m) -> JsMap.keys (JsMap.set k v m) = JsMap.keys m.
Proof.
  induction m as [|[k' v'] m IH]; simpl; [done|].
  destruct (Z.eqb_spec k k') as [->|Hne]; [done|].
  intros [?|Hin]; [congruence|]. simpl. by rewrite IH.
Qed.

Lemma JsMap_keys_set_new {V : Type} k (v : V) (m : JsMap.t V) :
  ~ In k (JsMap.keys m) -> JsMap.keys (JsMap.set k v m) = JsMap.keys m ++ [k].
Proof.
  induction m as [|[k' v'] m IH]; simpl; [done|].
  destruct (Z.eqb_spec k k') as [->|Hne]; [tauto|].
  intros Hnot. simpl. rewrite IH; tauto.
Qed.

Lemma JsMap_set_Forall {V : Type} (Q : Z * V -> Prop) k (v : V) (m : JsMap.t V) :
  Q (k, v) -> Forall Q m -> Forall Q (JsMap.set k v m).
Proof.
  intros Hkv. induction m as [|[k' v'] m IH]; simpl; intros Hm.
  - by repeat constructor.
  - inversion Hm; subst. destruct (Z.eqb k k'); constructor; auto.
Qed.

Lemma apikeys_wf_new boot thirtyDayData : apikeys_wf (MemStorage_new boot thirtyDayData).
Proof. split; [apply NoDup_nil_2 | constructor]. Qed.

Lemma find_by_user_key_In (userId : Z) (st : MemStorage) (k : ApiKey.t) :
  apikeys_wf st -> find_by_user userId (platformApiKeys st) = Some k ->
  In (ApiKey.id k) (JsMap.keys (platformApiKeys st)).
Proof.
  intros [_ Hall] Hfind. destruct (find_by_user_In _ _ _ Hfind) as (_ & key & Hin).
  rewrite List.Forall_forall in Hall. destruct (Hall _ Hin) as [Hkey _]. simpl in Hkey.
  apply in_map_iff. exists (key, k). split; [|done]. simpl. congruence.
Qed.

(** [POST /api/apikeys] keeps the credential map well formed. *)
Lemma post_apikeys_wf (parsed : option InsertApiKey.t) :
  preserves (fun s => apikeys_wf (store s)) (post_apikeys parsed).
Proof.
  intros s Hwf. unfold post_apikeys, try_catch.
  destruct parsed as [d|]; [|done].
  unfold bind at 1, getApiKeys.
  destruct (find_by_user (InsertApiKey.userId d) (platformApiKeys (store s)))
    as [old|] eqn:Hfind.
  - unfold bind at 1, updateApiKeys. rewrite Hfind. unfold ret.
    pose proof (find_by_user_key_In _ _ _ Hwf Hfind) as Hin.
    destruct Hwf as [Hnd Hall].
    unfold apikeys_wf. cbn [store with_store platformApiKeys currentApiKeyId]. split.
    + by rewrite JsMap_keys_set_existing.
    + apply JsMap_set_Forall; [|done]. simpl. split; [done|].
      apply in_map_iff in Hin as ([key k] & Hkey & Hin). simpl in Hkey. subst key.
      rewrite List.Forall_forall in Hall. by destruct (Hall _ Hin).
  - unfold bind at 1, saveApiKeys.
    assert (~ In (currentApiKeyId (store s)) (JsMap.keys (platformApiKeys (store s)))) as Hnew.
    { intros Hin. destruct Hwf as [_ Hall]. apply in_map_iff in Hin as ([key k] & Hkey & Hin).
      rewrite List.Forall_forall in Hall. destruct (Hall _ Hin) as [_ Hlt].
      simpl in *. lia. }
    assert (apikeys_wf
              {| users := users (store s);
                 platformApiKeys :=
                   JsMap.set (currentApiKeyId (store s))
                     {| ApiKey.id := currentApiKeyId (store s);
                        ApiKey.userId := InsertApiKey.userId d;
                        ApiKey.youtubeKey := or_null (mjoin (InsertApiKey.youtubeKey d));
                        ApiKey.instagramKey := or_null (mjoin (InsertApiKey.instagramKey d));
                        ApiKey.twitterKey := or_null (mjoin (InsertApiKey.twitterKey d));
                        ApiKey.facebookKey := or_null (mjoin (InsertApiKey.facebookKey d)) |}
                     (platformApiKeys (store s));
                 socialStats := socialStats (store s);
                 currentUserId := currentUserId (store s);
                 currentApiKeyId := currentApiKeyId (store s) + 1 |}) as Hwf'.
    { destruct Hwf as [Hnd Hall].
      unfold apikeys_wf. cbn [store with_store platformApiKeys currentApiKeyId]. split.
      - rewrite JsMap_keys_set_new by done. apply NoDup_app. split; [done|].
        split; [|apply NoDup_singleton].
        intros x Hx Hx'. apply list_elem_of_In in Hx. apply list_elem_of_singleton in Hx'.
        by subst.
      - apply JsMap_set_Forall; [simpl; split; [done | lia]|].
        eapply Forall_impl; [exact Hall|]. simpl. intros kv [? ?]. split; [done | lia]. }
    unfold bind at 1, updateUser. cbn [store with_store users].
    destruct (JsMap.get _ _); exact Hwf'.
Qed.

Lemma get_apikeys_found (userId : Z) (k : ApiKey.t) (s : State) :
  userId <> 0 -> find_by_user userId (platformApiKeys (store s)) = Some k ->
  get_apikeys (Num userId) s = Ret {| status := 200; body := ApiKeyJson k |} s.
Proof.
  intros Hne Hfind. unfold get_apikeys. destruct userId; [done| |];
    unfold bind, getApiKeys; by rewrite Hfind.
Qed.

(** C6 (amended): a valid [POST /api/apikeys] creates the credential set
    when the user had none and updates it in place otherwise, and a later
    lookup returns the new or merged record.  On the create path (201) the
    user's record, if there is one, has [isFirstLogin = false] afterwards; on
    the update path (200) the user map is left as it was. *)
Theorem post_apikeys_effects (validatedData : InsertApiKey.t) (s : State) :
  apikeys_wf (store s) ->
  let userId := InsertApiKey.userId validatedData in
  match find_by_user userId (platformApiKeys (store s)) with
  | None =>
      exists newApiKeys s',
        post_apikeys (Some validatedData) s
          = Ret {| status := 201; body := ApiKeyJson newApiKeys |} s' /\
        find_by_user userId (platformApiKeys (store s')) = Some newApiKeys /\
        ApiKey.youtubeKey newApiKeys = or_null (mjoin (InsertApiKey.youtubeKey validatedData)) /\
        ApiKey.instagramKey newApiKeys
          = or_null (mjoin (InsertApiKey.instagramKey validatedData)) /\
        ApiKey.twitterKey newApiKeys = or_null (mjoin (InsertApiKey.twitterKey validatedData)) /\
        ApiKey.facebookKey newApiKeys
          = or_null (mjoin (InsertApiKey.facebookKey validatedData)) /\
        (forall user, JsMap.get userId (users (store s)) = Some user ->
           JsMap.get userId (users (store s')) = Some (merge_user user clear_first_login) /\
           User.isFirstLogin (merge_user user clear_first_login) = false)
  | Some existing =>
      exists s',
        post_apikeys (Some validatedData) s
          = Ret {| status := 200;
                   body := ApiKeyJson (merge_api_key existing (as_partial validatedData)) |} s' /\
        find_by_user userId (platformApiKeys (store s'))
          = Some (merge_api_key existing (as_partial validatedData)) /\
        users (store s') = users (store s)
  end.
Proof.
  intros Hwf userId.
  destruct (find_by_user userId (platformApiKeys (store s))) as [existing|] eqn:Hfind.
  - eexists. unfold post_apikeys, try_catch. unfold bind at 1, getApiKeys.
    fold userId. rewrite Hfind. unfold bind at 1, updateApiKeys. rewrite Hfind.
    split; [reflexivity|]. cbn [store with_store platformApiKeys users]. split; [|done].
    destruct Hwf as [Hnd Hall]. apply find_after_update; [done | | done | done].
    eapply Forall_impl; [exact Hall|]. by intros kv [? _].
  - destruct (JsMap.get userId (users (store s))) as [user|] eqn:Hu;
      do 2 eexists; unfold post_apikeys, try_catch; unfold bind at 1, getApiKeys;
      fold userId; rewrite Hfind; unfold bind at 1, saveApiKeys;
      unfold bind at 1, updateUser; cbn [store with_store users];
      fold userId; rewrite Hu;
      (split; [reflexivity|]); cbn [store with_store platformApiKeys users];
      (split; [by apply find_after_save|]); do 4 (split; [done|]).
    + intros user0 [= <-]. split; [apply JsMap_get_set_eq | done].
    + done.
Qed.

Lemma post_apikeys_effects_witness :
  exists newApiKeys s',
    post_apikeys (Some (keys_for 1 (Some (Some "AIza")) None)) s_alice
      = Ret {| status := 201; body := ApiKeyJson newApiKeys |} s' /\
    find_by_user 1 (platformApiKeys (store s')) = Some newApiKeys /\
    ApiKey.youtubeKey newApiKeys = Some "AIza" /\
    ApiKey.instagramKey newApiKeys = None /\
    ApiKey.twitterKey newApiKeys = None /\
    ApiKey.facebookKey newApiKeys = None /\
    (forall user, JsMap.get 1 (users (store s_alice)) = Some user ->
       JsMap.get 1 (users (store s')) = Some (merge_user user clear_first_login) /\
       User.isFirstLogin (merge_user user clear_first_login) = false).
Proof.
  apply (post_apikeys_effects (keys_for 1 (Some (Some "AIza")) None) s_alice).
  split; [apply NoDup_nil_2 | constructor].
Defined.

(** C6, as stated, fails on the update path: keys are posted for user 1
    before user 1 exists, user 1 signs up, and a second post, answered 200,
    leaves [isFirstLogin] true. *)
Lemma update_path_keeps_first_login :
  exists updated s',
    post_apikeys (Some (keys_for 1 (Some (Some "k2")) None)) s_keys_first
      = Ret {| status := 200; body := ApiKeyJson updated |} s' /\
    ApiKey.youtubeKey updated = Some "k2" /\
    User.isFirstLogin <$> JsMap.get 1 (users (store s')) = Some true.
Proof.
  do 2 eexists. split; [vm_compute; reflexivity|]. split; reflexivity.
Qed.

(** ** Cache keys *)

Lemma uint_no_colon (d : Decimal.uint) : has_colon (NilEmpty.string_of_uint d) = false.
Proof. induction d; simpl; done. Qed.

Lemma string_of_Z_no_colon (z : Z) : has_colon (string_of_Z z) = false.
Proof.
  unfold string_of_Z, NilZero.string_of_int, NilZero.string_of_uint.
  destruct (Z.to_int z) as [d|d]; destruct d; simpl; try done; apply uint_no_colon.
Qed.

Lemma has_colon_middle (a b : string) : has_colon (a +:+ String ":" b) = true.
Proof. induction a as [|c a IH]; simpl; [done|]. rewrite IH. apply orb_true_r. Qed.

Lemma key_split_first (a a' r r' : string) :
  has_colon a = false -> has_colon a' = false ->
  a +:+ String ":" r = a' +:+ String ":" r' -> r = r'.
Proof.
  revert a'. induction a as [|c a IH]; intros [|c' a'] Ha Ha' H; simpl in *.
  - by injection H.
  - injection H as <- _. done.
  - injection H as -> _. done.
  - injection H as _ H. apply orb_false_iff in Ha as [_ Ha], Ha' as [_ Ha']. by eapply IH.
Qed.

Lemma key_split_last (p p' b b' : string) :
  has_colon b = false -> has_colon b' = false ->
  p +:+ String ":" b = p' +:+ String ":" b' -> p = p'.
Proof.
  intros Hb Hb'. revert p'. induction p as [|c p IH]; intros [|c' p'] H; simpl in *.
  - done.
  - injection H as _ H. rewrite H, has_colon_middle in Hb. done.
  - injection H as _ H. rewrite <- H, has_colon_middle in Hb'. done.
  - injection H as -> H. f_equal. by apply IH.
Qed.

(** The platform can be read back from a cache key. *)
Lemma stats_key_platform (userId userId' : Z) (platform platform' : string) (days days' : Z) :
  stats_key userId platform days = stats_key userId' platform' days' -> platform = platform'.
Proof.
  unfold stats_key. intros H.
  apply key_split_first in H; [|apply string_of_Z_no_colon ..].
  eapply key_split_last in H; [done | apply string_of_Z_no_colon ..].
Qed.

Lemma cache_ok_miss (st : MemStorage) (userId : Z) (platform : string) (days : Z) :
  cache_ok st -> ~ In platform platforms ->
  socialStats st !! stats_key userId platform days = None.
Proof.
  intros Hok Hp. destruct (socialStats st !! _) as [e|] eqn:E; [|done].
  destruct (Hok _ _ E) as (u & p & d & Hkey & Hin).
  apply stats_key_platform in Hkey. by subst.
Qed.

Ltac seeded_key H p d :=
  apply lookup_insert_Some in H as [[<- _]|[_ H]];
  [exists 1, p, d; split; [reflexivity | simpl; auto 6] |].

Lemma cache_ok_new boot thirtyDayData : cache_ok (MemStorage_new boot thirtyDayData).
Proof.
  intros key e. unfold MemStorage_new, initializeSampleData. cbn [socialStats sampleData foldl fst snd].
  intros H.
  seeded_key H "facebook" 7. seeded_key H "twitter" 7.
  seeded_key H "instagram" 7. seeded_key H "youtube" 7.
  seeded_key H "facebook" 30. seeded_key H "twitter" 30.
  seeded_key H "instagram" 30. seeded_key H "youtube" 30.
  done.
Qed.

Lemma stable_cache_ok : stable (fun s => cache_ok (store s)).
Proof.
  split; try done.
  intros userId platform days v s Hp Hok key e. simpl.
  intros [[<- _]|[_ H]]%lookup_insert_Some;
    [by exists userId, platform, days | exact (Hok _ _ H)].
Qed.

Lemma unsupported_field_undefined (k : option ApiKey.t) (p : string) :
  ~ In p platforms -> opt_field k (p +:+ "Key") = VUndefined.
Proof.
  intros Hp. destruct k as [k|]; [|done]. simpl. rewrite ApiKey_field_platform.
  rewrite supported_platform_dec in Hp.
  destruct (String.eqb p "youtube"); [by destruct Hp|].
  destruct (String.eqb p "instagram"); [by destruct Hp|].
  destruct (String.eqb p "twitter"); [by destruct Hp|].
  destruct (String.eqb p "facebook"); [by destruct Hp|]. done.
Qed.

(** C10 (amended): for a non-empty platform string that is neither 'all'
    nor one of the four platforms, [GET /api/stats] by an existing user who
    passes the free-tier gate answers 404 "No stats found": the credential
    record has no field of that name, the read takes no live branch (no
    factory call, no outbound call: the trace gains the store call only), and
    no cache entry is keyed by such a platform. *)
Theorem unsupported_platform_not_found (fuel : nat) (q : Query) (s : State)
    (user : User.t) (platform : string) :
  q_platform q = Some platform ->
  platform <> "" -> platform <> "all" -> ~ In platform platforms ->
  JsMap.get (query_userId q) (users (store s)) = Some user ->
  User.isPro user = true \/ query_days q <= 7 ->
  cache_ok (store s) ->
  opt_field (find_by_user (query_userId q) (platformApiKeys (store s))) (platform +:+ "Key")
    = VUndefined /\
  get_stats (S fuel) q s =
    Ret {| status := 404; body := Message ("No stats found for " +:+ platform) |}
        (logged (CallGetPlatformStats (query_userId q) platform (query_days q)) s).
Proof.
  intros Hplat Hne Hall Hp Hu Hgate Hok. split; [by apply unsupported_field_undefined|].
  unfold get_stats. unfold bind at 1, getUser. rewrite Hu.
  assert (negb (User.isPro user) && (7 <? query_days q) = false) as ->.
  { destruct Hgate as [-> | Hd]; [done|]. apply andb_false_iff. right. by apply Z.ltb_ge. }
  rewrite Hplat.
  apply String.eqb_neq in Hne, Hall. rewrite Hne, Hall. cbn [negb andb].
  unfold bind at 1.
  rewrite getPlatformStats_no_credential by (by apply unsupported_no_credential).
  by rewrite cache_ok_miss.
Qed.

Lemma unsupported_platform_not_found_witness :
  opt_field (find_by_user 1 (platformApiKeys (store s_twitter))) ("tiktok" +:+ "Key")
    = VUndefined /\
  get_stats 1 (query (Num 1) (Num 7) (Some "tiktok") NaN NaN) s_twitter =
    Ret {| status := 404; body := Message "No stats found for tiktok" |}
        (logged (CallGetPlatformStats 1 "tiktok" 7) s_twitter).
Proof.
  apply (unsupported_platform_not_found 0 (query (Num 1) (Num 7) (Some "tiktok") NaN NaN)
           s_twitter (merge_user alice_user clear_first_login) "tiktok").
  - reflexivity.
  - discriminate.
  - discriminate.
  - simpl. intros [H|[H|[H|[H|[]]]]]; discriminate H.
  - reflexivity.
  - right. vm_compute. discriminate.
  - intros key e.
    change (store s_twitter) with
      {| users := users (store s_twitter);
         platformApiKeys := platformApiKeys (store s_twitter);
         socialStats := initializeSampleData demo_clock demo_thirty;
         currentUserId := 2; currentApiKeyId := 2 |}.
    unfold initializeSampleData. cbn [socialStats sampleData foldl fst snd].
    intros H.
    seeded_key H "facebook" 7. seeded_key H "twitter" 7.
    seeded_key H "instagram" 7. seeded_key H "youtube" 7.
    seeded_key H "facebook" 30. seeded_key H "twitter" 30.
    seeded_key H "instagram" 30. seeded_key H "youtube" 30.
    done.
Defined.

(** C10, as stated, fails twice: for the unsupported tag "tiktok" a free
    user asking for 30 days is answered 403, not 404; and the empty platform
    string, which is neither 'all' nor supported, takes the aggregate branch
    and is answered 200. *)
Lemma unsupported_platform_other_answers :
  get_stats 1 (query (Num 1) (Num 30) (Some "tiktok") NaN NaN) s_alice
    = Ret free_tier_denied s_alice /\
  exists allStats s',
    get_stats 1 (query (Num 1) (Num 7) (Some "") NaN NaN) s_alice
      = Ret {| status := 200; body := AllStatsJson allStats |} s' /\
    length allStats = 4%nat.
Proof.
  split; [reflexivity|]. do 2 eexists. split; [vm_compute; reflexivity | reflexivity].
Qed.

(** ** The invariants hold in every reachable store *)

Lemma store_ok_boot fetch random clock thirtyDayData :
  store_ok (store (boot_state fetch random clock thirtyDayData)).
Proof.
  split; [apply users_fresh_new|]. split; [apply apikeys_wf_new | apply cache_ok_new].
Qed.

Lemma stable_store_ok : stable (fun s => store_ok (store s)).
Proof.
  split; try done.
  intros userId platform days v s Hp (Hu & Hk & Hc). split; [done|]. split; [done|].
  by apply (stable_cached _ stable_cache_ok).
Qed.

Lemma createUser_store_ok insertUser :
  preserves (fun s => store_ok (store s)) (createUser insertUser).
Proof.
  intros s (Hu & Hk & Hc). pose proof (createUser_users_fresh insertUser s Hu) as Hu'.
  unfold createUser, bind, now in *. split; [exact Hu'|]. split; [exact Hk | exact Hc].
Qed.

Lemma updateUser_store_ok id data :
  preserves (fun s => store_ok (store s)) (updateUser id data).
Proof.
  intros s (Hu & Hk & Hc). pose proof (updateUser_users_fresh id data s Hu) as Hu'.
  unfold updateUser in *.
  destruct (JsMap.get id (users (store s))); (split; [exact Hu'|]);
    (split; [exact Hk | exact Hc]).
Qed.

Lemma post_apikeys_store_ok parsed :
  preserves (fun s => store_ok (store s)) (post_apikeys parsed).
Proof.
  intros s (Hu & Hk & Hc). pose proof (post_apikeys_wf parsed s Hk) as Hk'.
  unfold post_apikeys, try_catch in *.
  destruct parsed as [d|]; [|split; [exact Hu|]; split; [exact Hk | exact Hc]].
  unfold bind at 1, getApiKeys in Hk'. unfold bind at 1, getApiKeys.
  destruct (find_by_user _ _) as [old|] eqn:Hfind.
  - unfold bind at 1, updateApiKeys in Hk'. unfold bind at 1, updateApiKeys.
    rewrite Hfind in *. split; [exact Hu|]. split; [exact Hk' | exact Hc].
  - unfold bind at 1, saveApiKeys in Hk'. unfold bind at 1, saveApiKeys.
    unfold bind at 1 in Hk'. unfold bind at 1.
    match goal with
    | |- context [updateUser ?i ?d ?st] =>
        pose proof (updateUser_users_fresh i d st Hu) as Hupd;
        unfold updateUser in Hupd, Hk' |- *;
        cbn [store with_store users] in Hupd, Hk' |- *
    end.
    destruct (JsMap.get _ _); (split; [exact Hupd|]); (split; [exact Hk' | exact Hc]).
Qed.

Lemma get_stats_store_ok fuel q : preserves (fun s => store_ok (store s)) (get_stats fuel q).
Proof.
  unfold get_stats. apply preserves_bind; [apply preserves_read|]. intros [user|];
    [|apply preserves_ret].
  case_match; [apply preserves_ret|].
  destruct (q_platform q) as [p|]; [case_match|].
  - apply preserves_bind; [apply preserves_getPlatformStats, stable_store_ok|].
    intros [st|]; apply preserves_ret.
  - apply preserves_bind; [apply preserves_getAllPlatformStats, stable_store_ok|].
    intros all. apply preserves_ret.
  - apply preserves_bind; [apply preserves_getAllPlatformStats, stable_store_ok|].
    intros all. apply preserves_ret.
Qed.

Lemma get_posts_store_ok getTime fuel q :
  preserves (fun s => store_ok (store s)) (get_posts getTime fuel q).
Proof.
  unfold get_posts. apply preserves_bind; [apply preserves_read|]. intros [user|];
    [|apply preserves_ret].
  case_match; [apply preserves_ret|].
  apply preserves_bind; [apply preserves_getPosts, stable_store_ok|].
  intros r. apply preserves_ret.
Qed.

(** * Further properties of the code *)

(** ** Cache keys identify the triple *)

Lemma string_of_Z_inj (z z' : Z) : string_of_Z z = string_of_Z z' -> z = z'.
Proof.
  unfold string_of_Z. intros H. apply DecimalZ.to_int_inj.
  assert (forall x, NilZero.int_of_string (NilZero.string_of_int (Z.to_int x))
                    = Some (Z.to_int x)) as Hisi.
  { intros x. apply NilZero.isi; destruct x; simpl; try discriminate;
      intros [= Hn]; by apply DecimalPos.Unsigned.to_uint_nonnil in Hn. }
  pose proof (Hisi z) as Hz. rewrite H, Hisi in Hz. by injection Hz.
Qed.

Lemma key_split_head (a a' r r' : string) :
  has_colon a = false -> has_colon a' = false ->
  a +:+ String ":" r = a' +:+ String ":" r' -> a = a'.
Proof.
  revert a'. induction a as [|c a IH]; intros [|c' a'] Ha Ha' H; simpl in *.
  - done.
  - injection H as <- _. done.
  - injection H as -> _. done.
  - injection H as -> H. apply orb_false_iff in Ha as [_ Ha], Ha' as [_ Ha'].
    f_equal. by eapply IH.
Qed.

Lemma append_cancel_l (a x y : string) : a +:+ x = a +:+ y -> x = y.
Proof. induction a as [|c a IH]; simpl; [done|]. intros [= H]. by apply IH. Qed.

Lemma stats_key_eq (userId userId' : Z) (platform platform' : string) (days days' : Z) :
  stats_key userId platform days = stats_key userId' platform' days' ->
  userId = userId' /\ platform = platform' /\ days = days'.
Proof.
  intros H. pose proof (stats_key_platform _ _ _ _ _ _ H) as <-.
  unfold stats_key in H.
  pose proof (key_split_head _ _ _ _ (string_of_Z_no_colon _) (string_of_Z_no_colon _) H) as Hu.
  apply string_of_Z_inj in Hu as <-. split; [done|]. split; [done|].
  apply append_cancel_l in H. apply (append_cancel_l ":") in H.
  apply append_cancel_l in H. apply (append_cancel_l ":") in H.
  by apply string_of_Z_inj.
Qed.

(** X1: Two reads share a cache entry only when they are for the same user,
    platform and window. *)
Theorem stats_key_inj (userId userId' : Z) (platform platform' : string) (days days' : Z) :
  stats_key userId platform days = stats_key userId' platform' days' <->
  userId = userId' /\ platform = platform' /\ days = days'.
Proof. split; [apply stats_key_eq | by intros (-> & -> & ->)]. Qed.

(** ** The factory *)

(** X2: [getService] returns an adapter exactly for the four platform tags,
    each tag getting its own adapter, and throws "Unsupported platform" with
    the tag for every other string. *)
Theorem getService_total (platform : string) (s : State) :
  (forall svc, getService platform s = Ret svc (logged (CallFactory platform) s) <->
               platform = service_platform svc) /\
  (In platform platforms \/
   getService platform s
     = Throw ("Unsupported platform: " +:+ platform) (logged (CallFactory platform) s)).
Proof.
  unfold getService, bind, log, ret, throw. split.
  - intros svc. split.
    + destruct (String.eqb_spec platform "youtube") as [->|?];
        [by intros [= <-]|].
      destruct (String.eqb_spec platform "twitter") as [->|?]; [by intros [= <-]|].
      destruct (String.eqb_spec platform "instagram") as [->|?]; [by intros [= <-]|].
      destruct (String.eqb_spec platform "facebook") as [->|?]; [by intros [= <-]|].
      done.
    + intros ->. by destruct svc.
  - destruct (String.eqb_spec platform "youtube") as [->|?]; [left; simpl; auto|].
    destruct (String.eqb_spec platform "twitter") as [->|?]; [left; simpl; auto|].
    destruct (String.eqb_spec platform "instagram") as [->|?]; [left; simpl; auto|].
    destruct (String.eqb_spec platform "facebook") as [->|?]; [left; simpl; auto 6|].
    by right.
Qed.

(** ** A successful live fetch *)

Lemma YouTube_fetch_ok (s : State) (channel : Channel) (items : list SearchItem)
    (videoStatsItems : list (option VideoStatistics)) :
  answers (world s) channel items videoStatsItems ->
  YouTube_fetch s =
    Ret (live_stats {| live_channel := channel;
                       live_items := items;
                       live_videoStats := videoStatsItems;
                       growth1 := random_at (world s) (drawn (world s)) - 2;
                       growth2 := random_at (world s) (S (drawn (world s))) - 2;
                       growth3 := random_at (world s) (S (S (drawn (world s)))) - 2 |}
                    (now_at (world s) (S (S (ticks (world s))))))
        (after_live_fetch s).
Proof.
  intros (channelData & rest & videosData & videoStatsData & H1 & Hc & H2 & Hv & H3 & Hs).
  unfold YouTube_fetch. unfold bind at 1, now at 1. unfold bind at 1, now at 1.
  unfold bind at 1, request at 1. unfold bind at 1, log at 1. unfold bind at 1, outbound at 1.
  cbn [world logged ticked with_world fetched fetch_at]. rewrite H1. unfold ret at 1.
  rewrite Hc.
  unfold bind at 1, request at 1. unfold bind at 1, log at 1. unfold bind at 1, outbound at 1.
  cbn [world logged ticked sent with_world fetched fetch_at]. rewrite H2. unfold ret at 1.
  rewrite Hv.
  unfold bind at 1, request at 1. unfold bind at 1, log at 1. unfold bind at 1, outbound at 1.
  cbn [world logged ticked sent with_world fetched fetch_at]. rewrite H3. unfold ret at 1.
  rewrite Hs. by destruct items.
Qed.

(** The read of a user with a YouTube key on file, when the three requests
    are answered. *)
Lemma youtube_live_read (fuel : nat) (userId days : Z) (s : State) (apiKey : string)
    (channel : Channel) (items : list SearchItem)
    (videoStatsItems : list (option VideoStatistics)) :
  as_key (opt_field (find_by_user userId (platformApiKeys (store s))) "youtubeKey")
    = Some apiKey ->
  answers (world s) channel items videoStatsItems ->
  let live :=
    live_stats {| live_channel := channel;
                  live_items := items;
                  live_videoStats := videoStatsItems;
                  growth1 := random_at (world s) (drawn (world s)) - 2;
                  growth2 := random_at (world s) (S (drawn (world s))) - 2;
                  growth3 := random_at (world s) (S (S (drawn (world s)))) - 2 |}
               (now_at (world s) (S (S (ticks (world s))))) in
  MemStorage_getPlatformStats (S fuel) userId "youtube" days s =
    Ret (Some live)
        (cached (stats_key userId "youtube" days) live
           (after_live_fetch (logged (CallFactory "youtube")
              (logged (CallGetPlatformStats userId "youtube" days) s)))).
Proof.
  intros Hkey Hans live.
  assert (String.eqb apiKey "" = false) as Hne
    by exact (credential_nonempty _ "youtube" _ Hkey).
  simpl. unfold getPlatformStats_body.
  unfold try_catch at 1. unfold bind at 1, log at 1.
  unfold bind at 1, getApiKeys at 1. cbn [store logged with_world].
  change ("youtube" +:+ "Key") with "youtubeKey". rewrite Hkey.
  unfold bind at 1. unfold try_catch at 1. unfold bind at 1.
  rewrite (getService_supported YouTubeApiService
             : forall st, getService "youtube" st = _).
  unfold bind at 1. unfold Service_getPlatformStats_with at 1. unfold try_catch at 1.
  unfold live_fetch. rewrite Hne.
  rewrite (YouTube_fetch_ok _ channel items videoStatsItems) by exact Hans.
  reflexivity.
Qed.



(** ** What a read leaves alone *)

Lemma same_accounts_refl (s : State) : same_accounts s s.
Proof. by repeat split. Qed.

Lemma stable_same_accounts (s0 : State) : stable (same_accounts s0).
Proof.
  split; try done.
  intros userId platform days v s Hp (Hu & Hk & Hc & Hi & Hcache).
  repeat split; try done. intros key Hkey. simpl.
  destruct (decide (stats_key userId platform days = key)) as [->|Hne].
  - rewrite lookup_insert_eq. by eexists.
  - rewrite lookup_insert_ne by done. by apply Hcache.
Qed.

Lemma preserves_get_stats (P : State -> Prop) fuel q :
  stable P -> preserves P (get_stats fuel q).
Proof.
  intros HP. unfold get_stats. apply preserves_bind; [apply preserves_read|].
  intros [user|]; [|apply preserves_ret].
  case_match; [apply preserves_ret|].
  destruct (q_platform q) as [p|]; [case_match|].
  - apply preserves_bind; [by apply preserves_getPlatformStats|].
    intros [st|]; apply preserves_ret.
  - apply preserves_bind; [by apply preserves_getAllPlatformStats|].
    intros all. apply preserves_ret.
  - apply preserves_bind; [by apply preserves_getAllPlatformStats|].
    intros all. apply preserves_ret.
Qed.

Lemma preserves_get_posts (P : State -> Prop) getTime fuel q :
  stable P -> preserves P (get_posts getTime fuel q).
Proof.
  intros HP. unfold get_posts. apply preserves_bind; [apply preserves_read|].
  intros [user|]; [|apply preserves_ret].
  case_match; [apply preserves_ret|].
  apply preserves_bind; [by apply preserves_getPosts|].
  intros r. apply preserves_ret.
Qed.

(** X4: [GET /api/stats] and [GET /api/posts] never create, change or remove a
    user or a credential record, never move the id counters, and never drop
    a cache entry: whatever they answer, the store differs from the one
    before at most by cache entries that were written. *)
Theorem get_handlers_keep_accounts (getTime : string -> option Z) (fuel : nat) (q : Query)
    (s s' : State) (r : Response) :
  get_stats fuel q s = Ret r s' \/ get_posts getTime fuel q s = Ret r s' ->
  same_accounts s s'.
Proof.
  intros [H|H].
  - pose proof (preserves_get_stats _ fuel q (stable_same_accounts s) s
                  (same_accounts_refl s)) as Hp.
    by rewrite H in Hp.
  - pose proof (preserves_get_posts _ getTime fuel q (stable_same_accounts s) s
                  (same_accounts_refl s)) as Hp.
    by rewrite H in Hp.
Qed.

Lemma get_handlers_keep_accounts_witness :
  exists r s',
    get_stats 2 (query (Num 1) (Num 7) (Some "youtube") NaN NaN) s_youtube_online = Ret r s' /\
    status r = 200 /\
    same_accounts s_youtube_online s'.
Proof.
  do 2 eexists. split; [vm_compute; reflexivity|]. split; [reflexivity|].
  eapply (get_handlers_keep_accounts iso_getTime 2
            (query (Num 1) (Num 7) (Some "youtube") NaN NaN)).
  left. vm_compute. reflexivity.
Defined.

(** ** One stub credential blocks the aggregate *)

Lemma stable_same_keys (K : JsMap.t ApiKey.t) :
  stable (fun s => platformApiKeys (store s) = K).
Proof. by split. Qed.

Lemma collect_loop_diverges fuel userId days apiKeys (svc : Service) (key : string)
    (K : JsMap.t ApiKey.t) :
  svc <> YouTubeApiService ->
  as_key (opt_field (find_by_user userId K) (service_platform svc +:+ "Key")) = Some key ->
  forall l acc s,
    In (service_platform svc) l -> platformApiKeys (store s) = K ->
    for_each l acc (collect_step fuel userId days apiKeys) s = OutOfFuel.
Proof.
  intros Hsvc Hkey. induction l as [|p l IH]; intros acc s Hin HK; [done|].
  cbn [for_each]. unfold bind at 1.
  destruct (String.eqb_spec p (service_platform svc)) as [->|Hne].
  - unfold collect_step, try_catch, bind.
    rewrite (credential_read_diverges fuel svc userId days s key); [done | by rewrite HK |].
    by destruct svc.
  - assert (preserves (fun s => platformApiKeys (store s) = K)
              (collect_step fuel userId days apiKeys acc p)) as Hp.
    { unfold collect_step. apply preserves_try_catch; [|intros e; apply preserves_ret].
      apply preserves_bind; [apply preserves_getPlatformStats, stable_same_keys|].
      intros [st|]; apply preserves_ret. }
    specialize (Hp s HK).
    destruct (collect_step fuel userId days apiKeys acc p s) as [acc' s1|e s1|] eqn:E.
    + apply IH; [|done]. by destruct Hin.
    + unfold collect_step, try_catch in E.
      destruct (bind _ _ s); done.
    + done.
Qed.

Lemma gather_loop_diverges fuel userId days apiKeys (svc : Service) (key : string)
    (K : JsMap.t ApiKey.t) :
  svc <> YouTubeApiService ->
  as_key (opt_field (find_by_user userId K) (service_platform svc +:+ "Key")) = Some key ->
  forall l acc s,
    In (service_platform svc) l -> platformApiKeys (store s) = K ->
    for_each l acc (gather_step fuel userId days apiKeys) s = OutOfFuel.
Proof.
  intros Hsvc Hkey. induction l as [|p l IH]; intros acc s Hin HK; [done|].
  cbn [for_each]. unfold bind at 1.
  destruct (String.eqb_spec p (service_platform svc)) as [->|Hne].
  - unfold gather_step, try_catch, bind.
    rewrite (credential_read_diverges fuel svc userId days s key); [done | by rewrite HK |].
    by destruct svc.
  - assert (preserves (fun s => platformApiKeys (store s) = K)
              (gather_step fuel userId days apiKeys acc p)) as Hp.
    { unfold gather_step. apply preserves_try_catch; [|intros e; apply preserves_ret].
      apply preserves_bind; [apply preserves_getPlatformStats, stable_same_keys|].
      intros [st|]; apply preserves_ret. }
    specialize (Hp s HK).
    destruct (gather_step fuel userId days apiKeys acc p s) as [acc' s1|e s1|] eqn:E.
    + apply IH; [|done]. by destruct Hin.
    + unfold gather_step, try_catch in E.
      destruct (bind _ _ s); done.
    + done.
Qed.

(** X5: A user who has a Twitter, Instagram or Facebook credential on file gets
    no answer from the aggregate read, from [getPosts] for 'all', or from
    [GET /api/stats] without a platform: the read of that platform never
    returns, and the loop that waits for it never gets past it, whatever the
    other platforms do. *)
Theorem stub_credential_blocks_aggregate (getTime : string -> option Z) (svc : Service)
    (userId days : Z) (s : State) (key : string) :
  svc <> YouTubeApiService ->
  as_key (opt_field (find_by_user userId (platformApiKeys (store s)))
            (service_platform svc +:+ "Key")) = Some key ->
  forall fuel,
    MemStorage_getAllPlatformStats fuel userId days s = OutOfFuel /\
    (forall page limit,
       MemStorage_getPosts getTime fuel userId "all" days page limit s = OutOfFuel) /\
    (forall q user,
       query_userId q = userId -> query_days q = days -> q_platform q = None ->
       JsMap.get userId (users (store s)) = Some user ->
       User.isPro user = true \/ days <= 7 ->
       get_stats fuel q s = OutOfFuel).
Proof.
  intros Hsvc Hkey fuel.
  assert (In (service_platform svc) platforms) as Hin by (destruct svc; simpl; auto 6).
  assert (MemStorage_getAllPlatformStats fuel userId days s = OutOfFuel) as Hall.
  { unfold MemStorage_getAllPlatformStats. unfold bind at 1, log. unfold bind at 1, getApiKeys.
    by eapply collect_loop_diverges. }
  split; [done|]. split.
  - intros page limit. rewrite getPosts_unfold.
    unfold gather_posts. unfold bind at 1, getApiKeys. simpl String.eqb. cbv iota.
    by erewrite gather_loop_diverges.
  - intros q user Hq Hd Hp Hu Hgate. unfold get_stats. unfold bind at 1, getUser.
    rewrite Hq, Hd, Hp, Hu.
    assert (negb (User.isPro user) && (7 <? days) = false) as ->.
    { destruct Hgate as [-> | Hle]; [done|]. apply andb_false_iff. right. by apply Z.ltb_ge. }
    unfold bind at 1. by rewrite Hall.
Qed.

Lemma stub_credential_blocks_aggregate_witness :
  as_key (opt_field (find_by_user 1 (platformApiKeys (store s_twitter)))
            (service_platform TwitterApiService +:+ "Key")) = Some "tok" /\
  forall fuel,
    MemStorage_getAllPlatformStats fuel 1 7 s_twitter = OutOfFuel /\
    (forall page limit,
       MemStorage_getPosts iso_getTime fuel 1 "all" 7 page limit s_twitter = OutOfFuel) /\
    (forall q user,
       query_userId q = 1 -> query_days q = 7 -> q_platform q = None ->
       JsMap.get 1 (users (store s_twitter)) = Some user ->
       User.isPro user = true \/ 7 <= 7 ->
       get_stats fuel q s_twitter = OutOfFuel).
Proof.
  split; [reflexivity|].
  apply (stub_credential_blocks_aggregate iso_getTime TwitterApiService 1 7 s_twitter "tok").
  - discriminate.
  - reflexivity.
Defined.

(** ** Pagination metadata *)

Lemma ceil_div_pages (page limit total : Z) :
  1 <= limit -> ((page - 1) * limit < total <-> page <= ceil_div total limit).
Proof.
  intros Hl. unfold ceil_div.
  pose proof (Z.div_mod (- total) limit ltac:(lia)) as Hdm.
  pose proof (Z.mod_pos_bound (- total) limit ltac:(lia)) as Hb.
  split; intros H; nia.
Qed.

Lemma page_length_exact {A : Type} (l : list A) (page limit : Z) :
  1 <= page -> 1 <= limit ->
  Z.of_nat (length (page_of l page limit))
    = Z.max 0 (Z.min limit (Z.of_nat (length l) - (page - 1) * limit)).
Proof.
  intros Hp Hl. rewrite slice_page by done. rewrite length_firstn, length_skipn.
  assert (0 <= (page - 1) * limit) as Hs by nia.
  generalize dependent ((page - 1) * limit). intros start Hs. lia.
Qed.

(** X6: For page >= 1 and limit >= 1 the answer of [GET /api/posts] is
    consistent with itself: [totalPages] is [total / limit] rounded up, the
    page holds [min(limit, total - (page-1)*limit)] posts (none when that is
    negative), and it is empty exactly for the pages after [totalPages]. *)
Theorem pagination_metadata (getTime : string -> option Z) (fuel : nat) (q : Query)
    (s s' : State) (posts : list (SocialPost.t * option bool))
    (page limit total totalPages : Z) :
  1 <= query_page q -> 1 <= query_limit q ->
  get_posts getTime fuel q s
    = Ret {| status := 200; body := PostsJson posts page limit total totalPages |} s' ->
  page = query_page q /\ limit = query_limit q /\
  0 <= total /\ totalPages = ceil_div total limit /\
  Z.of_nat (length posts) = Z.max 0 (Z.min limit (total - (page - 1) * limit)) /\
  (posts = [] <-> totalPages < page).
Proof.
  intros Hp Hl. unfold get_posts. unfold bind at 1, getUser.
  destruct (JsMap.get _ _) as [user|]; [|done].
  destruct (negb (User.isPro user) && _); [done|].
  unfold bind at 1. rewrite getPosts_unfold.
  destruct (gather_posts _ _ _ _ _) as [allPosts s1|e s1|]; [|done|done].
  unfold ret. cbn [fst snd]. intros [= <- <- <- <- <- <-].
  set (sorted := js_sort (by_date_desc getTime) allPosts).
  split; [done|]. split; [done|]. split; [lia|]. split; [done|].
  pose proof (page_length_exact sorted _ _ Hp Hl) as Hlen.
  split; [done|].
  pose proof (ceil_div_pages (query_page q) (query_limit q) (Z.of_nat (length sorted)) Hl) as Hc.
  split.
  - intros Hnil. rewrite Hnil in Hlen. simpl in Hlen. lia.
  - intros Hlt. apply length_zero_iff_nil. lia.
Qed.

Lemma pagination_metadata_witness :
  exists posts s',
    1 <= 3 /\ 1 <= 3 /\
    get_posts iso_getTime 1 (query (Num 1) (Num 7) None (Num 3) (Num 3)) s_alice
      = Ret {| status := 200; body := PostsJson posts 3 3 8 3 |} s' /\
    Z.of_nat (length posts) = Z.max 0 (Z.min 3 (8 - (3 - 1) * 3)) /\
    (posts = [] <-> 3 < 3).
Proof.
  do 2 eexists. split; [lia|]. split; [lia|].
  assert (get_posts iso_getTime 1 (query (Num 1) (Num 7) None (Num 3) (Num 3)) s_alice
            = Ret {| status := 200; body := PostsJson _ 3 3 8 3 |} _) as H
    by (vm_compute; reflexivity).
  split; [exact H|].
  destruct (pagination_metadata iso_getTime 1
              (query (Num 1) (Num 7) None (Num 3) (Num 3)) s_alice _ _ 3 3 8 3
              ltac:(change (1 <= 3); lia) ltac:(change (1 <= 3); lia) H)
    as (_ & _ & _ & _ & Hlen & Hnil).
  by split.
Defined.

(** ** Any page is a run of the sorted sequence *)

(** X7: Whatever [page] and [limit] are (zero and negative included),
    [total] is the number of gathered posts and the posts [getPosts] returns
    are gathered posts, none of them taken twice.  When the date of every
    gathered post parses, they are one contiguous run of the gathered posts
    in newest-first order: what comes before the page is not older, what
    comes after it is not newer, and the page itself is newest first. *)
Theorem getPosts_page_is_a_run (getTime : string -> option Z) (fuel : nat) (userId : Z)
    (platform : string) (days page limit : Z) (s s' : State)
    (posts : list (SocialPost.t * option bool)) (total : Z) :
  MemStorage_getPosts getTime fuel userId platform days page limit s = Ret (posts, total) s' ->
  exists allPosts,
    gather_posts fuel userId platform days
      (logged (CallGetPosts userId platform days page limit) s) = Ret allPosts s' /\
    total = Z.of_nat (length allPosts) /\
    (exists pre post, Permutation allPosts (pre ++ posts ++ post)) /\
    (Forall (fun p => is_Some (posted_at getTime p)) allPosts ->
     exists pre post,
       js_sort (by_date_desc getTime) allPosts = pre ++ posts ++ post /\
       StronglySorted (newer_or_same getTime) (pre ++ posts ++ post) /\
       StronglySorted (newer_or_same getTime) posts).
Proof.
  rewrite getPosts_unfold.
  destruct (gather_posts _ _ _ _ _) as [allPosts s1|e s1|]; [|done|done].
  intros [= <- <- <-].
  destruct (page_is_a_run (js_sort (by_date_desc getTime) allPosts) page limit)
    as (pre & post & Hrun).
  pose proof (getPosts_order getTime allPosts) as (Hperm & Hstrong).
  exists allPosts. split; [done|]. split; [by rewrite js_sort_length|]. split.
  - exists pre, post. exact (eq_rect _ (Permutation _) Hperm _ Hrun).
  - intros Hparse. specialize (Hstrong Hparse). exists pre, post. split; [exact Hrun|].
    assert (StronglySorted (newer_or_same getTime)
              (pre ++ page_of (js_sort (by_date_desc getTime) allPosts) page limit ++ post))
      as Hall by exact (eq_rect _ (StronglySorted _) Hstrong _ Hrun).
    split; [exact Hall|].
    apply StronglySorted_app_1_r in Hall. by apply StronglySorted_app_1_l in Hall.
Qed.

Lemma getPosts_page_is_a_run_witness :
  exists posts allPosts s',
    MemStorage_getPosts iso_getTime 1 1 "twitter" 7 0 (-1) s_alice = Ret (posts, 2) s' /\
    gather_posts 1 1 "twitter" 7 (logged (CallGetPosts 1 "twitter" 7 0 (-1)) s_alice)
      = Ret allPosts s' /\
    2 = Z.of_nat (length allPosts) /\
    (exists pre post, Permutation allPosts (pre ++ posts ++ post)) /\
    Forall (fun p => is_Some (posted_at iso_getTime p)) allPosts /\
    exists pre post,
      js_sort (by_date_desc iso_getTime) allPosts = pre ++ posts ++ post /\
      StronglySorted (newer_or_same iso_getTime) (pre ++ posts ++ post) /\
      StronglySorted (newer_or_same iso_getTime) posts.
Proof.
  assert (exists posts s',
            MemStorage_getPosts iso_getTime 1 1 "twitter" 7 0 (-1) s_alice = Ret (posts, 2) s')
    as (posts & s' & H) by (do 2 eexists; vm_compute; reflexivity).
  destruct (getPosts_page_is_a_run _ _ _ _ _ _ _ _ _ _ _ H)
    as (allPosts & Hgather & Htotal & Hsub & Hsorted).
  assert (Forall (fun p => is_Some (posted_at iso_getTime p)) allPosts) as Hparse.
  { vm_compute in Hgather. injection Hgather as <- _. repeat constructor; by eexists. }
  exists posts, allPosts, s'. split; [exact H|]. split; [exact Hgather|].
  split; [exact Htotal|]. split; [exact Hsub|]. split; [exact Hparse|]. exact (Hsorted Hparse).
Defined.

(** ** The samples belong to user 1 *)

Lemma seeded_miss (boot : nat -> string) (thirtyDayData : SocialStats.t -> SocialStats.t)
    (userId : Z) (platform : string) (days : Z) :
  userId <> 1 \/ (days <> 7 /\ days <> 30) ->
  initializeSampleData boot thirtyDayData !! stats_key userId platform days = None.
Proof.
  intros Hother. unfold initializeSampleData. cbn [sampleData foldl fst snd].
  assert (forall p d, (d = 7 \/ d = 30) -> stats_key userId platform days <> stats_key 1 p d)
    as Hne.
  { intros p d Hd Heq. apply stats_key_eq in Heq as (-> & _ & ->). lia. }
  rewrite !lookup_insert_ne; [apply lookup_empty | ..];
    apply not_eq_sym;
    first [ apply (Hne "youtube" 7); by left | apply (Hne "instagram" 7); by left
          | apply (Hne "twitter" 7); by left | apply (Hne "facebook" 7); by left
          | apply (Hne "youtube" 30); by right | apply (Hne "instagram" 30); by right
          | apply (Hne "twitter" 30); by right | apply (Hne "facebook" 30); by right ].
Qed.

(** X8: In a store whose cache is the one built at start-up, a user other than
    user 1 (or any user asking for a window other than 7 or 30 days) who has
    no credential on file has nothing to see: every platform read returns
    nothing, the aggregate is empty, and so is the post list. *)
Theorem samples_belong_to_user_one (getTime : string -> option Z) (fuel : nat) (s : State)
    (boot : nat -> string) (thirtyDayData : SocialStats.t -> SocialStats.t)
    (userId days : Z) :
  socialStats (store s) = initializeSampleData boot thirtyDayData ->
  (forall p, In p platforms -> no_credential (store s) userId p) ->
  userId <> 1 \/ (days <> 7 /\ days <> 30) ->
  (forall p, In p platforms ->
     MemStorage_getPlatformStats (S fuel) userId p days s
       = Ret None (logged (CallGetPlatformStats userId p days) s)) /\
  MemStorage_getAllPlatformStats (S fuel) userId days s
    = Ret [] (after_reads userId days (logged (CallGetAllPlatformStats userId days) s)) /\
  (forall page limit,
     MemStorage_getPosts getTime (S fuel) userId "all" days page limit s
       = Ret ([], 0)
             (after_reads userId days (logged (CallGetPosts userId "all" days page limit) s))).
Proof.
  intros Hcache Hno Hother.
  assert (forall p, socialStats (store s) !! stats_key userId p days = None) as Hmiss.
  { intros p. rewrite Hcache. by apply seeded_miss. }
  split; [|split].
  - intros p Hp. rewrite getPlatformStats_no_credential by by apply Hno. by rewrite Hmiss.
  - rewrite getAllPlatformStats_no_credentials by done.
    cbn [flat_map platforms]. by rewrite !Hmiss.
  - intros page limit. rewrite getPosts_unfold.
    unfold gather_posts. unfold bind at 1, getApiKeys. simpl String.eqb. cbv iota.
    rewrite gather_loop_no_credentials by done.
    cbn [flat_map platforms]. cbn [store logged with_world]. rewrite !Hmiss.
    cbn [tagged app js_sort foldr length]. unfold page_of, slice.
    by rewrite skipn_nil, firstn_nil.
Qed.

Lemma samples_belong_to_user_one_witness :
  (forall p, In p platforms ->
     MemStorage_getPlatformStats 1 2 p 7 s_bob
       = Ret None (logged (CallGetPlatformStats 2 p 7) s_bob)) /\
  MemStorage_getAllPlatformStats 1 2 7 s_bob
    = Ret [] (after_reads 2 7 (logged (CallGetAllPlatformStats 2 7) s_bob)) /\
  (forall page limit,
     MemStorage_getPosts iso_getTime 1 2 "all" 7 page limit s_bob
       = Ret ([], 0) (after_reads 2 7 (logged (CallGetPosts 2 "all" 7 page limit) s_bob))).
Proof.
  apply (samples_belong_to_user_one iso_getTime 0 s_bob demo_clock demo_thirty 2 7).
  - reflexivity.
  - intros p Hp. reflexivity.
  - left. lia.
Defined.

(** ** Maps in insertion order, continued *)

Lemma JsMap_get_In {V : Type} k (v : V) (m : JsMap.t V) :
  NoDup (JsMap.keys m) -> In (k, v) m -> JsMap.get k m = Some v.
Proof.
  induction m as [|[k' v'] m IH]; simpl; [done|].
  intros [Hnot Hnd]%NoDup_cons [[= -> ->]|Hin].
  - by rewrite Z.eqb_refl.
  - destruct (Z.eqb_spec k k') as [->|]; [|by apply IH].
    exfalso. apply Hnot, list_elem_of_In, in_map_iff. by exists (k', v).
Qed.

Lemma JsMap_values_set_new {V : Type} k (v : V) (m : JsMap.t V) :
  ~ In k (JsMap.keys m) -> JsMap.values (JsMap.set k v m) = JsMap.values m ++ [v].
Proof.
  induction m as [|[k' v'] m IH]; simpl; [done|].
  destruct (Z.eqb_spec k k') as [->|Hne]; [tauto|].
  intros Hnot. simpl. rewrite IH; [done | tauto].
Qed.

Lemma JsMap_set_map_same {V B : Type} (f : V -> B) k (v old : V) (m : JsMap.t V) :
  JsMap.get k m = Some old -> f v = f old ->
  map f (JsMap.values (JsMap.set k v m)) = map f (JsMap.values m).
Proof.
  intros Hget Hf. induction m as [|[k' v'] m IH]; simpl in *; [done|].
  destruct (Z.eqb_spec k k') as [->|Hne]; simpl.
  - injection Hget as ->. by rewrite Hf.
  - f_equal. by apply IH.
Qed.

Lemma find_In {V : Type} (test : V -> bool) (m : JsMap.t V) (v : V) :
  List.find test (JsMap.values m) = Some v -> test v = true /\ exists k, In (k, v) m.
Proof.
  induction m as [|[k' v'] m IH]; simpl; [done|].
  destruct (test v') eqn:E.
  - intros [= <-]. split; [done|]. exists k'. by left.
  - intros H. destruct (IH H) as (Ht & k & Hin). split; [done|]. exists k. by right.
Qed.

Lemma find_after_set_new {V : Type} (test : V -> bool) k (v : V) (m : JsMap.t V) :
  List.find test (JsMap.values m) = None -> test v = true ->
  List.find test (JsMap.values (JsMap.set k v m)) = Some v.
Proof.
  intros Hnone Hv. induction m as [|[k' v'] m IH]; simpl in *.
  - by rewrite Hv.
  - destruct (test v') eqn:E; [done|].
    destruct (Z.eqb k k'); simpl; [by rewrite Hv|]. rewrite E. by apply IH.
Qed.

Lemma find_after_set_same {V : Type} (test : V -> bool) (key : V -> Z) (v old : V)
    (m : JsMap.t V) :
  NoDup (JsMap.keys m) -> Forall (fun kv => fst kv = key (snd kv)) m ->
  List.find test (JsMap.values m) = Some old -> test v = true ->
  List.find test (JsMap.values (JsMap.set (key old) v m)) = Some v.
Proof.
  intros Hnd Hid Hfind Hv.
  induction m as [|[k' v'] m IH]; simpl in *; [done|].
  apply NoDup_cons in Hnd as [Hnotin Hnd']. rewrite list_elem_of_In in Hnotin.
  apply List.Forall_cons_iff in Hid as [Hhead Hid']. simpl in Hhead.
  destruct (test v') eqn:E.
  - injection Hfind as <-. rewrite <- Hhead, Z.eqb_refl. simpl. by rewrite Hv.
  - destruct (Z.eqb_spec (key old) k') as [Hk|Hk].
    + exfalso. apply Hnotin.
      destruct (find_In _ _ _ Hfind) as (_ & k & Hin).
      rewrite List.Forall_forall in Hid'. pose proof (Hid' _ Hin) as Hkey. simpl in Hkey.
      apply in_map_iff. exists (k, old). split; [|done]. simpl. congruence.
    + simpl. rewrite E. by apply IH.
Qed.

Lemma find_app_Some {V : Type} (test : V -> bool) (l l' : list V) (x : V) :
  List.find test l = Some x -> List.find test (l ++ l') = Some x.
Proof.
  induction l as [|y l IH]; simpl; [done|]. destruct (test y); [done | exact IH].
Qed.

Lemma find_keeps_first {V : Type} (test : V -> bool) k (v old : V) (m : JsMap.t V) :
  ~ In k (JsMap.keys m) ->
  List.find test (JsMap.values m) = Some old ->
  List.find test (JsMap.values (JsMap.set k v m)) = Some old.
Proof.
  intros Hnot Hfind. rewrite JsMap_values_set_new by done.
  by apply find_app_Some.
Qed.

(** ** Users: sign-up, login, lookup *)

Lemma users_ok_new boot thirtyDayData : users_ok (MemStorage_new boot thirtyDayData).
Proof.
  split; [apply users_fresh_new|]. split; [done|].
  split; [apply NoDup_nil_2|]. split; [constructor | apply NoDup_nil_2].
Qed.

Lemma users_ok_get (st : MemStorage) (uid : string) (user : User.t) :
  users_ok st -> find_by_uid uid (users st) = Some user ->
  User.firebaseUid user = uid /\ JsMap.get (User.id user) (users st) = Some user.
Proof.
  intros (_ & _ & Hnd & Hid & _) Hfind.
  destruct (find_In _ _ _ Hfind) as (Ht & k & Hin).
  apply String.eqb_eq in Ht. split; [done|].
  rewrite List.Forall_forall in Hid. pose proof (Hid _ Hin) as Hk. simpl in Hk. subst k.
  by apply JsMap_get_In.
Qed.

Lemma find_by_uid_None (uid : string) (m : JsMap.t User.t) :
  find_by_uid uid m = None -> ~ In uid (map User.firebaseUid (JsMap.values m)).
Proof.
  unfold find_by_uid. intros Hnone Hin. apply in_map_iff in Hin as (u & Hu & Hin).
  pose proof (find_none _ _ Hnone u Hin) as Hf. simpl in Hf.
  apply String.eqb_neq in Hf. done.
Qed.

(** The run of [POST /api/user] for a [firebaseUid] nobody has. *)
Lemma post_user_create_run (d : UserBody.t) (s : State) :
  users_ok (store s) ->
  find_by_uid (UserBody.firebaseUid d) (users (store s)) = None ->
  exists newUser s',
    post_user (Some d) s = Ret {| code := 201; payload := Profile (userProfile newUser) |} s' /\
    createUser (as_insert_user d) s = Ret newUser s' /\
    User.id newUser = currentUserId (store s) /\
    User.firebaseUid newUser = UserBody.firebaseUid d /\
    JsMap.get (User.id newUser) (users (store s')) = Some newUser /\
    find_by_uid (UserBody.firebaseUid d) (users (store s')) = Some newUser /\
    users_ok (store s').
Proof.
  intros (Hfresh & Hpos & Hnd & Hid & Huid) Hnone.
  assert (~ In (currentUserId (store s)) (JsMap.keys (users (store s)))) as Hnew.
  { intros Hin. apply Hfresh in Hin. lia. }
  do 2 eexists. unfold post_user, try_catch. unfold bind at 1, getUserByFirebaseUid.
  rewrite Hnone. unfold bind at 1. unfold createUser, bind, now.
  cbn [store ticked with_world with_store].
  split; [reflexivity|]. split; [reflexivity|]. cbn.
  split; [done|]. split; [done|]. split; [apply JsMap_get_set_eq|]. split.
  - apply find_after_set_new; [exact Hnone | apply String.eqb_refl].
  - split; [|split; [simpl; lia|split; [|split]]]; cbn [users currentUserId].
    + intros k Hk. simpl. apply JsMap_keys_set in Hk as [->|Hk]; [lia|].
      apply Hfresh in Hk. lia.
    + rewrite JsMap_keys_set_new by done. apply NoDup_app. split; [done|].
      split; [|apply NoDup_singleton].
      intros x Hx Hx'. apply list_elem_of_In in Hx. apply list_elem_of_singleton in Hx'.
      by subst.
    + by apply JsMap_set_Forall.
    + rewrite JsMap_values_set_new by done. rewrite map_app. apply NoDup_app.
      split; [done|]. split; [|apply NoDup_singleton].
      intros x Hx Hx'. apply list_elem_of_In in Hx. apply list_elem_of_singleton in Hx'.
      subst x. simpl in Hx. by apply find_by_uid_None in Hnone.
Qed.

(** The run of [POST /api/user] for a [firebaseUid] that is registered. *)
Lemma post_user_update_run (d : UserBody.t) (s : State) (existingUser : User.t) :
  users_ok (store s) ->
  find_by_uid (UserBody.firebaseUid d) (users (store s)) = Some existingUser ->
  let updatedUser :=
    merge_user existingUser (login_data d (now_at (world s) (ticks (world s)))) in
  exists s',
    post_user (Some d) s
      = Ret {| code := 200; payload := Profile (userProfile updatedUser) |} s' /\
    JsMap.get (User.id existingUser) (users (store s')) = Some updatedUser /\
    find_by_uid (UserBody.firebaseUid d) (users (store s')) = Some updatedUser /\
    JsMap.keys (users (store s')) = JsMap.keys (users (store s)) /\
    currentUserId (store s') = currentUserId (store s) /\
    users_ok (store s').
Proof.
  intros Hok Hfind updatedUser.
  destruct (users_ok_get _ _ _ Hok Hfind) as (Huid & Hget).
  destruct Hok as (Hfresh & Hpos & Hnd & Hid & Huids).
  pose proof (JsMap_get_Some_keys _ _ _ Hget) as Hin.
  eexists. unfold post_user, try_catch. unfold bind at 1, getUserByFirebaseUid.
  rewrite Hfind. unfold bind at 1, now. unfold bind at 1, updateUser.
  cbn [store ticked with_world]. rewrite Hget.
  split; [reflexivity|]. cbn [store with_store users currentUserId].
  split; [apply JsMap_get_set_eq|]. split.
  - apply (find_after_set_same _ User.id); [done | done | exact Hfind |].
    apply String.eqb_refl.
  - split; [by apply JsMap_keys_set_existing|]. split; [done|].
    split; [|split; [done|split; [|split]]]; cbn [users currentUserId].
    + unfold users_fresh. cbn [users currentUserId]. intros k Hk.
      rewrite JsMap_keys_set_existing in Hk by done. by apply Hfresh.
    + by rewrite JsMap_keys_set_existing.
    + by apply JsMap_set_Forall.
    + by rewrite (JsMap_set_map_same User.firebaseUid _ _ existingUser).
Qed.

(** X9: Signing up and coming back: [POST /api/user] for a [firebaseUid] nobody
    has answers 201 with a profile that has the next free id, [isPro = false]
    and [isFirstLogin = true]; afterwards [GET /api/auth/check] for that uid
    and [GET /api/user] for that id answer with the same profile, and posting
    the same body again answers 200 for the same id without adding a user. *)
Theorem sign_up_round_trip (d : UserBody.t) (s : State) :
  users_ok (store s) ->
  find_by_uid (UserBody.firebaseUid d) (users (store s)) = None ->
  UserBody.firebaseUid d <> "" ->
  exists p s',
    post_user (Some d) s = Ret {| code := 201; payload := Profile p |} s' /\
    UserProfile.id p = currentUserId (store s) /\
    UserProfile.isPro p = false /\ UserProfile.isFirstLogin p = true /\
    UserProfile.username p = UserBody.username d /\
    UserProfile.email p = UserBody.email d /\
    auth_check (Some (UserBody.firebaseUid d)) s'
      = Ret {| code := 200; payload := Auth true (Some p) |} s' /\
    get_user (Num (UserProfile.id p)) s' = Ret {| code := 200; payload := Profile p |} s' /\
    exists p2 s'',
      post_user (Some d) s' = Ret {| code := 200; payload := Profile p2 |} s'' /\
      UserProfile.id p2 = UserProfile.id p /\
      JsMap.keys (users (store s'')) = JsMap.keys (users (store s')).
Proof.
  intros Hok Hnone Huid.
  destruct (post_user_create_run d s Hok Hnone)
    as (newUser & s' & Hrun & Hcreate & Hid & Hfb & Hget & Hfind & Hok').
  exists (userProfile newUser), s'. split; [exact Hrun|].
  unfold createUser, bind, now in Hcreate. injection Hcreate as <- <-.
  split; [done|]. split; [done|]. split; [done|]. split; [done|]. split; [done|].
  split; [|split].
  - unfold auth_check. simpl. apply String.eqb_neq in Huid. rewrite Huid.
    unfold bind, getUserByFirebaseUid. by rewrite Hfind.
  - unfold get_user. destruct Hok as (_ & Hpos & _).
    cbn [userProfile UserProfile.id User.id].
    rewrite or_default_nonzero by lia. unfold bind, getUser. cbn [User.id] in Hget.
    by rewrite Hget.
  - destruct (post_user_update_run d _ _ Hok' Hfind) as (s'' & Hrun' & _ & _ & Hkeys & _).
    eexists _, s''. split; [exact Hrun'|]. split; [reflexivity | exact Hkeys].
Qed.

Lemma sign_up_round_trip_witness :
  exists p s',
    post_user (Some alice_body) s_boot = Ret {| code := 201; payload := Profile p |} s' /\
    UserProfile.id p = 1 /\
    UserProfile.isPro p = false /\ UserProfile.isFirstLogin p = true /\
    UserProfile.username p = "alice" /\
    UserProfile.email p = "alice@example.com" /\
    auth_check (Some "uid-alice") s' = Ret {| code := 200; payload := Auth true (Some p) |} s' /\
    get_user (Num (UserProfile.id p)) s' = Ret {| code := 200; payload := Profile p |} s' /\
    exists p2 s'',
      post_user (Some alice_body) s' = Ret {| code := 200; payload := Profile p2 |} s'' /\
      UserProfile.id p2 = UserProfile.id p /\
      JsMap.keys (users (store s'')) = JsMap.keys (users (store s')).
Proof.
  apply (sign_up_round_trip alice_body s_boot).
  - split; [by intros k []|]. split; [reflexivity|].
    split; [apply NoDup_nil_2|]. split; [constructor | apply NoDup_nil_2].
  - reflexivity.
  - discriminate.
Defined.

(** X10: Coming back does not reset the account: [POST /api/user] for a
    registered [firebaseUid] answers 200 with the same id, the same [isPro]
    and [isFirstLogin], a refreshed [lastLogin], and the posted username and
    email; no user is added and the id counter does not move. *)
Theorem login_keeps_account (d : UserBody.t) (s : State) (existingUser : User.t) :
  users_ok (store s) ->
  find_by_uid (UserBody.firebaseUid d) (users (store s)) = Some existingUser ->
  exists p s',
    post_user (Some d) s = Ret {| code := 200; payload := Profile p |} s' /\
    UserProfile.id p = User.id existingUser /\
    UserProfile.isPro p = User.isPro existingUser /\
    UserProfile.isFirstLogin p = User.isFirstLogin existingUser /\
    UserProfile.lastLogin p = Some (now_at (world s) (ticks (world s))) /\
    UserProfile.username p = UserBody.username d /\
    UserProfile.email p = UserBody.email d /\
    JsMap.keys (users (store s')) = JsMap.keys (users (store s)) /\
    currentUserId (store s') = currentUserId (store s).
Proof.
  intros Hok Hfind.
  destruct (post_user_update_run d s existingUser Hok Hfind)
    as (s' & Hrun & _ & _ & Hkeys & Hcounter & _).
  eexists _, s'. split; [exact Hrun|]. by repeat split.
Qed.

Lemma login_keeps_account_witness :
  exists p s',
    post_user (Some alice_body) s_twitter = Ret {| code := 200; payload := Profile p |} s' /\
    UserProfile.id p = 1 /\
    UserProfile.isPro p = false /\
    UserProfile.isFirstLogin p = false /\
    UserProfile.lastLogin p = Some (demo_clock 5) /\
    UserProfile.username p = "alice" /\
    UserProfile.email p = "alice@example.com" /\
    JsMap.keys (users (store s')) = JsMap.keys (users (store s_twitter)) /\
    currentUserId (store s') = currentUserId (store s_twitter).
Proof.
  apply (login_keeps_account alice_body s_twitter (merge_user alice_user clear_first_login)).
  - split; [intros k [<-|[]]; reflexivity|]. split; [reflexivity|].
    split; [apply NoDup_singleton|].
    split; [by repeat constructor | apply NoDup_singleton].
  - reflexivity.
Defined.

(** X11: [POST /api/user] always answers, with 400 exactly for a body that does
    not validate and with 200 or 201 otherwise, and it keeps the user map
    well formed: in particular no two users ever share a [firebaseUid]. *)
Theorem post_user_keeps_users_ok (parsed : option UserBody.t) (s : State) :
  users_ok (store s) ->
  exists r s',
    post_user parsed s = Ret r s' /\
    users_ok (store s') /\
    (code r = 200 \/ code r = 201 \/ code r = 400) /\
    (code r = 400 <-> parsed = None).
Proof.
  intros Hok. destruct parsed as [d|].
  - destruct (find_by_uid (UserBody.firebaseUid d) (users (store s))) as [u|] eqn:Hfind.
    + destruct (post_user_update_run d s u Hok Hfind) as (s' & Hrun & _ & _ & _ & _ & Hok').
      eexists _, s'. split; [exact Hrun|]. split; [done|]. split; [by left|]. done.
    + destruct (post_user_create_run d s Hok Hfind) as (u & s' & Hrun & _ & _ & _ & _ & _ & Hok').
      eexists _, s'. split; [exact Hrun|]. split; [done|]. split; [by right; left|]. done.
  - eexists _, s. split; [reflexivity|]. split; [done|]. split; [by right; right|]. done.
Qed.

Lemma post_user_keeps_users_ok_witness :
  exists r s',
    post_user (Some alice_body) s_boot = Ret r s' /\
    users_ok (store s') /\
    (code r = 200 \/ code r = 201 \/ code r = 400) /\
    (code r = 400 <-> Some alice_body = None).
Proof.
  apply (post_user_keeps_users_ok (Some alice_body) s_boot).
  split; [by intros k []|]. split; [reflexivity|].
  split; [apply NoDup_nil_2|]. split; [constructor | apply NoDup_nil_2].
Defined.

(** X12: [GET /api/auth/check] never changes the state, and it answers 200
    exactly when the [firebaseUid] parameter is present, not empty, and the
    uid of some user; in every other case it answers 401. *)
Theorem auth_check_answers (firebaseUid : option string) (s : State) :
  exists r,
    auth_check firebaseUid s = Ret r s /\
    (code r = 200 \/ code r = 401) /\
    (code r = 200 <->
     exists uid user, firebaseUid = Some uid /\ uid <> "" /\
       In user (JsMap.values (users (store s))) /\ User.firebaseUid user = uid).
Proof.
  unfold auth_check. destruct firebaseUid as [uid|]; simpl.
  - destruct (String.eqb_spec uid "") as [->|Hne].
    + eexists. split; [reflexivity|]. split; [by right|]. split; [done|].
      by intros (uid & user & [= <-] & Hne & _).
    + unfold bind, getUserByFirebaseUid.
      destruct (find_by_uid uid (users (store s))) as [user|] eqn:Hfind.
      * eexists. split; [reflexivity|]. split; [by left|]. split; [|done].
        intros _. exists uid, user. split; [done|]. split; [done|].
        unfold find_by_uid in Hfind. apply find_some in Hfind as [Hin Heq].
        by apply String.eqb_eq in Heq.
      * eexists. split; [reflexivity|]. split; [by right|]. split; [done|].
        intros (uid' & user & [= <-] & _ & Hin & Huid).
        unfold find_by_uid in Hfind. pose proof (find_none _ _ Hfind user Hin) as Hf.
        simpl in Hf. apply String.eqb_neq in Hf. done.
  - eexists. split; [reflexivity|]. split; [by right|]. split; [done|].
    by intros (uid & user & [=] & _).
Qed.

(** X13: [updateUser] touches one record: the set of user ids and every other
    record stay as they are; for an id that is not there it returns nothing
    and changes nothing, otherwise the record under [id] becomes the merge of
    the old record and the data. *)
Theorem updateUser_touches_one_record (id : Z) (data : PartialUser.t) (s : State) :
  exists r s',
    updateUser id data s = Ret r s' /\
    JsMap.keys (users (store s')) = JsMap.keys (users (store s)) /\
    (forall k, k <> id -> JsMap.get k (users (store s')) = JsMap.get k (users (store s))) /\
    r = (fun user => merge_user user data) <$> JsMap.get id (users (store s)) /\
    JsMap.get id (users (store s')) = r /\
    platformApiKeys (store s') = platformApiKeys (store s) /\
    socialStats (store s') = socialStats (store s) /\
    world s' = world s.
Proof.
  unfold updateUser. destruct (JsMap.get id (users (store s))) as [user|] eqn:Hget.
  - do 2 eexists. split; [reflexivity|]. cbn [store with_store users world].
    split; [apply JsMap_keys_set_existing; by eapply JsMap_get_Some_keys|].
    split; [intros k Hk; by apply JsMap_get_set_ne|].
    split; [done|]. split; [apply JsMap_get_set_eq|]. done.
  - exists None, s. by repeat split.
Qed.

(** ** Credentials: saving and reading back *)

(** The run of a valid [POST /api/apikeys]. *)
Lemma post_apikeys_run (d : InsertApiKey.t) (s : State) :
  apikeys_wf (store s) ->
  exists status k s',
    post_apikeys (Some d) s = Ret {| status := status; body := ApiKeyJson k |} s' /\
    (status = 200 \/ status = 201) /\
    find_by_user (InsertApiKey.userId d) (platformApiKeys (store s')) = Some k /\
    (forall old, find_by_user (InsertApiKey.userId d) (platformApiKeys (store s)) = Some old ->
                 k = merge_api_key old (as_partial d)) /\
    socialStats (store s') = socialStats (store s) /\
    world s' = world s.
Proof.
  intros Hwf. set (userId := InsertApiKey.userId d).
  destruct (find_by_user userId (platformApiKeys (store s))) as [existing|] eqn:Hfind.
  - exists 200. do 2 eexists. unfold post_apikeys, try_catch. unfold bind at 1, getApiKeys.
    fold userId. rewrite Hfind. unfold bind at 1, updateApiKeys. rewrite Hfind.
    split; [reflexivity|]. cbn [store with_store platformApiKeys socialStats world].
    split; [by left|]. split; [|split; [by intros old [= <-]|done]].
    destruct Hwf as [Hnd Hall]. apply find_after_update; [done | | done | done].
    eapply Forall_impl; [exact Hall|]. by intros kv [? _].
  - exists 201.
    destruct (JsMap.get userId (users (store s))) as [user|] eqn:Hu;
      do 2 eexists; unfold post_apikeys, try_catch; unfold bind at 1, getApiKeys;
      fold userId; rewrite Hfind; unfold bind at 1, saveApiKeys;
      unfold bind at 1, updateUser; cbn [store with_store users];
      fold userId; rewrite Hu;
      (split; [reflexivity|]); cbn [store with_store platformApiKeys socialStats world];
      (split; [by right|]); (split; [by apply find_after_save|]); by split.
Qed.

(** X14: What a valid [POST /api/apikeys] answers is what [GET /api/apikeys] for
    that user answers afterwards; the post leaves the cache and the world
    alone.  The one user id that cannot be read back is 0, for which the GET
    answers 400 whatever is stored. *)
Theorem apikeys_round_trip (d : InsertApiKey.t) (s : State) :
  apikeys_wf (store s) ->
  exists status k s',
    post_apikeys (Some d) s = Ret {| status := status; body := ApiKeyJson k |} s' /\
    (status = 200 \/ status = 201) /\
    socialStats (store s') = socialStats (store s) /\
    world s' = world s /\
    get_apikeys (Num (InsertApiKey.userId d)) s'
      = Ret (if Z.eqb (InsertApiKey.userId d) 0
             then {| status := 400; body := Message "User ID is required" |}
             else {| status := 200; body := ApiKeyJson k |}) s'.
Proof.
  intros Hwf.
  destruct (post_apikeys_run d s Hwf) as (status & k & s' & Hrun & Hst & Hfind & _ & Hc & Hw).
  exists status, k, s'. split; [exact Hrun|]. split; [done|]. split; [done|]. split; [done|].
  destruct (Z.eqb_spec (InsertApiKey.userId d) 0) as [->|Hne]; [done|].
  by apply get_apikeys_found.
Qed.

Lemma apikeys_round_trip_witness :
  exists status k s',
    post_apikeys (Some (keys_for 1 (Some (Some "AIza")) None)) s_twitter
      = Ret {| status := status; body := ApiKeyJson k |} s' /\
    (status = 200 \/ status = 201) /\
    socialStats (store s') = socialStats (store s_twitter) /\
    world s' = world s_twitter /\
    get_apikeys (Num 1) s' = Ret {| status := 200; body := ApiKeyJson k |} s'.
Proof.
  apply (apikeys_round_trip (keys_for 1 (Some (Some "AIza")) None) s_twitter).
  split; [apply NoDup_singleton | by repeat constructor].
Defined.

Lemma find_by_user_get (st : MemStorage) (userId : Z) (old : ApiKey.t) :
  apikeys_wf st -> find_by_user userId (platformApiKeys st) = Some old ->
  ApiKey.userId old = userId /\ JsMap.get (ApiKey.id old) (platformApiKeys st) = Some old.
Proof.
  intros [Hnd Hall] Hfind. destruct (find_by_user_In _ _ _ Hfind) as (Hu & key & Hin).
  split; [done|]. rewrite List.Forall_forall in Hall. destruct (Hall _ Hin) as [Hkey _].
  simpl in Hkey. subst key. by apply JsMap_get_In.
Qed.

(** X15: [POST /api/apikeys] always answers, keeps the credential map well
    formed, and never leaves a user with two credential records. *)
Theorem one_credential_record_per_user (parsed : option InsertApiKey.t) (s : State) :
  apikeys_wf (store s) -> one_record_per_user (store s) ->
  exists r s',
    post_apikeys parsed s = Ret r s' /\
    apikeys_wf (store s') /\ one_record_per_user (store s').
Proof.
  intros Hwf Hone. pose proof (post_apikeys_wf parsed s Hwf) as Hwf'.
  destruct parsed as [d|]; [|by exists {| status := 400; body := Invalid "Invalid API key data" |}, s].
  set (userId := InsertApiKey.userId d) in *.
  unfold post_apikeys, try_catch in *.
  unfold bind at 1, getApiKeys in Hwf'. unfold bind at 1, getApiKeys.
  fold userId in Hwf' |- *.
  destruct (find_by_user userId (platformApiKeys (store s))) as [old|] eqn:Hfind.
  - destruct (find_by_user_get _ _ _ Hwf Hfind) as (Hu & Hget).
    unfold bind at 1, updateApiKeys in Hwf'. unfold bind at 1, updateApiKeys.
    rewrite Hfind in *. do 2 eexists. split; [reflexivity|]. split; [exact Hwf'|].
    unfold one_record_per_user. cbn [store with_store platformApiKeys].
    by rewrite (JsMap_set_map_same ApiKey.userId _ _ old).
  - assert (~ In (currentApiKeyId (store s)) (JsMap.keys (platformApiKeys (store s)))) as Hnew.
    { intros Hin. destruct Hwf as [_ Hall]. apply in_map_iff in Hin as ([key k] & Hkey & Hin).
      rewrite List.Forall_forall in Hall. destruct (Hall _ Hin) as [_ Hlt].
      simpl in *. lia. }
    unfold bind at 1, saveApiKeys in Hwf'. unfold bind at 1, saveApiKeys.
    unfold bind at 1, updateUser in Hwf'. unfold bind at 1, updateUser.
    cbn [store with_store users] in Hwf' |- *.
    destruct (JsMap.get userId (users (store s)));
      (do 2 eexists; split; [reflexivity|]; split; [exact Hwf'|]);
      unfold one_record_per_user; cbn [store with_store platformApiKeys];
      rewrite JsMap_values_set_new by done; rewrite map_app; apply NoDup_app;
      (split; [done|]); (split; [|apply NoDup_singleton]);
      intros x Hx Hx'; apply list_elem_of_In in Hx; apply list_elem_of_singleton in Hx';
      subst x; apply in_map_iff in Hx as (k & Hk & Hin);
      pose proof (find_none _ _ Hfind k Hin) as Hf; simpl in Hf;
      apply Z.eqb_neq in Hf; done.
Qed.

Lemma one_credential_record_per_user_witness :
  exists r s',
    post_apikeys (Some (keys_for 1 (Some (Some "AIza")) None)) s_twitter = Ret r s' /\
    apikeys_wf (store s') /\ one_record_per_user (store s').
Proof.
  apply (one_credential_record_per_user (Some (keys_for 1 (Some (Some "AIza")) None)) s_twitter).
  - split; [apply NoDup_singleton | by repeat constructor].
  - apply NoDup_singleton.
Defined.

(** ** A live result outlives its credential *)

(** X16: After a live read that went through, the credential is cleared by
    [POST /api/apikeys] with [youtubeKey: null]; the next read makes no
    request, reads no clock, and returns the live figures that were cached,
    as they were: [lastUpdated] is still the time of the live read and there
    is no error field. *)
Theorem cached_live_outlives_credential (fuel : nat) (userId days : Z) (s : State)
    (apiKey : string) (channel : Channel) (items : list SearchItem)
    (videoStatsItems : list (option VideoStatistics)) :
  apikeys_wf (store s) ->
  as_key (opt_field (find_by_user userId (platformApiKeys (store s))) "youtubeKey")
    = Some apiKey ->
  answers (world s) channel items videoStatsItems ->
  exists live s1 r s2,
    MemStorage_getPlatformStats (S fuel) userId "youtube" days s = Ret (Some live) s1 /\
    SocialStats.followers live = subscriberCount channel /\
    SocialStats.lastUpdated live = now_at (world s) (S (S (ticks (world s)))) /\
    SocialStats.errorMessage live = None /\
    post_apikeys (Some (clear_youtube userId)) s1 = Ret r s2 /\ status r = 200 /\
    no_credential (store s2) userId "youtube" /\
    MemStorage_getPlatformStats (S fuel) userId "youtube" days s2
      = Ret (Some live) (logged (CallGetPlatformStats userId "youtube" days) s2).
Proof.
  intros Hwf Hkey Hans.
  pose proof (youtube_live_read fuel userId days s apiKey _ _ _ Hkey Hans) as Hread.
  cbv zeta in Hread.
  match type of Hread with
  | _ = Ret (Some ?l) ?st => set (live := l) in *; set (s1 := st) in *
  end.
  assert (exists old, find_by_user userId (platformApiKeys (store s)) = Some old) as [old Hold].
  { destruct (find_by_user userId (platformApiKeys (store s))); [by eexists | done]. }
  destruct (post_apikeys_run (clear_youtube userId) s1 Hwf)
    as (status & k & s2 & Hrun & _ & Hfind & Hmerge & Hcache & _).
  specialize (Hmerge old Hold). subst k.
  assert (status = 200) as ->.
  { unfold post_apikeys, try_catch in Hrun. unfold bind at 1, getApiKeys in Hrun.
    change (platformApiKeys (store s1)) with (platformApiKeys (store s)) in Hrun.
    cbn [clear_youtube InsertApiKey.userId] in Hrun. rewrite Hold in Hrun.
    unfold bind at 1, updateApiKeys in Hrun.
    change (platformApiKeys (store s1)) with (platformApiKeys (store s)) in Hrun.
    rewrite Hold in Hrun. by injection Hrun as <- _. }
  assert (no_credential (store s2) userId "youtube") as Hno.
  { unfold no_credential. cbn [clear_youtube InsertApiKey.userId] in Hfind.
    change ("youtube" +:+ "Key") with "youtubeKey". by rewrite Hfind. }
  exists live, s1. eexists. exists s2.
  split; [exact Hread|]. split; [done|]. split; [done|]. split; [done|].
  split; [exact Hrun|]. split; [done|]. split; [exact Hno|].
  rewrite getPlatformStats_no_credential by exact Hno.
  rewrite Hcache. unfold s1. cbn [store cached with_store socialStats].
  by rewrite lookup_insert_eq.
Qed.

Lemma cached_live_outlives_credential_witness :
  ticks (world s_youtube_online) = 5%nat /\
  exists live s1 r s2,
    MemStorage_getPlatformStats 1 1 "youtube" 7 s_youtube_online = Ret (Some live) s1 /\
    SocialStats.followers live = 1500 /\
    SocialStats.lastUpdated live = demo_clock 7 /\
    SocialStats.errorMessage live = None /\
    post_apikeys (Some (clear_youtube 1)) s1 = Ret r s2 /\ status r = 200 /\
    no_credential (store s2) 1 "youtube" /\
    MemStorage_getPlatformStats 1 1 "youtube" 7 s2
      = Ret (Some live) (logged (CallGetPlatformStats 1 "youtube" 7) s2).
Proof.
  split; [reflexivity|].
  apply (cached_live_outlives_credential 0 1 7 s_youtube_online "AIza"
           {| subscriberCount := 1500; channelViewCount := 90000;
              channelCommentCount := 40 |}
           (live_items demo_live) (live_videoStats demo_live)).
  - split; [apply NoDup_singleton | by repeat constructor].
  - reflexivity.
  - exists demo_body, [], demo_body, demo_body. by repeat split.
Defined.

(** ** Subscriptions *)

Section PaymentFacts.
Variable hmac_hex : string -> string.
Variable plus_one_month : string -> string.
Variable plus_one_year : string -> string.

(** X17: [POST /api/subscription] answers 201 or 400.  It answers 201 exactly
    when [userId], [plan], [paymentId] and [orderId] are all present and
    truthy, the signature is absent or empty or is the HMAC of
    "orderId|paymentId", and the plan is 'monthly' or 'annual'; a request
    without a signature is accepted unverified.  On a 400 neither the store
    nor the subscriptions change. *)
Theorem post_subscription_outcomes (body : SubscriptionBody) (site : Site) :
  let r := fst (post_subscription hmac_hex plus_one_month plus_one_year body site) in
  let site' := snd (post_subscription hmac_hex plus_one_month plus_one_year body site) in
  (code r = 201 \/ code r = 400) /\
  (code r = 400 ->
     billing site' = billing site /\ store (app site') = store (app site)) /\
  (code r = 201 <->
     exists userId plan paymentId orderId,
       truthy_id (b_userId body) = Some userId /\
       or_null (b_plan body) = Some plan /\
       or_null (b_paymentId body) = Some paymentId /\
       or_null (b_orderId body) = Some orderId /\
       (forall signature, or_null (b_signature body) = Some signature ->
          hmac_hex (orderId +:+ "|" +:+ paymentId) = signature) /\
       (plan = "monthly" \/ plan = "annual")).
Proof.
  unfold post_subscription.
  destruct (truthy_id (b_userId body)) as [userId|];
    [|cbn; split; [by right|]; split; [done|]; split; [done|]; by intros (? & ? & ? & ? & [=] & _)].
  destruct (or_null (b_plan body)) as [plan|];
    [|cbn; split; [by right|]; split; [done|]; split; [done|];
      by intros (? & ? & ? & ? & _ & [=] & _)].
  destruct (or_null (b_paymentId body)) as [paymentId|];
    [|cbn; split; [by right|]; split; [done|]; split; [done|];
      by intros (? & ? & ? & ? & _ & _ & [=] & _)].
  destruct (or_null (b_orderId body)) as [orderId|];
    [|cbn; split; [by right|]; split; [done|]; split; [done|];
      by intros (? & ? & ? & ? & _ & _ & _ & [=] & _)].
  destruct (or_null (b_signature body)) as [signature|] eqn:Hsig.
  - unfold verifyPaymentSignature.
    destruct (String.eqb_spec (hmac_hex (orderId +:+ "|" +:+ paymentId)) signature) as [Hv|Hv];
      cbn [negb].
    + destruct (String.eqb_spec plan "monthly") as [->|Hm];
        [|destruct (String.eqb_spec plan "annual") as [->|Ha]]; cbn.
      * split; [by left|]. split; [done|]. split; [|done]. intros _.
        exists userId, "monthly", paymentId, orderId. repeat split; auto.
        by intros sig [= <-].
      * split; [by left|]. split; [done|]. split; [|done]. intros _.
        exists userId, "annual", paymentId, orderId. repeat split; auto.
        by intros sig [= <-].
      * split; [by right|]. split; [done|]. split; [done|].
        intros (? & ? & ? & ? & _ & [= <-] & _ & _ & _ & [?|?]); done.
    + cbn. split; [by right|]. split; [done|]. split; [done|].
      intros (? & ? & ? & ? & _ & _ & [= <-] & [= <-] & Hs & _).
      by specialize (Hs signature eq_refl).
  - destruct (String.eqb_spec plan "monthly") as [->|Hm];
      [|destruct (String.eqb_spec plan "annual") as [->|Ha]]; cbn.
    + split; [by left|]. split; [done|]. split; [|done]. intros _.
      exists userId, "monthly", paymentId, orderId. repeat split; auto. done.
    + split; [by left|]. split; [done|]. split; [|done]. intros _.
      exists userId, "annual", paymentId, orderId. repeat split; auto. done.
    + split; [by right|]. split; [done|]. split; [done|].
      intros (? & ? & ? & ? & _ & [= <-] & _ & _ & _ & [?|?]); done.
Qed.

Lemma find_set_is_Some {V : Type} (test : V -> bool) k (v : V) (m : JsMap.t V) :
  test v = true -> is_Some (List.find test (JsMap.values (JsMap.set k v m))).
Proof.
  intros Hv. induction m as [|[k' v'] m IH]; simpl.
  - rewrite Hv. by eexists.
  - destruct (Z.eqb k k'); simpl.
    + rewrite Hv. by eexists.
    + destruct (test v'); [by eexists | exact IH].
Qed.

(** X18: A successful [POST /api/subscription] for an existing user sets that
    user's [isPro] and nothing else on the record, leaves a subscription on
    file for the user, and opens the window: from then on neither
    [GET /api/stats] nor [GET /api/posts] answers 403 for that user, whatever
    [days] is. *)
Theorem subscription_unlocks_window (getTime : string -> option Z) (body : SubscriptionBody)
    (site : Site) (userId : Z) (user : User.t) :
  truthy_id (b_userId body) = Some userId ->
  JsMap.get userId (users (store (app site))) = Some user ->
  code (fst (post_subscription hmac_hex plus_one_month plus_one_year body site)) = 201 ->
  let site' := snd (post_subscription hmac_hex plus_one_month plus_one_year body site) in
  JsMap.get userId (users (store (app site'))) = Some (merge_user user set_pro) /\
  User.isPro (merge_user user set_pro) = true /\
  User.isFirstLogin (merge_user user set_pro) = User.isFirstLogin user /\
  is_Some (getSubscription userId (billing site')) /\
  forall fuel q r s'',
    query_userId q = userId ->
    get_stats fuel q (app site') = Ret r s'' \/ get_posts getTime fuel q (app site') = Ret r s'' ->
    status r <> 403.
Proof.
  intros Hid Hu. unfold post_subscription. rewrite Hid.
  destruct (or_null (b_plan body)) as [plan|]; [|done].
  destruct (or_null (b_paymentId body)) as [paymentId|]; [|done].
  destruct (or_null (b_orderId body)) as [orderId|]; [|done].
  destruct (match or_null (b_signature body) with
            | Some signature => negb (verifyPaymentSignature hmac_hex orderId paymentId signature)
            | None => false
            end); [done|].
  destruct (if String.eqb plan "monthly" then _ else _) as [endDate|]; [|done].
  cbn [fst snd code app billing]. intros _.
  assert (JsMap.get userId
            (users (store (exec (updateUser userId set_pro) (ticked (ticked (app site))))))
          = Some (merge_user user set_pro)) as Hget.
  { unfold exec, updateUser. cbn [store ticked with_world]. rewrite Hu.
    cbn [final_state store with_store users]. apply JsMap_get_set_eq. }
  split; [exact Hget|]. split; [done|]. split; [done|]. split.
  - unfold getSubscription, createSubscription. cbn [snd userSubscriptions].
    apply find_set_is_Some. simpl. apply Z.eqb_refl.
  - intros fuel q r s'' Hq Hr.
    assert (negb (User.isPro (merge_user user set_pro)) && (7 <? query_days q) = false)
      as Hg by done.
    subst userId. destruct Hr as [Hr|Hr].
    + destruct (get_stats_past_gate _ _ _ _ _ _ Hget Hg Hr) as [-> | ->]; lia.
    + rewrite (get_posts_past_gate _ _ _ _ _ _ _ Hget Hg Hr). lia.
Qed.

Lemma createSubscription_billing_ok (ins : InsertSubscription.t) (b : Billing) :
  billing_ok b -> billing_ok (snd (createSubscription ins b)).
Proof.
  intros Hok. unfold billing_ok, createSubscription.
  cbn [snd userSubscriptions currentSubscriptionId].
  apply JsMap_set_Forall; [simpl; lia|].
  eapply Forall_impl; [exact Hok|]. simpl. intros kv Hlt. lia.
Qed.

Lemma createSubscription_keeps_first (ins : InsertSubscription.t) (b : Billing)
    (userId : Z) (old : Subscription.t) :
  billing_ok b -> getSubscription userId b = Some old ->
  getSubscription userId (snd (createSubscription ins b)) = Some old.
Proof.
  intros Hok Hold. unfold getSubscription, createSubscription. cbn [snd userSubscriptions].
  apply find_keeps_first; [|exact Hold].
  intros Hin. apply in_map_iff in Hin as ([key k] & Hkey & Hin).
  unfold billing_ok in Hok. rewrite List.Forall_forall in Hok.
  specialize (Hok _ Hin). simpl in *. lia.
Qed.

(** X19: The first subscription wins: once a user has a subscription on file,
    no later [POST /api/subscription], accepted or not, changes what
    [GET /api/subscription] answers for that user. *)
Theorem first_subscription_wins (body : SubscriptionBody) (site : Site) (userId : Z)
    (old : Subscription.t) :
  billing_ok (billing site) ->
  getSubscription userId (billing site) = Some old ->
  let site' := snd (post_subscription hmac_hex plus_one_month plus_one_year body site) in
  getSubscription userId (billing site') = Some old /\
  get_subscription (Num userId) site' = get_subscription (Num userId) site /\
  billing_ok (billing site').
Proof.
  intros Hok Hold site'.
  assert (getSubscription userId (billing site') = Some old /\ billing_ok (billing site'))
    as [Hsame Hok'].
  { unfold site', post_subscription.
    destruct (truthy_id (b_userId body)) as [u|]; [|done].
    destruct (or_null (b_plan body)) as [plan|]; [|done].
    destruct (or_null (b_paymentId body)) as [paymentId|]; [|done].
    destruct (or_null (b_orderId body)) as [orderId|]; [|done].
    destruct (match or_null (b_signature body) with
              | Some signature =>
                  negb (verifyPaymentSignature hmac_hex orderId paymentId signature)
              | None => false
              end); [done|].
    destruct (if String.eqb plan "monthly" then _ else _) as [endDate|]; [|done].
    cbn [snd billing]. split.
    - by apply createSubscription_keeps_first.
    - by apply createSubscription_billing_ok. }
  split; [done|]. split; [|done].
  unfold get_subscription. destruct userId; [done| |]; by rewrite Hsame, Hold.
Qed.

End PaymentFacts.

Lemma subscription_replies_example :
  code (fst (post_subscription demo_hmac demo_month demo_year (monthly_body 1 None) site_alice))
    = 201 /\
  code (fst (post_subscription demo_hmac demo_month demo_year
               (monthly_body 1 (Some "forged")) site_alice)) = 400 /\
  code (fst (post_subscription demo_hmac demo_month demo_year (annual_body 1) site_alice))
    = 201.
Proof. repeat split. Qed.

Lemma subscription_unlocks_window_witness :
  JsMap.get 1 (users (store (app site_subscribed))) = Some (merge_user alice_user set_pro) /\
  User.isPro (merge_user alice_user set_pro) = true /\
  User.isFirstLogin (merge_user alice_user set_pro) = User.isFirstLogin alice_user /\
  is_Some (getSubscription 1 (billing site_subscribed)) /\
  forall fuel q r s'',
    query_userId q = 1 ->
    get_stats fuel q (app site_subscribed) = Ret r s'' \/
    get_posts iso_getTime fuel q (app site_subscribed) = Ret r s'' ->
    status r <> 403.
Proof.
  apply (subscription_unlocks_window demo_hmac demo_month demo_year iso_getTime
           (monthly_body 1 None) site_alice 1 alice_user); reflexivity.
Defined.

Lemma first_subscription_wins_witness :
  exists old,
    getSubscription 1 (billing site_subscribed) = Some old /\
    Subscription.plan old = "monthly" /\
    let site' :=
      snd (post_subscription demo_hmac demo_month demo_year (annual_body 1) site_subscribed) in
    getSubscription 1 (billing site') = Some old /\
    get_subscription (Num 1) site' = get_subscription (Num 1) site_subscribed /\
    billing_ok (billing site').
Proof.
  eexists. split; [reflexivity|]. split; [reflexivity|].
  apply (first_subscription_wins demo_hmac demo_month demo_year (annual_body 1)
           site_subscribed 1).
  - repeat constructor.
  - reflexivity.
Defined.

(** X20: A subscription made for a user who had none is what
    [GET /api/subscription] answers for that user afterwards: the reply
    carries the record the POST returned. *)
Theorem subscription_round_trip (hmac_hex plus_one_month plus_one_year : string -> string)
    (body : SubscriptionBody) (site : Site) (userId : Z) :
  truthy_id (b_userId body) = Some userId ->
  getSubscription userId (billing site) = None ->
  code (fst (post_subscription hmac_hex plus_one_month plus_one_year body site)) = 201 ->
  get_subscription (Num userId)
      (snd (post_subscription hmac_hex plus_one_month plus_one_year body site))
    = {| code := 200;
         payload := payload (fst (post_subscription hmac_hex plus_one_month plus_one_year
                                    body site)) |} /\
  exists subscription,
    payload (fst (post_subscription hmac_hex plus_one_month plus_one_year body site))
      = SubscriptionJson subscription /\
    Subscription.userId subscription = userId /\
    Subscription.status subscription = "active" /\
    Subscription.startDate subscription
      = now_at (world (app site)) (ticks (world (app site))) /\
    or_null (b_plan body) = Some (Subscription.plan subscription).
Proof.
  intros Hid Hnone. unfold post_subscription. rewrite Hid.
  assert (userId <> 0) as Hnz.
  { unfold truthy_id in Hid. destruct (b_userId body) as [z|]; [|done].
    destruct (Z.eqb_spec z 0); [done|]. by injection Hid as <-. }
  destruct (or_null (b_plan body)) as [plan|]; [|done].
  destruct (or_null (b_paymentId body)) as [paymentId|]; [|done].
  destruct (or_null (b_orderId body)) as [orderId|]; [|done].
  destruct (match or_null (b_signature body) with
            | Some signature => negb (verifyPaymentSignature hmac_hex orderId paymentId signature)
            | None => false
            end); [done|].
  destruct (if String.eqb plan "monthly" then _ else _) as [endDate|]; [|done].
  cbn [fst snd code payload app billing]. intros _. split.
  - unfold get_subscription, getSubscription, createSubscription.
    cbn [fst snd userSubscriptions billing].
    rewrite find_after_set_new; [by destruct userId | exact Hnone | simpl; apply Z.eqb_refl].
  - eexists. split; [reflexivity|]. done.
Qed.

Lemma subscription_round_trip_witness :
  get_subscription (Num 1) site_subscribed
    = {| code := 200;
         payload := payload (fst (post_subscription demo_hmac demo_month demo_year
                                    (monthly_body 1 None) site_alice)) |} /\
  exists subscription,
    payload (fst (post_subscription demo_hmac demo_month demo_year
                    (monthly_body 1 None) site_alice))
      = SubscriptionJson subscription /\
    Subscription.userId subscription = 1 /\
    Subscription.status subscription = "active" /\
    Subscription.startDate subscription
      = now_at (world (app site_alice)) (ticks (world (app site_alice))) /\
    or_null (b_plan (monthly_body 1 None)) = Some (Subscription.plan subscription).
Proof.
  apply (subscription_round_trip demo_hmac demo_month demo_year (monthly_body 1 None)
           site_alice 1); reflexivity.
Defined.

Lemma find_set_other {V : Type} (test : V -> bool) k (v old : V) (m : JsMap.t V) :
  JsMap.get k m = Some old -> test old = false -> test v = false ->
  List.find test (JsMap.values (JsMap.set k v m)) = List.find test (JsMap.values m).
Proof.
  intros Hget Hold Hv. induction m as [|[k' v'] m IH]; simpl in *; [done|].
  destruct (Z.eqb_spec k k') as [->|Hne]; simpl.
  - injection Hget as ->. by rewrite Hold, Hv.
  - destruct (test v'); [done|]. by apply IH.
Qed.

Lemma JsMap_keys_set_same {V : Type} k (v old : V) (m : JsMap.t V) :
  JsMap.get k m = Some old -> JsMap.keys (JsMap.set k v m) = JsMap.keys m.
Proof.
  intros Hget. induction m as [|[k' v'] m IH]; simpl in *; [done|].
  destruct (Z.eqb_spec k k') as [->|Hne]; simpl; [done|]. f_equal. by apply IH.
Qed.

Lemma billing_wf_new : billing_wf Billing_new.
Proof. split; [constructor|]. split; [apply NoDup_nil_2 | constructor]. Qed.

Lemma createSubscription_billing_wf (ins : InsertSubscription.t) (b : Billing) :
  billing_wf b -> billing_wf (snd (createSubscription ins b)).
Proof.
  intros (Hok & Hnd & Hid). split; [by apply createSubscription_billing_ok|].
  unfold createSubscription. cbn [snd userSubscriptions].
  assert (~ In (currentSubscriptionId b) (JsMap.keys (userSubscriptions b))) as Hnew.
  { intros Hin. apply in_map_iff in Hin as ([key k] & Hkey & Hin).
    unfold billing_ok in Hok. rewrite List.Forall_forall in Hok.
    specialize (Hok _ Hin). simpl in *. lia. }
  split.
  - rewrite JsMap_keys_set_new by done. apply NoDup_app. split; [done|].
    split; [|apply NoDup_singleton].
    intros x Hx Hx'. apply list_elem_of_In in Hx. apply list_elem_of_singleton in Hx'.
    by subst.
  - by apply JsMap_set_Forall.
Qed.

(** X21: [updateSubscription], given the id of a user's subscription and data
    that names neither [id] nor [userId], replaces that record by the merged
    one: it is what [getSubscription] returns for the user afterwards, every
    other user's subscription is as before, the counter is unchanged and the
    map stays well formed.  For an id that is not in the map it returns
    nothing and changes nothing. *)
Theorem updateSubscription_round_trip (b : Billing) (userId : Z)
    (subscription : Subscription.t) (data : PartialSubscription.t) :
  billing_wf b ->
  getSubscription userId b = Some subscription ->
  PartialSubscription.id data = None ->
  PartialSubscription.userId data = None ->
  let updated := merge_subscription subscription data in
  let b' := snd (updateSubscription (Subscription.id subscription) data b) in
  fst (updateSubscription (Subscription.id subscription) data b) = Some updated /\
  getSubscription userId b' = Some updated /\
  (forall other, other <> userId -> getSubscription other b' = getSubscription other b) /\
  currentSubscriptionId b' = currentSubscriptionId b /\
  billing_wf b' /\
  (forall id, JsMap.get id (userSubscriptions b) = None ->
     updateSubscription id data b = (None, b)).
Proof.
  intros (Hok & Hnd & Hid) Hfind Hdid Hduid updated b'.
  destruct (find_In _ _ _ Hfind) as (Ht & k & Hin).
  apply Z.eqb_eq in Ht.
  assert (k = Subscription.id subscription) as ->.
  { rewrite List.Forall_forall in Hid. exact (Hid _ Hin). }
  pose proof (JsMap_get_In _ _ _ Hnd Hin) as Hget.
  assert (Subscription.userId updated = userId) as Hu.
  { unfold updated, merge_subscription. simpl. by rewrite Hduid. }
  assert (Subscription.id updated = Subscription.id subscription) as Hi.
  { unfold updated, merge_subscription. simpl. by rewrite Hdid. }
  unfold b', updateSubscription. rewrite Hget. cbn [fst snd userSubscriptions currentSubscriptionId].
  split; [done|]. split; [|split; [|split; [done|split]]].
  - unfold getSubscription. cbn [userSubscriptions].
    apply (find_after_set_same _ Subscription.id); try done.
    fold updated. rewrite Hu. apply Z.eqb_refl.
  - intros other Hne. unfold getSubscription. cbn [userSubscriptions].
    apply (find_set_other _ _ _ subscription); [done| |].
    + apply Z.eqb_neq. lia.
    + fold updated. apply Z.eqb_neq. lia.
  - split; [|split]; cbn [userSubscriptions currentSubscriptionId].
    + unfold billing_ok. cbn [userSubscriptions currentSubscriptionId].
      apply JsMap_set_Forall; [|exact Hok].
      unfold billing_ok in Hok. rewrite List.Forall_forall in Hok. exact (Hok _ Hin).
    + by rewrite (JsMap_keys_set_same _ _ subscription).
    + apply JsMap_set_Forall; [|done]. cbn [fst snd]. exact (eq_sym Hi).
  - intros id Hnone. by rewrite Hnone.
Qed.

Lemma updateSubscription_round_trip_witness :
  exists subscription,
    getSubscription 1 (billing site_subscribed) = Some subscription /\
    let updated := merge_subscription subscription cancel in
    let b' := snd (updateSubscription (Subscription.id subscription) cancel
                     (billing site_subscribed)) in
    Subscription.status updated = "cancelled" /\
    fst (updateSubscription (Subscription.id subscription) cancel (billing site_subscribed))
      = Some updated /\
    getSubscription 1 b' = Some updated /\
    (forall other, other <> 1 ->
       getSubscription other b' = getSubscription other (billing site_subscribed)) /\
    currentSubscriptionId b' = currentSubscriptionId (billing site_subscribed) /\
    billing_wf b' /\
    (forall id, JsMap.get id (userSubscriptions (billing site_subscribed)) = None ->
       updateSubscription id cancel (billing site_subscribed)
         = (None, billing site_subscribed)).
Proof.
  eexists. split; [reflexivity|]. split; [reflexivity|].
  apply (updateSubscription_round_trip (billing site_subscribed) 1 _ cancel).
  - apply (createSubscription_billing_wf _ Billing_new), billing_wf_new.
  - reflexivity.
  - reflexivity.
  - reflexivity.
Defined.

(** ** E-mail addresses *)

(** X22: [POST /api/user] looks accounts up by [firebaseUid] only: a sign-up
    under a new [firebaseUid] with an e-mail address another user already
    has is answered 201 and creates a second account with that address;
    [getUserByEmail] keeps returning the earlier account. *)
Theorem email_is_not_unique (d : UserBody.t) (s : State) (old : User.t) :
  users_ok (store s) ->
  getUserByEmail (UserBody.email d) s = Ret (Some old) s ->
  find_by_uid (UserBody.firebaseUid d) (users (store s)) = None ->
  exists newUser s',
    post_user (Some d) s = Ret {| code := 201; payload := Profile (userProfile newUser) |} s' /\
    User.id newUser <> User.id old /\
    User.email newUser = User.email old /\
    getUser (User.id newUser) s' = Ret (Some newUser) s' /\
    getUser (User.id old) s' = Ret (Some old) s' /\
    getUserByEmail (UserBody.email d) s' = Ret (Some old) s'.
Proof.
  intros Hok Hmail Hnone.
  destruct (post_user_create_run d s Hok Hnone)
    as (newUser & s' & Hpost & Hcreate & Hnewid & _ & Hget & _ & _).
  exists newUser, s'. split; [exact Hpost|].
  unfold getUserByEmail in Hmail. injection Hmail as Hmail.
  destruct (find_In _ _ _ Hmail) as (Ht & k & Hin). apply String.eqb_eq in Ht.
  destruct Hok as (Hfresh & _ & Hnd & Hid & _).
  assert (k = User.id old) as ->.
  { rewrite List.Forall_forall in Hid. exact (Hid _ Hin). }
  assert (User.id old < currentUserId (store s)) as Hlt.
  { apply Hfresh. apply in_map_iff. by exists (User.id old, old). }
  assert (~ In (currentUserId (store s)) (JsMap.keys (users (store s)))) as Hnew.
  { intros Hin'. apply Hfresh in Hin'. lia. }
  unfold createUser, bind, now in Hcreate. injection Hcreate as Hu Hs'.
  split; [lia|]. split; [by rewrite <- Hu, Ht|].
  unfold getUser. rewrite Hget. split; [done|]. subst s'.
  cbn [store with_store ticked with_world users]. split.
  - rewrite JsMap_get_set_ne by lia. f_equal. f_equal. by apply JsMap_get_In.
  - unfold getUserByEmail. cbn [store with_store ticked with_world users].
    f_equal. f_equal. by apply find_keeps_first.
Qed.

Lemma email_is_not_unique_witness :
  exists newUser s',
    post_user (Some mallory_body) s_alice
      = Ret {| code := 201; payload := Profile (userProfile newUser) |} s' /\
    User.id newUser <> User.id alice_user /\
    User.email newUser = User.email alice_user /\
    getUser (User.id newUser) s' = Ret (Some newUser) s' /\
    getUser (User.id alice_user) s' = Ret (Some alice_user) s' /\
    getUserByEmail (UserBody.email mallory_body) s' = Ret (Some alice_user) s'.
Proof.
  apply (email_is_not_unique mallory_body s_alice alice_user).
  - split; [intros k [<-|[]]; reflexivity|]. split; [reflexivity|].
    split; [apply NoDup_singleton|].
    split; [by repeat constructor | apply NoDup_singleton].
  - reflexivity.
  - reflexivity.
Defined.

(** ** The adapters' [getPosts] *)

(** X23: [getPosts] of a stub adapter (Twitter, Instagram, Facebook), for a user
    with no credential on file for that platform: it makes no outbound call
    and returns exactly the posts of the cache entry under
    (userId, platform, days); with no such entry it rejects, with
    "... API key is required" for an empty key and
    "... API implementation in progress" otherwise. *)
Theorem stub_getPosts_is_the_cache (fuel : nat) (svc : Service) (userId : Z)
    (apiKey : string) (days : Z) (s : State) :
  svc <> YouTubeApiService ->
  no_credential (store s) userId (service_platform svc) ->
  let message :=
    service_label svc +:+
    (if String.eqb apiKey "" then " API key is required"
     else " API implementation in progress") in
  let s1 := logged (CallGetPlatformStats userId (service_platform svc) days) s in
  Service_getPosts (S fuel) svc userId apiKey days s =
    match socialStats (store s) !! stats_key userId (service_platform svc) days with
    | Some entry => Ret (SocialStats.posts entry) (ticked s1)
    | None => Throw message s1
    end /\
  fetched (world (ticked s1)) = fetched (world s) /\
  store (ticked s1) = store s.
Proof.
  intros Hsvc Hno message s1. split; [|done].
  unfold Service_getPosts, Service_getPlatformStats, Service_getPlatformStats_with.
  unfold bind at 1. unfold try_catch.
  assert (live_fetch svc apiKey s = Throw message s) as ->.
  { unfold live_fetch, message. destruct (String.eqb apiKey ""); [done|]. by destruct svc. }
  unfold bind at 1. rewrite getPlatformStats_no_credential by done. fold s1.
  change (store s1) with (store s).
  by destruct (socialStats (store s) !! stats_key userId (service_platform svc) days).
Qed.

Lemma stub_getPosts_is_the_cache_witness :
  Service_getPosts 1 TwitterApiService 1 "tok" 7 s_alice =
    match socialStats (store s_alice) !! stats_key 1 (service_platform TwitterApiService) 7 with
    | Some entry =>
        Ret (SocialStats.posts entry)
            (ticked (logged (CallGetPlatformStats 1 (service_platform TwitterApiService) 7)
                       s_alice))
    | None =>
        Throw (service_label TwitterApiService +:+
               (if String.eqb "tok" "" then " API key is required"
                else " API implementation in progress"))
              (logged (CallGetPlatformStats 1 (service_platform TwitterApiService) 7) s_alice)
    end /\
  fetched (world (ticked (logged (CallGetPlatformStats 1
                                    (service_platform TwitterApiService) 7) s_alice)))
    = fetched (world s_alice) /\
  store (ticked (logged (CallGetPlatformStats 1 (service_platform TwitterApiService) 7)
                   s_alice)) = store s_alice.
Proof.
  apply (stub_getPosts_is_the_cache 0 TwitterApiService 1 "tok" 7 s_alice);
    [discriminate | reflexivity].
Defined.
